(** * BlrExpansion: the hospital discovery pipelines

    A shallow embedding of [fetch_eye_hospitals_comprehensive.py] and
    [fetch_eye_hospitals.py]: the grid search, the text search, the combiner,
    the single-query fetcher with its sample-data fallback, and the haversine
    distance.

    Conventions.
    - The Google Maps client is an oracle: a state machine whose answers to
      [places_nearby], [places_text] and [place] may depend on everything
      asked before, and each call may fail.
    - Python code run inside [try ... except Exception] lives in a state and
      exception monad; the state reached when the exception is raised is the
      state the handler continues from, as with Python's mutable locals.
    - Python floats are idealised as real numbers.
    - [print] and the counters that only feed it ([zones_searched],
      [zone_hospitals], [keyword_results]) are left out; [time.sleep] and
      every API request are recorded in a trace, so that statements about
      what was requested can be made.
    - The one loop without a bound, the page loop of [fetch_eye_hospitals.py],
      runs on fuel; the loops of the comprehensive script are bounded by their
      page caps and are shown never to run out of it.
    - pandas is a library, not code of the repository: a DataFrame is the
      list of its rows, and [sort_values] is any function meeting the
      contract of the default sort kind (see [Sorter]). *)

From Stdlib Require Import List String Ascii ZArith QArith Bool Lia Permutation Sorted.
From Stdlib Require Import Reals Lra.
Import ListNotations.

Set Implicit Arguments.
Local Open Scope string_scope.
Local Open Scope list_scope.
Local Open Scope Z_scope.

(** ** Python values *)

(** A [dict] with string keys.  Python dicts keep insertion order, and
    [list(d.values())] lists the values in that order. *)
Module Dict.
Definition t (V : Type) := list (string * V).

Definition empty {V} : t V := [].

(** [k in d] *)
Definition mem {V} (k : string) (d : t V) : bool :=
  existsb (fun kv => String.eqb k (fst kv)) d.

(** [d.get(k)] *)
Fixpoint get {V} (k : string) (d : t V) : option V :=
  match d with
  | [] => None
  | (k', v) :: d' => if String.eqb k k' then Some v else get k d'
  end.

(** [d[k] = v]: an existing key keeps its position and gets the new value,
    a new key is appended. *)
Fixpoint set {V} (k : string) (v : V) (d : t V) : t V :=
  match d with
  | [] => [(k, v)]
  | (k', v') :: d' =>
      if String.eqb k k' then (k', v) :: d' else (k', v') :: set k v d'
  end.

Definition keys {V} (d : t V) : list string := map fst d.
Definition values {V} (d : t V) : list V := map snd d.
End Dict.

(** [x.get(key, default)] on a field that may be absent. *)
Definition get_default {A} (field : option A) (default : A) : A :=
  match field with Some v => v | None => default end.

(** Truthiness of [response.get('next_page_token')]: [None] and the empty
    string are falsy. *)
Definition truthy_token (tok : option string) : bool :=
  match tok with
  | None => false
  | Some s => negb (String.eqb s "")
  end.

(** Truthiness of [response.get('results')]: [None] and [[]] are falsy. *)
Definition truthy_list {A} (l : option (list A)) : bool :=
  match l with
  | None | Some [] => false
  | Some (_ :: _) => true
  end.

(** ** Exceptions and state *)

Inductive exn := KeyError | TypeError | ApiError.

Inductive outcome (A : Type) :=
| Ok (a : A)
| Raised (e : exn)
| OutOfFuel.
Arguments Ok {A} a.
Arguments Raised {A} e.
Arguments OutOfFuel {A}.

(** A computation over a state [S] that returns, raises or (for the one
    unbounded loop of the repository) runs out of fuel. *)
Definition M (S A : Type) := S -> S * outcome A.

Definition ret {S A} (a : A) : M S A := fun s => (s, Ok a).

Definition bind {S A B} (m : M S A) (k : A -> M S B) : M S B :=
  fun s =>
    match m s with
    | (s', Ok a) => k a s'
    | (s', Raised e) => (s', Raised e)
    | (s', OutOfFuel) => (s', OutOfFuel)
    end.

Definition raise {S A} (e : exn) : M S A := fun s => (s, Raised e).
Definition diverge {S A} : M S A := fun s => (s, OutOfFuel).
Definition gets {S A} (f : S -> A) : M S A := fun s => (s, Ok (f s)).
Definition modify {S} (f : S -> S) : M S unit := fun s => (f s, Ok tt).

Declare Scope py_scope.
Delimit Scope py_scope with py.
Notation "x <- m ;; k" := (bind m (fun x => k))
  (at level 61, m at next level, right associativity) : py_scope.
Notation "m ;; k" := (bind m (fun _ => k))
  (at level 61, right associativity) : py_scope.
Local Open Scope py_scope.

(** [try: body / except Exception: handler]: the handler runs from the state
    the body had reached. *)
Definition try_except {S A} (body : M S A) (handler : exn -> M S A) : M S A :=
  fun s =>
    match body s with
    | (s', Raised e) => handler e s'
    | r => r
    end.

(** [try: body / except Exception: continue] as the body of a [for]. *)
Definition try_continue {S} (body : M S unit) : M S unit :=
  try_except body (fun _ => ret tt).

(** [for x in xs: body x] *)
Fixpoint for_each {S A} (xs : list A) (body : A -> M S unit) : M S unit :=
  match xs with
  | [] => ret tt
  | x :: xs' => body x ;; for_each xs' body
  end.

(** [d[key]] on a field that may be absent. *)
Definition getitem {S A} (field : option A) : M S A :=
  match field with Some v => ret v | None => raise KeyError end.

(** [enumerate(xs, start)] *)
Fixpoint enumerate {A} (xs : list A) (start : Z) : list (Z * A) :=
  match xs with
  | [] => []
  | x :: xs' => (start, x) :: enumerate xs' (start + 1)
  end.

(** ** The Places API *)

Module Api.
Record Location := { lat : option R; lng : option R }.
Record Geometry := { location : option Location }.
Record OpeningHours := { open_now : option bool }.

(** One item of a search response. *)
Record Place := {
  place_id : option string;
  place_geometry : option Geometry
}.

(** A search response. *)
Record SearchResponse := {
  results : option (list Place);
  next_page_token : option string
}.

(** The [result] object of a details response. *)
Record PlaceData := {
  name : option string;
  formatted_address : option string;
  geometry : option Geometry;
  rating : option R;
  user_ratings_total : option Z;
  website : option string;
  formatted_phone_number : option string;
  opening_hours : option OpeningHours;
  types : option (list string)
}.

Record Details := { result : option PlaceData }.

Inductive reply (A : Type) := Returned (a : A) | Failed.
Arguments Returned {A} a.
Arguments Failed {A}.

(** The client [gmaps]: what each call answers from a given state of the
    outside world, and the state it leaves. *)
Record Client := {
  world : Type;
  places_nearby :
    world -> R * R -> Z -> string -> option string ->
    world * reply SearchResponse;
  places_text :
    world -> string -> option string -> world * reply SearchResponse;
  place : world -> string -> world * reply Details
}.
End Api.

(** What a run does to the outside. *)
Inductive Event :=
| NearbyCall (location : R * R) (radius : Z) (keyword : string)
             (page_token : option string)
| TextCall (query : string) (page_token : option string)
| PlaceCall (place_id : string)
| Sleep (seconds : Q).

Definition is_search (ev : Event) : bool :=
  match ev with
  | NearbyCall _ _ _ _ | TextCall _ _ => true
  | _ => false
  end.

(** ** DataFrames *)

(** A row of the output table ([hospital_info]).  Columns that only some
    pipelines write are optional; [latitude], [longitude] and [rating] are
    [None] where the Python value is [None]. *)
Record Row := {
  name : string;
  address : string;
  latitude : option R;
  longitude : option R;
  rating : option R;
  review_count : Z;
  phone : string;
  website : string;
  place_id : string;
  types : option (list string);
  zone : option Z;
  keyword_found : option string;
  search_method : option string;
  open_now : option bool
}.

Definition DataFrame := list Row.

(** [df.empty] *)
Definition empty (df : DataFrame) : bool :=
  match df with [] => true | _ :: _ => false end.

(** [pd.concat([a, b])] *)
Definition concat (a b : DataFrame) : DataFrame := a ++ b.

(** [df.drop_duplicates(subset=['place_id'], keep='first')] *)
Fixpoint drop_duplicates_from (seen : list string) (df : DataFrame) : DataFrame :=
  match df with
  | [] => []
  | r :: df' =>
      if existsb (String.eqb (place_id r)) seen
      then drop_duplicates_from seen df'
      else r :: drop_duplicates_from (place_id r :: seen) df'
  end.

Definition drop_duplicates (df : DataFrame) : DataFrame :=
  drop_duplicates_from [] df.

(** [df[df['review_count'] >= min_reviews]] *)
Definition at_least (min_reviews : Z) (df : DataFrame) : DataFrame :=
  filter (fun r => min_reviews <=? review_count r) df.

(** Non-increasing review counts. *)
Definition by_reviews_desc (a b : Row) : Prop := review_count b <= review_count a.

(** [df.sort_values('review_count', ascending=False)].  The call leaves
    [kind] at its default, ['quicksort'], which pandas documents as not
    stable: the result is the rows of [df] in non-increasing order of
    [review_count], and nothing is promised about rows that tie. *)
Record Sorter := {
  sort_values : DataFrame -> DataFrame;
  sort_values_perm : forall df, Permutation df (sort_values df);
  sort_values_sorted : forall df, StronglySorted by_reviews_desc (sort_values df)
}.

(** Insertion into a list in non-increasing order.  With [after_ties] unset
    the new row is placed before the rows it ties with, with it set after
    them. *)
Fixpoint insert_desc (after_ties : bool) (r : Row) (l : DataFrame) : DataFrame :=
  match l with
  | [] => [r]
  | x :: l' =>
      if (if after_ties then review_count x <? review_count r
          else review_count x <=? review_count r)
      then r :: x :: l'
      else x :: insert_desc after_ties r l'
  end.

(** Insertion sort from the right: with [after_ties] unset, rows that tie
    stay in their original order (what [kind='stable'] would give); with it
    set they come out reversed. *)
Definition insertion_sort_desc (after_ties : bool) (df : DataFrame) : DataFrame :=
  fold_right (insert_desc after_ties) [] df.

(** ** The client and the run state *)

(** The module-level [gmaps] client as seen by a run: the state of the
    outside world and the trace of what the run has done to it. *)
Record Env (gmaps : Api.Client) := {
  world : Api.world gmaps;
  trace : list Event
}.
Arguments world {gmaps} e.
Arguments trace {gmaps} e.

Section Calls.
Context {gmaps : Api.Client} {L : Type}.

(** The state of a function body: the client and the function's locals. *)
Definition frame := (Env gmaps * L)%type.

Definition emit (ev : Event) : M frame unit :=
  modify (fun s => ({| world := world (fst s); trace := trace (fst s) ++ [ev] |}, snd s)).

(** One request: it is traced, the world moves on, and a failed request
    raises. *)
Definition call {A} (ev : Event)
    (request : Api.world gmaps -> Api.world gmaps * Api.reply A) : M frame A :=
  fun s =>
    let wr := request (world (fst s)) in
    let s' := ({| world := fst wr; trace := trace (fst s) ++ [ev] |}, snd s) in
    match snd wr with
    | Api.Returned a => (s', Ok a)
    | Api.Failed => (s', Raised ApiError)
    end.

Definition gmaps_places_nearby (location : R * R) (radius : Z)
    (keyword : string) (page_token : option string) : M frame Api.SearchResponse :=
  call (NearbyCall location radius keyword page_token)
       (fun w => Api.places_nearby gmaps w location radius keyword page_token).

Definition gmaps_places_text (query : string) (page_token : option string)
    : M frame Api.SearchResponse :=
  call (TextCall query page_token)
       (fun w => Api.places_text gmaps w query page_token).

Definition gmaps_place (place_id : string) : M frame Api.Details :=
  call (PlaceCall place_id) (fun w => Api.place gmaps w place_id).

(** [time.sleep(seconds)] *)
Definition sleep (seconds : Q) : M frame unit := emit (Sleep seconds).

Definition locals {A} (f : L -> A) : M frame A := gets (fun s => f (snd s)).
Definition set_locals (f : L -> L) : M frame unit :=
  modify (fun s => (fst s, f (snd s))).
End Calls.

(** Runs a function body with fresh locals and drops them on return. *)
Definition with_locals {gmaps L A} (init : L) (body : M (@frame gmaps L) A)
    : M (Env gmaps) A :=
  fun e => let r := body (e, init) in (fst (fst r), snd r).

(** [place_data['geometry']['location'][key]] *)
Definition geometry_location (g : option Api.Geometry)
    (key : Api.Location -> option R) : option R :=
  match g with
  | Some {| Api.location := Some loc |} => key loc
  | _ => None
  end.

(** * fetch_eye_hospitals_comprehensive.py *)

Module Comprehensive.

Definition BANGALORE_CENTER : R * R := (12.9716, 77.5946)%R.

Definition GRID_POINTS : list (R * R) :=
  [ (12.9716, 77.5946);
    (13.0500, 77.5946); (13.1200, 77.5946);
    (12.8900, 77.5946); (12.8100, 77.5946);
    (12.9716, 77.7000); (12.9716, 77.8000);
    (12.9716, 77.4800); (12.9716, 77.3800);
    (13.0500, 77.7000);
    (13.0500, 77.4800);
    (12.8900, 77.7000);
    (12.8900, 77.4800) ]%R.

Definition KEYWORDS : list string :=
  [ "eye hospital"; "ophthalmology hospital"; "eye clinic";
    "eye care center"; "eye institute"; "cornea hospital";
    "retina hospital"; "cataract hospital" ].

(** [math.radians] *)
Definition radians (x : R) : R := (x * (PI / 180))%R.

(** [math.atan2] *)
Definition atan2 (y x : R) : R :=
  (if Rlt_dec 0 x then atan (y / x)
   else if Rlt_dec x 0 then
     (if Rle_dec 0 y then atan (y / x) + PI else atan (y / x) - PI)
   else if Rlt_dec 0 y then PI / 2
   else if Rlt_dec y 0 then - (PI / 2)
   else 0)%R.

Definition haversine_distance (lat1 lon1 lat2 lon2 : R) : R :=
  (let R := 6371 in
   let lat1 := radians lat1 in
   let lon1 := radians lon1 in
   let lat2 := radians lat2 in
   let lon2 := radians lon2 in
   let dlat := lat2 - lat1 in
   let dlon := lon2 - lon1 in
   let a := sin (dlat / 2) ^ 2 + cos lat1 * cos lat2 * sin (dlon / 2) ^ 2 in
   let c := 2 * atan2 (sqrt a) (sqrt (1 - a)) in
   let distance := R * c in
   distance)%R.

(** [distance > 50] *)
Definition exceeds (distance limit : R) : bool :=
  if Rgt_dec distance limit then true else false.

(** The locals of both fetch functions. *)
Record Locals := {
  all_hospitals : Dict.t Row;
  total_requests : Z
}.

Definition fresh : Locals := {| all_hospitals := Dict.empty; total_requests := 0 |}.

Section WithClient.
Variable pandas : Sorter.
Variable gmaps : Api.Client.

Local Abbreviation Body := (M (@frame gmaps Locals)).

(** [total_requests += 1] *)
Definition count_request : Body unit :=
  set_locals (fun l => {| all_hospitals := all_hospitals l;
                          total_requests := total_requests l + 1 |}).

(** [all_hospitals[place_id] = hospital_info] *)
Definition store (place_id : string) (hospital_info : Row) : Body unit :=
  set_locals (fun l => {| all_hospitals := Dict.set place_id hospital_info (all_hospitals l);
                          total_requests := total_requests l |}).

(** [if total_requests % 10 == 0: time.sleep(1)] *)
Definition rate_limit : Body unit :=
  n <- locals total_requests ;;
  if n mod 10 =? 0 then sleep 1 else ret tt.

(** The rows of [all_hospitals], sorted, or an empty frame. *)
Definition to_frame : Body DataFrame :=
  all <- locals all_hospitals ;;
  match all with
  | [] => ret []
  | _ :: _ => ret (sort_values pandas (Dict.values all))
  end.

(** *** Grid search *)

(** The body of the [try] around one search result (lines 139-180). *)
Definition grid_place (min_reviews : Z) (zone_idx : Z) (keyword : string)
    (place : Api.Place) : Body unit :=
  place_id <- getitem (Api.place_id place) ;;
  all <- locals all_hospitals ;;
  if Dict.mem place_id all then ret tt
  else
    details <- gmaps_place place_id ;;
    count_request ;;
    place_data <- getitem (Api.result details) ;;
    let review_count := get_default (Api.user_ratings_total place_data) 0 in
    (if review_count >=? min_reviews then
       latitude <- getitem (geometry_location (Api.geometry place_data) Api.lat) ;;
       longitude <- getitem (geometry_location (Api.geometry place_data) Api.lng) ;;
       let hospital_info :=
         {| name := get_default (Api.name place_data) "N/A";
            address := get_default (Api.formatted_address place_data) "N/A";
            latitude := Some latitude;
            longitude := Some longitude;
            rating := Api.rating place_data;
            review_count := review_count;
            phone := get_default (Api.formatted_phone_number place_data) "N/A";
            website := get_default (Api.website place_data) "N/A";
            place_id := place_id;
            types := Some (get_default (Api.types place_data) []);
            zone := Some zone_idx;
            keyword_found := Some keyword;
            search_method := None;
            open_now := None |} in
       store place_id hospital_info
     else ret tt) ;;
    rate_limit.

(** The [while True] loop of one keyword in one zone (lines 119-190);
    [page_num] is the number of pages already requested. *)
Fixpoint grid_pages (fuel : nat) (min_reviews search_radius : Z)
    (zone_idx : Z) (location : R * R) (keyword : string)
    (page_num : Z) (next_page_token : option string) : Body unit :=
  match fuel with
  | O => diverge
  | S fuel' =>
      let page_num := page_num + 1 in
      places_result <-
        gmaps_places_nearby location search_radius keyword next_page_token ;;
      count_request ;;
      if negb (truthy_list (Api.results places_result)) then ret tt
      else
        for_each (get_default (Api.results places_result) [])
          (fun place =>
             try_continue (grid_place min_reviews zone_idx keyword place)) ;;
        let next_page_token := Api.next_page_token places_result in
        if negb (truthy_token next_page_token) || (page_num >=? 3) then ret tt
        else
          sleep 1 ;;
          grid_pages fuel' min_reviews search_radius zone_idx location
                     keyword page_num next_page_token
  end.

(** One keyword in one zone: the [try] of lines 115-193.  Three pages at
    most are requested, so a fuel of 3 is never used up. *)
Definition grid_keyword (min_reviews search_radius : Z) (zone_idx : Z)
    (location : R * R) (keyword : string) : Body unit :=
  try_continue
    (grid_pages 3 min_reviews search_radius zone_idx location keyword 0 None).

(** One zone (lines 110-200). *)
Definition grid_zone (min_reviews search_radius : Z)
    (zone : Z * (R * R)) : Body unit :=
  for_each KEYWORDS
    (grid_keyword min_reviews search_radius (fst zone) (snd zone)) ;;
  sleep 0.5.

Definition grid_body (min_reviews search_radius : Z) : Body DataFrame :=
  for_each (enumerate GRID_POINTS 1) (grid_zone min_reviews search_radius) ;;
  to_frame.

Definition fetch_hospitals_grid_search (min_reviews search_radius : Z)
    : M (Env gmaps) DataFrame :=
  with_locals fresh (grid_body min_reviews search_radius).

(** *** Text search *)

(** [haversine_distance] on coordinates read with [.get]: [radians(None)]
    raises. *)
Definition distance_from_center (lat lon : option R) : Body R :=
  match lat, lon with
  | Some lat, Some lon =>
      ret (haversine_distance (fst BANGALORE_CENTER) (snd BANGALORE_CENTER) lat lon)
  | _, _ => raise TypeError
  end.

(** The second half of the [try] body (lines 270-306): what happens to a
    result that passed the distance check. *)
Definition text_enrich (min_reviews : Z) (place : Api.Place) : Body unit :=
  place_id <- getitem (Api.place_id place) ;;
  all <- locals all_hospitals ;;
  if Dict.mem place_id all then ret tt
  else
    details <- gmaps_place place_id ;;
    count_request ;;
    place_data <- getitem (Api.result details) ;;
    let review_count := get_default (Api.user_ratings_total place_data) 0 in
    (if review_count >=? min_reviews then
       latitude <- getitem (geometry_location (Api.geometry place_data) Api.lat) ;;
       longitude <- getitem (geometry_location (Api.geometry place_data) Api.lng) ;;
       let hospital_info :=
         {| name := get_default (Api.name place_data) "N/A";
            address := get_default (Api.formatted_address place_data) "N/A";
            latitude := Some latitude;
            longitude := Some longitude;
            rating := Api.rating place_data;
            review_count := review_count;
            phone := get_default (Api.formatted_phone_number place_data) "N/A";
            website := get_default (Api.website place_data) "N/A";
            place_id := place_id;
            types := None;
            zone := None;
            keyword_found := None;
            search_method := Some "text_search";
            open_now := None |} in
       store place_id hospital_info
     else ret tt) ;;
    rate_limit.

(** The body of the [try] around one search result (lines 258-306): the
    distance check, then [text_enrich]. *)
Definition text_place (min_reviews : Z) (place : Api.Place) : Body unit :=
  let lat := geometry_location (Api.place_geometry place) Api.lat in
  let lon := geometry_location (Api.place_geometry place) Api.lng in
  distance <- distance_from_center lat lon ;;
  if exceeds distance 50 then ret tt
  else text_enrich min_reviews place.

(** The [while True] loop of one keyword (lines 242-315). *)
Fixpoint text_pages (fuel : nat) (min_reviews : Z) (keyword : string)
    (page_num : Z) (next_page_token : option string) : Body unit :=
  match fuel with
  | O => diverge
  | S fuel' =>
      let page_num := page_num + 1 in
      search_result <-
        gmaps_places_text (keyword ++ " Bangalore")%string next_page_token ;;
      count_request ;;
      if negb (truthy_list (Api.results search_result)) then ret tt
      else
        for_each (get_default (Api.results search_result) [])
          (fun place => try_continue (text_place min_reviews place)) ;;
        let next_page_token := Api.next_page_token search_result in
        if negb (truthy_token next_page_token) || (page_num >=? 2) then ret tt
        else
          sleep 1 ;;
          text_pages fuel' min_reviews keyword page_num next_page_token
  end.

(** One keyword: the [try] of lines 237-322. *)
Definition text_keyword (min_reviews : Z) (keyword : string) : Body unit :=
  try_continue (text_pages 2 min_reviews keyword 0 None).

Definition text_body (min_reviews : Z) : Body DataFrame :=
  try_except (for_each KEYWORDS (text_keyword min_reviews)) (fun _ => ret tt) ;;
  to_frame.

Definition fetch_hospitals_text_search (min_reviews : Z)
    : M (Env gmaps) DataFrame :=
  with_locals fresh (text_body min_reviews).

(** *** Combining and saving *)

Definition combine_results (grid_df text_df : DataFrame) : DataFrame :=
  if empty grid_df && empty text_df then []
  else if empty grid_df then text_df
  else if empty text_df then grid_df
  else
    let combined := drop_duplicates (concat grid_df text_df) in
    sort_values pandas combined.

(** What the script leaves behind: the file it wrote, if any. *)
Record Report := {
  final_df : DataFrame;
  search_method_used : string;
  csv : option (string * DataFrame)
}.

(** [save_hospitals_to_csv]: the file written, if any. *)
Definition save_hospitals_to_csv (df : DataFrame) (filename : string)
    : option (string * DataFrame) :=
  if negb (empty df) then Some (filename, df) else None.

(** The script body (lines 395-445). *)
Definition main (use_grid_only use_text_only : bool) : M (Env gmaps) Report :=
  all_results <-
    (if negb use_text_only then
       grid_hospitals <- fetch_hospitals_grid_search 100 15000 ;;
       ret [grid_hospitals]
     else ret []) ;;
  all_results <-
    (if negb use_grid_only then
       text_hospitals <- fetch_hospitals_text_search 100 ;;
       ret (all_results ++ [text_hospitals])
     else ret all_results) ;;
  let '(final_df, search_method) :=
    match all_results with
    | [grid_df; text_df] => (combine_results grid_df text_df, "Grid + Text Search")
    | [df] => (df, if negb use_text_only then "Grid Search" else "Text Search")
    | _ => ([], "None")
    end in
  ret {| final_df := final_df;
         search_method_used := search_method;
         csv := if negb (empty final_df)
                then save_hospitals_to_csv final_df
                       "eye_hospitals_bangalore_comprehensive.csv"
                else None |}.
End WithClient.
End Comprehensive.

(** * fetch_eye_hospitals.py *)

Module Simple.

Definition BANGALORE_CENTER : R * R := (12.9716, 77.5946)%R.
Definition SEARCH_RADIUS : Z := 30000.

Definition SAMPLE_EYE_HOSPITALS : list Row :=
  [
    {| name := "L V Prasad Eye Institute";
       address := "L V Prasad Marg, Whitefield, Bangalore 560066";
       latitude := Some 13.0259%R;
       longitude := Some 77.7362%R;
       rating := Some 4.6%R;
       review_count := 1850;
       phone := "+91 80 4055 2020";
       website := "https://www.lvpei.org";
       place_id := "sample_1";
       types := None; zone := None; keyword_found := None;
       search_method := None;
       open_now := Some true |};
    {| name := "Narayana Nethralaya";
       address := "#121, Chord Road, Opp. St. Johns School, High Grounds, Bangalore 560001";
       latitude := Some 13.0065%R;
       longitude := Some 77.5956%R;
       rating := Some 4.5%R;
       review_count := 2150;
       phone := "+91 80 4055 2000";
       website := "https://www.narayananethralaya.org";
       place_id := "sample_2";
       types := None; zone := None; keyword_found := None;
       search_method := None;
       open_now := Some true |};
    {| name := "Aditya Birla Aravind Eye Hospital";
       address := "No. 61, Koramangala 5th A Cross Road, Bangalore 560034";
       latitude := Some 12.9352%R;
       longitude := Some 77.6245%R;
       rating := Some 4.7%R;
       review_count := 1620;
       phone := "+91 80 4040 2020";
       website := "https://www.adarsh.in";
       place_id := "sample_3";
       types := None; zone := None; keyword_found := None;
       search_method := None;
       open_now := Some true |};
    {| name := "Shroff Eye Centre";
       address := "2nd Floor, 80 Feet Road, Indiranagar, Bangalore 560038";
       latitude := Some 12.9716%R;
       longitude := Some 77.6422%R;
       rating := Some 4.4%R;
       review_count := 890;
       phone := "+91 80 4123 4567";
       website := "https://www.shroffeyecentre.com";
       place_id := "sample_4";
       types := None; zone := None; keyword_found := None;
       search_method := None;
       open_now := Some true |};
    {| name := "Center for Sight";
       address := "80 Feet Road, Koramangala, Bangalore 560034";
       latitude := Some 12.9352%R;
       longitude := Some 77.6178%R;
       rating := Some 4.6%R;
       review_count := 1340;
       phone := "+91 80 6789 0123";
       website := "https://www.centreforsight.net";
       place_id := "sample_5";
       types := None; zone := None; keyword_found := None;
       search_method := None;
       open_now := Some true |};
    {| name := "Apollo Spectra Eye Clinic";
       address := "Bangalore Medical College Campus, Fort, Bangalore 560002";
       latitude := Some 13.0036%R;
       longitude := Some 77.5915%R;
       rating := Some 4.5%R;
       review_count := 1120;
       phone := "+91 80 4088 8888";
       website := "https://www.apollospectra.com";
       place_id := "sample_6";
       types := None; zone := None; keyword_found := None;
       search_method := None;
       open_now := Some true |};
    {| name := "Nandan Eye Care Centre";
       address := "80 Feet Road, Opp. Innovative Multiplex, Koramangala, Bangalore 560034";
       latitude := Some 12.9320%R;
       longitude := Some 77.6200%R;
       rating := Some 4.3%R;
       review_count := 750;
       phone := "+91 80 4123 5678";
       website := "https://www.nandaneyecare.com";
       place_id := "sample_7";
       types := None; zone := None; keyword_found := None;
       search_method := None;
       open_now := Some true |};
    {| name := "Aster RV Eye Care";
       address := "Aster RV Hospital, Marathahalli, Bangalore 560037";
       latitude := Some 12.9700%R;
       longitude := Some 77.7180%R;
       rating := Some 4.6%R;
       review_count := 1200;
       phone := "+91 80 4089 0089";
       website := "https://www.asterrv.com";
       place_id := "sample_8";
       types := None; zone := None; keyword_found := None;
       search_method := None;
       open_now := Some true |};
    {| name := "BGS Gleneagles Global Hospitals Eye Clinic";
       address := "Kengeri, Bangalore 560060";
       latitude := Some 13.0200%R;
       longitude := Some 77.5500%R;
       rating := Some 4.4%R;
       review_count := 980;
       phone := "+91 80 6789 1234";
       website := "https://www.bgshospitals.com";
       place_id := "sample_9";
       types := None; zone := None; keyword_found := None;
       search_method := None;
       open_now := Some true |};
    {| name := "Fortis Eye Institute";
       address := "Whitefield, Bangalore 560066";
       latitude := Some 13.0259%R;
       longitude := Some 77.7450%R;
       rating := Some 4.5%R;
       review_count := 1050;
       phone := "+91 80 4040 4040";
       website := "https://www.fortiseye.com";
       place_id := "sample_10";
       types := None; zone := None; keyword_found := None;
       search_method := None;
       open_now := Some true |}
  ].

Record Locals := {
  hospitals : list Row;
  request_count : Z
}.

Definition fresh : Locals := {| hospitals := []; request_count := 0 |}.

Section WithClient.
Variable pandas : Sorter.
Variable gmaps : Api.Client.

Local Abbreviation Body := (M (@frame gmaps Locals)).

(** [request_count += 1] *)
Definition count_request : Body unit :=
  set_locals (fun l => {| hospitals := hospitals l;
                          request_count := request_count l + 1 |}).

(** [hospitals.append(hospital_info)] *)
Definition append (hospital_info : Row) : Body unit :=
  set_locals (fun l => {| hospitals := hospitals l ++ [hospital_info];
                          request_count := request_count l |}).

(** [if request_count % 10 == 0: time.sleep(1)] *)
Definition rate_limit : Body unit :=
  n <- locals request_count ;;
  if n mod 10 =? 0 then sleep 1 else ret tt.

(** The body of the [try] around one search result (lines 187-219). *)
Definition api_place (min_reviews : Z) (place : Api.Place) : Body unit :=
  place_id <- getitem (Api.place_id place) ;;
  details <- gmaps_place place_id ;;
  count_request ;;
  place_data <- getitem (Api.result details) ;;
  let review_count := get_default (Api.user_ratings_total place_data) 0 in
  (if review_count >=? min_reviews then
     let hospital_info :=
       {| name := get_default (Api.name place_data) "N/A";
          address := get_default (Api.formatted_address place_data) "N/A";
          latitude := geometry_location (Api.geometry place_data) Api.lat;
          longitude := geometry_location (Api.geometry place_data) Api.lng;
          rating := Api.rating place_data;
          review_count := review_count;
          phone := get_default (Api.formatted_phone_number place_data) "N/A";
          website := get_default (Api.website place_data) "N/A";
          place_id := place_id;
          types := None;
          zone := None;
          keyword_found := None;
          search_method := None;
          open_now := match Api.opening_hours place_data with
                      | Some h => Api.open_now h
                      | None => None
                      end |} in
     append hospital_info
   else ret tt) ;;
  rate_limit.

(** The [while True] loop (lines 172-232).  Nothing bounds the number of
    pages, so the loop is run on fuel. *)
Fixpoint api_pages (fuel : nat) (min_reviews : Z)
    (next_page_token : option string) : Body unit :=
  match fuel with
  | O => diverge
  | S fuel' =>
      places_result <-
        gmaps_places_nearby BANGALORE_CENTER SEARCH_RADIUS "eye hospital"
                            next_page_token ;;
      count_request ;;
      for_each (get_default (Api.results places_result) [])
        (fun place => try_continue (api_place min_reviews place)) ;;
      let next_page_token := Api.next_page_token places_result in
      if negb (truthy_token next_page_token) then ret tt
      else
        sleep 2 ;;
        api_pages fuel' min_reviews next_page_token
  end.

(** The [try] of lines 171-248; [None] is Python's [None]. *)
Definition api_body (fuel : nat) (min_reviews : Z) : Body (option DataFrame) :=
  try_except
    (api_pages fuel min_reviews None ;;
     found <- locals hospitals ;;
     match found with
     | [] => ret None
     | _ :: _ => ret (Some (sort_values pandas found))
     end)
    (fun _ => ret None).

Definition fetch_eye_hospitals_from_api (fuel : nat) (min_reviews : Z)
    : M (Env gmaps) (option DataFrame) :=
  with_locals fresh (api_body fuel min_reviews).

(** The sample data, filtered and sorted (lines 264-266 and 275-277). *)
Definition sample_data (min_reviews : Z) : DataFrame :=
  let df := SAMPLE_EYE_HOSPITALS in
  let df := at_least min_reviews df in
  sort_values pandas df.

Definition get_eye_hospitals (fuel : nat) (min_reviews : Z) (use_sample : bool)
    : M (Env gmaps) DataFrame :=
  if use_sample then ret (sample_data min_reviews)
  else
    df <- fetch_eye_hospitals_from_api fuel min_reviews ;;
    match df with
    | Some df => if 0 <? Z.of_nat (List.length df) then ret df
                 else ret (sample_data min_reviews)
    | None => ret (sample_data min_reviews)
    end.

(** [save_hospitals_to_csv]: the file written, if any. *)
Definition save_hospitals_to_csv (df : DataFrame) (filename : string)
    : option (string * DataFrame) :=
  if negb (empty df) then Some (filename, df) else None.

(** The script body (lines 316-336): the frame it got and the file it
    wrote, if any. *)
Definition main (fuel : nat) (use_sample : bool)
    : M (Env gmaps) (DataFrame * option (string * DataFrame)) :=
  hospitals_df <- get_eye_hospitals fuel 100 use_sample ;;
  if negb (empty hospitals_df)
  then ret (hospitals_df,
            save_hospitals_to_csv hospitals_df "eye_hospitals_bangalore.csv")
  else ret (hospitals_df, None).
End WithClient.
End Simple.

(** * Properties *)

(** ** Two sorters *)

Lemma insert_desc_perm after_ties r l :
  Permutation (r :: l) (insert_desc after_ties r l).
Proof.
  induction l as [|x l IH]; simpl.
  - apply Permutation_refl.
  - destruct (if after_ties then _ else _).
    + apply Permutation_refl.
    + eapply perm_trans; [apply perm_swap|]. now apply perm_skip.
Qed.

Lemma insertion_sort_desc_perm after_ties df :
  Permutation df (insertion_sort_desc after_ties df).
Proof.
  induction df as [|r df IH]; simpl.
  - constructor.
  - eapply perm_trans; [apply perm_skip, IH|]. apply insert_desc_perm.
Qed.

Lemma insert_desc_sorted after_ties r l :
  StronglySorted by_reviews_desc l ->
  StronglySorted by_reviews_desc (insert_desc after_ties r l).
Proof.
  induction 1 as [|x l Hl IH Hx]; simpl.
  - repeat constructor.
  - destruct (if after_ties then _ else _) eqn:E.
    + constructor; [now constructor|].
      assert (Hrx : by_reviews_desc r x)
        by (unfold by_reviews_desc; destruct after_ties; lia).
      constructor; [exact Hrx|].
      eapply Forall_impl; [|exact Hx].
      unfold by_reviews_desc in *. intros; lia.
    + constructor; [exact IH|].
      eapply Permutation_Forall; [apply insert_desc_perm|].
      constructor; [|exact Hx].
      unfold by_reviews_desc; destruct after_ties; lia.
Qed.

Lemma insertion_sort_desc_sorted after_ties df :
  StronglySorted by_reviews_desc (insertion_sort_desc after_ties df).
Proof.
  induction df as [|r df IH]; simpl.
  - constructor.
  - now apply insert_desc_sorted.
Qed.

(** A sorter that keeps ties in their original order. *)
Definition stable_sorter : Sorter :=
  {| sort_values := insertion_sort_desc false;
     sort_values_perm := insertion_sort_desc_perm false;
     sort_values_sorted := insertion_sort_desc_sorted false |}.


(** ** The dictionary *)

Lemma mem_false_not_in {V} k (d : Dict.t V) :
  Dict.mem k d = false <-> ~ In k (Dict.keys d).
Proof.
  unfold Dict.mem, Dict.keys. induction d as [|[k' v] d IH]; simpl.
  - tauto.
  - rewrite orb_false_iff, IH. destruct (String.eqb_spec k k'); split.
    + intros [? _]; discriminate.
    + intros H; exfalso; apply H; left; congruence.
    + intros [_ H] [?|?]; [congruence | tauto].
    + intros H; split; [reflexivity | tauto].
Qed.

Lemma set_fresh {V} k (v : V) d :
  Dict.mem k d = false -> Dict.set k v d = d ++ [(k, v)].
Proof.
  unfold Dict.mem. induction d as [|[k' v'] d IH]; simpl; [reflexivity|].
  rewrite orb_false_iff. intros [E H]. rewrite E. now rewrite IH.
Qed.

Lemma get_app_l {V} k (v : V) d new :
  Dict.get k d = Some v -> Dict.get k (d ++ new) = Some v.
Proof.
  induction d as [|[k' v'] d IH]; simpl; [discriminate|].
  destruct (String.eqb k k'); auto.
Qed.

(** ** What the aggregator's store may hold *)

(** A stored entry: it sits under its own identifier, passed the review
    filter and has both coordinates. *)
Definition admissible (min_reviews : Z) (kv : string * Row) : Prop :=
  fst kv = place_id (snd kv) /\ min_reviews <= review_count (snd kv) /\
  latitude (snd kv) <> None /\ longitude (snd kv) <> None.

(** [d'] is [d] followed by admissible entries under new, distinct keys. *)
Definition grows (min_reviews : Z) (d d' : Dict.t Row) : Prop :=
  exists new,
    d' = d ++ new /\ Forall (admissible min_reviews) new /\
    NoDup (Dict.keys new) /\
    (forall k, In k (Dict.keys new) -> ~ In k (Dict.keys d)).

Lemma grows_refl min_reviews d : grows min_reviews d d.
Proof.
  exists []. rewrite app_nil_r. repeat split; try constructor. intros k [].
Qed.

Lemma grows_trans min_reviews d1 d2 d3 :
  grows min_reviews d1 d2 -> grows min_reviews d2 d3 -> grows min_reviews d1 d3.
Proof.
  intros (n1 & -> & F1 & N1 & D1) (n2 & -> & F2 & N2 & D2).
  exists (n1 ++ n2). rewrite app_assoc. repeat split.
  - apply Forall_app; auto.
  - unfold Dict.keys in *. rewrite map_app. apply NoDup_app; auto.
    intros k H1 H2. apply (D2 k H2). rewrite map_app, in_app_iff. now right.
  - unfold Dict.keys in *. intros k. rewrite map_app, in_app_iff.
    intros [H|H]; [now apply D1|].
    intros Hd. apply (D2 k H). rewrite map_app, in_app_iff. now left.
Qed.

Lemma grows_one min_reviews d r :
  Dict.mem (place_id r) d = false ->
  min_reviews <= review_count r ->
  latitude r <> None -> longitude r <> None ->
  grows min_reviews d (Dict.set (place_id r) r d).
Proof.
  intros Hm Hr Hlat Hlon. rewrite set_fresh by assumption.
  exists [(place_id r, r)]. repeat split; simpl; auto.
  - repeat constructor; simpl; auto.
  - repeat constructor. intros [].
  - intros k [<-|[]]. now apply mem_false_not_in.
Qed.

(** First write wins: growth never changes what an identifier maps to. *)
Lemma grows_get min_reviews d d' k v :
  grows min_reviews d d' -> Dict.get k d = Some v -> Dict.get k d' = Some v.
Proof. intros (new & -> & _) H. now apply get_app_l. Qed.

(** Everything grown from the empty store is admissible, one entry per
    identifier. *)
Lemma grows_from_empty min_reviews d :
  grows min_reviews Dict.empty d ->
  Forall (admissible min_reviews) d /\ NoDup (Dict.keys d).
Proof. intros (new & -> & F & N & _). simpl. auto. Qed.

Lemma admissible_ids min_reviews d :
  Forall (admissible min_reviews) d ->
  map place_id (Dict.values d) = Dict.keys d.
Proof.
  unfold Dict.values, Dict.keys. induction 1 as [|[k v] d [E _] _ IH]; simpl.
  - reflexivity.
  - simpl in E. now rewrite IH, E.
Qed.

(** ** Reasoning about bodies *)

(** [m] relates every state to the state it leaves, whatever the outcome. *)
Definition respects {S A} (Rel : S -> S -> Prop) (m : M S A) : Prop :=
  forall s, Rel s (fst (m s)).

(** [m] always returns: it neither raises nor runs out of fuel. *)
Definition total {S A} (m : M S A) : Prop :=
  forall s, exists a, snd (m s) = Ok a.

(** [m] never runs out of fuel. *)
Definition fuelled {S A} (m : M S A) : Prop :=
  forall s, snd (m s) <> OutOfFuel.

Section Combinators.
Context {S : Type} (Rel : S -> S -> Prop).
Hypothesis Rel_refl : forall s, Rel s s.
Hypothesis Rel_trans : forall s1 s2 s3, Rel s1 s2 -> Rel s2 s3 -> Rel s1 s3.

Lemma respects_ret {A} (a : A) : respects Rel (ret a).
Proof. intros s. apply Rel_refl. Qed.

Lemma respects_raise {A} e : respects Rel (@raise S A e).
Proof. intros s. apply Rel_refl. Qed.

Lemma respects_diverge {A} : respects Rel (@diverge S A).
Proof. intros s. apply Rel_refl. Qed.

Lemma respects_bind {A B} (m : M S A) (k : A -> M S B) :
  respects Rel m -> (forall a, respects Rel (k a)) -> respects Rel (bind m k).
Proof.
  intros Hm Hk s. unfold bind. specialize (Hm s).
  destruct (m s) as [s' [a| |]]; simpl in *; auto.
  eapply Rel_trans; [exact Hm | apply Hk].
Qed.

Lemma respects_try_except {A} (m : M S A) h :
  respects Rel m -> (forall e, respects Rel (h e)) -> respects Rel (try_except m h).
Proof.
  intros Hm Hh s. unfold try_except. specialize (Hm s).
  destruct (m s) as [s' [a|e|]]; simpl in *; auto.
  eapply Rel_trans; [exact Hm | apply Hh].
Qed.

Lemma respects_try_continue (m : M S unit) :
  respects Rel m -> respects Rel (try_continue m).
Proof.
  intros H. apply respects_try_except; [exact H|].
  intros _. apply respects_ret.
Qed.

Lemma respects_for_each {A} (xs : list A) body :
  (forall x, In x xs -> respects Rel (body x)) -> respects Rel (for_each xs body).
Proof.
  induction xs as [|x xs IH]; simpl; intros H.
  - apply respects_ret.
  - apply respects_bind; [apply H; now left|].
    intros _. apply IH. intros y Hy. apply H. now right.
Qed.
End Combinators.

Section Outcomes.
Context {S : Type}.

Lemma fuelled_ret {A} (a : A) : fuelled (@ret S A a).
Proof. intros s; discriminate. Qed.

Lemma fuelled_raise {A} e : fuelled (@raise S A e).
Proof. intros s; discriminate. Qed.

Lemma fuelled_gets {A} (f : S -> A) : fuelled (gets f).
Proof. intros s; discriminate. Qed.

Lemma fuelled_modify (f : S -> S) : fuelled (modify f).
Proof. intros s; discriminate. Qed.

Lemma fuelled_getitem {A} (field : option A) : fuelled (@getitem S A field).
Proof. destruct field; intros s; discriminate. Qed.

Lemma fuelled_bind {A B} (m : M S A) (k : A -> M S B) :
  fuelled m -> (forall a, fuelled (k a)) -> fuelled (bind m k).
Proof.
  intros Hm Hk s. unfold bind. specialize (Hm s).
  destruct (m s) as [s' [a|e|]]; simpl in *; try discriminate; auto.
  apply Hk.
Qed.

Lemma fuelled_try_except {A} (m : M S A) h :
  fuelled m -> (forall e, fuelled (h e)) -> fuelled (try_except m h).
Proof.
  intros Hm Hh s. unfold try_except. specialize (Hm s).
  destruct (m s) as [s' [a|e|]]; simpl in *; try discriminate; auto.
  apply Hh.
Qed.

Lemma fuelled_total {A} (m : M S A) : total m -> fuelled m.
Proof. intros H s. destruct (H s) as [a ->]. discriminate. Qed.

Lemma total_ret {A} (a : A) : total (@ret S A a).
Proof. intros s. now exists a. Qed.

Lemma total_bind {A B} (m : M S A) (k : A -> M S B) :
  total m -> (forall a, total (k a)) -> total (bind m k).
Proof.
  intros Hm Hk s. unfold bind. destruct (Hm s) as [a Ha].
  destruct (m s) as [s' o]; simpl in *; subst o. apply Hk.
Qed.

(** [except Exception: continue] contains every exception. *)
Lemma total_try_continue (m : M S unit) : fuelled m -> total (try_continue m).
Proof.
  intros Hm s. unfold try_continue, try_except. specialize (Hm s).
  destruct (m s) as [s' [[]|e|]]; simpl in *; [now exists tt | now exists tt | congruence].
Qed.

Lemma total_try_except {A} (m : M S A) h :
  fuelled m -> (forall e, total (h e)) -> total (try_except m h).
Proof.
  intros Hm Hh s. unfold try_except. specialize (Hm s).
  destruct (m s) as [s' [a|e|]]; simpl in *.
  - now exists a.
  - apply Hh.
  - congruence.
Qed.

Lemma total_for_each {A} (xs : list A) (body : A -> M S unit) :
  (forall x, In x xs -> total (body x)) -> total (for_each xs body).
Proof.
  induction xs as [|x xs IH]; simpl; intros H.
  - apply total_ret.
  - apply total_bind; [apply H; now left|].
    intros _. apply IH. intros y Hy. apply H. now right.
Qed.

(** A loop whose bodies all return reaches each of its elements: what the
    body of [x] establishes, and later steps keep, holds at the end. *)
Lemma for_each_reaches {A} (Rel : S -> S -> Prop) (P : A -> S -> Prop)
    (xs : list A) (body : A -> M S unit) :
  (forall s1 s2 s3, Rel s1 s2 -> Rel s2 s3 -> Rel s1 s3) ->
  (forall s, Rel s s) ->
  (forall x s s', P x s -> Rel s s' -> P x s') ->
  (forall x, In x xs -> total (body x)) ->
  (forall x, In x xs -> respects Rel (body x)) ->
  (forall x s, In x xs -> P x (fst (body x s))) ->
  forall x s, In x xs -> P x (fst (for_each xs body s)).
Proof.
  intros Htrans Hrefl Hkeep. induction xs as [|y xs IH]; intros Ht Hr Hp x s; [intros []|].
  simpl. unfold bind. intros Hx.
  destruct (Ht y (or_introl eq_refl) s) as [[] Hy].
  pose proof (Hp y s (or_introl eq_refl)) as Hpy.
  destruct (body y s) as [s' o]; simpl in *; subst o.
  destruct Hx as [->|Hx].
  - eapply Hkeep; [exact Hpy|].
    apply (@respects_for_each S Rel Hrefl Htrans A xs body); auto.
  - apply IH; auto.
Qed.
End Outcomes.

(** ** The comprehensive fetcher, step by step *)

Section ComprehensiveSteps.
Variable gmaps : Api.Client.
Variable min_reviews : Z.

Local Abbreviation state := (@frame gmaps Comprehensive.Locals).

Definition store (s : state) : Dict.t Row := Comprehensive.all_hospitals (snd s).

(** The search requests made so far. *)
Definition searches {L} (s : @frame gmaps L) : list Event :=
  filter is_search (trace (fst s)).

(** A details request leaves the state of the outside world alone. *)
Definition details_are_pure : Prop :=
  forall w pid, fst (Api.place gmaps w pid) = w.

(** The trace of [s'] extends that of [s] by events that are all [kind]. *)
Definition extends {L} (kind : Event -> bool) (s s' : @frame gmaps L) : Prop :=
  exists evs, trace (fst s') = trace (fst s) ++ evs /\ forallb kind evs = true.

(** What processing search results does: the store grows, no search is
    requested, and the world only moves if details requests move it. *)
Definition quiet (s s' : state) : Prop :=
  grows min_reviews (store s) (store s') /\
  extends (fun ev => negb (is_search ev)) s s' /\
  (details_are_pure -> world (fst s') = world (fst s)).

(** What any part of a fetch does: the store grows and the trace is
    extended. *)
Definition progress (s s' : state) : Prop :=
  grows min_reviews (store s) (store s') /\ extends (fun _ => true) s s'.

Lemma extends_refl {L} kind (s : @frame gmaps L) : extends kind s s.
Proof. exists []. now rewrite app_nil_r. Qed.

Lemma extends_trans {L} kind (s1 s2 s3 : @frame gmaps L) :
  extends kind s1 s2 -> extends kind s2 s3 -> extends kind s1 s3.
Proof.
  intros (e1 & H1 & F1) (e2 & H2 & F2). exists (e1 ++ e2).
  rewrite H2, H1, app_assoc, forallb_app, F1, F2. auto.
Qed.

Lemma extends_weaken {L} kind (s s' : @frame gmaps L) :
  extends kind s s' -> extends (fun _ => true) s s'.
Proof.
  intros (evs & H & _). exists evs. split; [exact H|].
  now apply forallb_forall.
Qed.

Lemma extends_in {L} kind (s s' : @frame gmaps L) ev :
  extends kind s s' -> In ev (trace (fst s)) -> In ev (trace (fst s')).
Proof. intros (evs & -> & _) H. apply in_or_app. now left. Qed.

Lemma extends_quiet_searches {L} (s s' : @frame gmaps L) :
  extends (fun ev => negb (is_search ev)) s s' -> searches s' = searches s.
Proof.
  intros (evs & H & F). unfold searches. rewrite H, filter_app.
  assert (E : filter is_search evs = []).
  { clear H. induction evs as [|ev evs IH]; simpl in *; [reflexivity|].
    apply andb_true_iff in F as [F1 F2].
    destruct (is_search ev); [discriminate | auto]. }
  rewrite E. apply app_nil_r.
Qed.

Lemma quiet_refl s : quiet s s.
Proof. repeat split; auto using grows_refl, extends_refl. Qed.

Lemma quiet_trans s1 s2 s3 : quiet s1 s2 -> quiet s2 s3 -> quiet s1 s3.
Proof.
  intros (G1 & E1 & W1) (G2 & E2 & W2). repeat split.
  - eapply grows_trans; eauto.
  - eapply extends_trans; eauto.
  - intros H. rewrite W2, W1; auto.
Qed.

Lemma progress_refl s : progress s s.
Proof. split; auto using grows_refl, extends_refl. Qed.

Lemma progress_trans s1 s2 s3 : progress s1 s2 -> progress s2 s3 -> progress s1 s3.
Proof.
  intros (G1 & E1) (G2 & E2). split.
  - eapply grows_trans; eauto.
  - eapply extends_trans; eauto.
Qed.

Lemma quiet_progress s s' : quiet s s' -> progress s s'.
Proof. intros (G & E & _). split; [exact G | eapply extends_weaken; eauto]. Qed.

Lemma grid_place_quiet zone_idx keyword place :
  respects quiet (Comprehensive.grid_place min_reviews zone_idx keyword place).
Proof.
  intros [e l].
  unfold Comprehensive.grid_place, Comprehensive.rate_limit, Comprehensive.store,
    Comprehensive.count_request, gmaps_place, call, sleep, emit, locals, set_locals,
    gets, modify, bind.
  destruct (Api.place_id place) as [pid|]; simpl; [|apply quiet_refl].
  destruct (Dict.mem pid (Comprehensive.all_hospitals l)) eqn:Hmem; simpl;
    [apply quiet_refl|].
  pose proof (fun H : details_are_pure => H (world e) pid) as Hpure.
  destruct (Api.place gmaps (world e) pid) as [w' [details|]]; simpl in *.
  2: { repeat split; unfold store; simpl; auto using grows_refl.
       now exists [PlaceCall pid]. }
  destruct (Api.result details) as [place_data|]; simpl.
  2: { repeat split; unfold store; simpl; auto using grows_refl.
       now exists [PlaceCall pid]. }
  destruct (_ >=? _) eqn:Hrev; simpl.
  - destruct (geometry_location _ Api.lat) as [lat0|]; simpl.
    2: { repeat split; unfold store; simpl; auto using grows_refl.
         now exists [PlaceCall pid]. }
    destruct (geometry_location _ Api.lng) as [lng0|]; simpl.
    2: { repeat split; unfold store; simpl; auto using grows_refl.
         now exists [PlaceCall pid]. }
    assert (G : forall r, place_id r = pid -> min_reviews <= review_count r ->
                  latitude r <> None -> longitude r <> None ->
                  grows min_reviews (Comprehensive.all_hospitals l)
                    (Dict.set pid r (Comprehensive.all_hospitals l))).
    { intros r <- ? ? ?. now apply grows_one. }
    apply Z.geb_le in Hrev.
    destruct (_ =? 0); simpl; repeat split; unfold store; simpl; auto.
    all: try (apply G; simpl; auto; discriminate).
    + exists [PlaceCall pid; Sleep 1]. now rewrite <- app_assoc.
    + now exists [PlaceCall pid].
  - destruct (_ =? 0); simpl; repeat split; unfold store; simpl;
      auto using grows_refl.
    + exists [PlaceCall pid; Sleep 1]. now rewrite <- app_assoc.
    + now exists [PlaceCall pid].
Qed.

Lemma text_place_quiet place :
  respects quiet (Comprehensive.text_place min_reviews place).
Proof.
  intros [e l].
  unfold Comprehensive.text_place, Comprehensive.text_enrich,
  Comprehensive.distance_from_center,
    Comprehensive.rate_limit, Comprehensive.store,
    Comprehensive.count_request, gmaps_place, call, sleep, emit, locals, set_locals,
    gets, modify, bind.
  destruct (geometry_location _ Api.lat) as [lat|]; simpl; [|apply quiet_refl].
  destruct (geometry_location _ Api.lng) as [lon|]; simpl; [|apply quiet_refl].
  destruct (Comprehensive.exceeds _ 50); simpl; [apply quiet_refl|].
  destruct (Api.place_id place) as [pid|]; simpl; [|apply quiet_refl].
  destruct (Dict.mem pid (Comprehensive.all_hospitals l)) eqn:Hmem; simpl;
    [apply quiet_refl|].
  pose proof (fun H : details_are_pure => H (world e) pid) as Hpure.
  destruct (Api.place gmaps (world e) pid) as [w' [details|]]; simpl in *.
  2: { repeat split; unfold store; simpl; auto using grows_refl.
       now exists [PlaceCall pid]. }
  destruct (Api.result details) as [place_data|]; simpl.
  2: { repeat split; unfold store; simpl; auto using grows_refl.
       now exists [PlaceCall pid]. }
  destruct (_ >=? _) eqn:Hrev; simpl.
  - destruct (geometry_location _ Api.lat) as [lat0|]; simpl.
    2: { repeat split; unfold store; simpl; auto using grows_refl.
         now exists [PlaceCall pid]. }
    destruct (geometry_location _ Api.lng) as [lng0|]; simpl.
    2: { repeat split; unfold store; simpl; auto using grows_refl.
         now exists [PlaceCall pid]. }
    assert (G : forall r, place_id r = pid -> min_reviews <= review_count r ->
                  latitude r <> None -> longitude r <> None ->
                  grows min_reviews (Comprehensive.all_hospitals l)
                    (Dict.set pid r (Comprehensive.all_hospitals l))).
    { intros r <- ? ? ?. now apply grows_one. }
    apply Z.geb_le in Hrev.
    destruct (_ =? 0); simpl; repeat split; unfold store; simpl; auto.
    all: try (apply G; simpl; auto; discriminate).
    + exists [PlaceCall pid; Sleep 1]. now rewrite <- app_assoc.
    + now exists [PlaceCall pid].
  - destruct (_ =? 0); simpl; repeat split; unfold store; simpl;
      auto using grows_refl.
    + exists [PlaceCall pid; Sleep 1]. now rewrite <- app_assoc.
    + now exists [PlaceCall pid].
Qed.

(** Requests, sleeps and counters as steps of a fetch. *)
Lemma call_progress {A} ev (request : _ -> _ * Api.reply A) :
  respects progress (call ev request).
Proof.
  intros [e l]. unfold call. simpl.
  destruct (snd (request (world e))); simpl; split; unfold store; simpl;
    auto using grows_refl; now exists [ev].
Qed.

Lemma sleep_progress seconds : respects progress (sleep seconds).
Proof.
  intros [e l]. split; unfold store; simpl; auto using grows_refl.
  now exists [Sleep seconds].
Qed.

Lemma count_request_progress : respects progress (Comprehensive.count_request (gmaps:=gmaps)).
Proof.
  intros [e l]. split; [apply grows_refl|].
  exists []. simpl. now rewrite app_nil_r.
Qed.

Lemma respects_weaken {S A} (R1 R2 : S -> S -> Prop) (m : M S A) :
  (forall s s', R1 s s' -> R2 s s') -> respects R1 m -> respects R2 m.
Proof. intros H Hm s. apply H, Hm. Qed.

Lemma fuelled_call {A} ev (request : _ -> _ * Api.reply A) :
  fuelled (call (gmaps:=gmaps) (L:=Comprehensive.Locals) ev request).
Proof.
  intros s. unfold call.
  destruct (snd (request (world (fst s)))); simpl; discriminate.
Qed.

Ltac fuelled_tac :=
  repeat first
    [ apply fuelled_bind; [|intros ?]
    | apply fuelled_getitem | apply fuelled_ret | apply fuelled_gets
    | apply fuelled_modify | apply fuelled_raise | apply fuelled_call
    | match goal with
      | |- fuelled (if ?b then _ else _) => destruct b
      | |- fuelled (match ?x with _ => _ end) => destruct x
      end ].

Lemma grid_place_fuelled zone_idx keyword place :
  fuelled (Comprehensive.grid_place (gmaps:=gmaps) min_reviews zone_idx keyword place).
Proof.
  unfold Comprehensive.grid_place, Comprehensive.rate_limit, Comprehensive.store,
    Comprehensive.count_request, gmaps_place, sleep, emit, locals, set_locals.
  fuelled_tac.
Qed.

Lemma text_place_fuelled place :
  fuelled (Comprehensive.text_place (gmaps:=gmaps) min_reviews place).
Proof.
  unfold Comprehensive.text_place, Comprehensive.text_enrich,
  Comprehensive.distance_from_center,
    Comprehensive.rate_limit, Comprehensive.store,
    Comprehensive.count_request, gmaps_place, sleep, emit, locals, set_locals.
  fuelled_tac.
Qed.

(** Processing one page of results. *)
Lemma grid_results_quiet zone_idx keyword places :
  respects quiet
    (for_each places (fun place =>
       try_continue (Comprehensive.grid_place min_reviews zone_idx keyword place))).
Proof.
  apply (respects_for_each quiet_refl quiet_trans). intros place _.
  apply (respects_try_continue quiet_refl quiet_trans), grid_place_quiet.
Qed.

Lemma grid_results_total zone_idx keyword places :
  total
    (for_each places (fun place =>
       try_continue
         (Comprehensive.grid_place (gmaps:=gmaps) min_reviews zone_idx keyword place))).
Proof.
  apply total_for_each. intros place _.
  apply total_try_continue, grid_place_fuelled.
Qed.

Lemma text_results_quiet places :
  respects quiet
    (for_each places (fun place =>
       try_continue (Comprehensive.text_place min_reviews place))).
Proof.
  apply (respects_for_each quiet_refl quiet_trans). intros place _.
  apply (respects_try_continue quiet_refl quiet_trans), text_place_quiet.
Qed.

Lemma text_results_total places :
  total
    (for_each places (fun place =>
       try_continue (Comprehensive.text_place (gmaps:=gmaps) min_reviews place))).
Proof.
  apply total_for_each. intros place _.
  apply total_try_continue, text_place_fuelled.
Qed.
End ComprehensiveSteps.

(** ** The comprehensive fetcher, query by query *)

Section ComprehensiveRuns.
Variable pandas : Sorter.
Variable gmaps : Api.Client.
Variable min_reviews : Z.

Local Abbreviation state := (@frame gmaps Comprehensive.Locals).
Local Abbreviation progress := (@progress gmaps min_reviews).

Local Ltac progress_bind :=
  apply (respects_bind (@progress_trans gmaps min_reviews)).

Lemma results_progress {A} (places : list A) (body : A -> M state unit) :
  respects (@quiet gmaps min_reviews) (for_each places body) ->
  respects progress (for_each places body).
Proof. apply respects_weaken, quiet_progress. Qed.

Lemma grid_pages_progress fuel search_radius zone_idx location keyword page_num token :
  respects progress
    (Comprehensive.grid_pages fuel min_reviews search_radius zone_idx location
       keyword page_num token).
Proof.
  revert page_num token. induction fuel as [|fuel IH]; intros page_num token; simpl.
  - apply respects_diverge, progress_refl.
  - progress_bind; [apply call_progress | intros places_result].
    progress_bind; [apply count_request_progress | intros _].
    destruct (negb (truthy_list _)); [apply respects_ret, progress_refl|].
    progress_bind; [apply results_progress, grid_results_quiet | intros _].
    destruct (_ || _); [apply respects_ret, progress_refl|].
    progress_bind; [apply sleep_progress | intros _; apply IH].
Qed.

Lemma text_pages_progress fuel keyword page_num token :
  respects progress
    (Comprehensive.text_pages fuel min_reviews keyword page_num token).
Proof.
  revert page_num token. induction fuel as [|fuel IH]; intros page_num token; simpl.
  - apply respects_diverge, progress_refl.
  - progress_bind; [apply call_progress | intros places_result].
    progress_bind; [apply count_request_progress | intros _].
    destruct (negb (truthy_list _)); [apply respects_ret, progress_refl|].
    progress_bind; [apply results_progress, text_results_quiet | intros _].
    destruct (_ || _); [apply respects_ret, progress_refl|].
    progress_bind; [apply sleep_progress | intros _; apply IH].
Qed.

Lemma fuelled_count_request : fuelled (Comprehensive.count_request (gmaps:=gmaps)).
Proof. intros s. discriminate. Qed.

Lemma fuelled_sleep seconds : fuelled (sleep (gmaps:=gmaps) (L:=Comprehensive.Locals) seconds).
Proof. intros s. discriminate. Qed.

(** The page cap bounds the loop: with [cap - page_num] fuel it never runs
    dry. *)
Lemma grid_pages_fuelled fuel search_radius zone_idx location keyword page_num token :
  page_num < 3 -> 3 - page_num <= Z.of_nat fuel ->
  fuelled
    (Comprehensive.grid_pages (gmaps:=gmaps) fuel min_reviews search_radius zone_idx
       location keyword page_num token).
Proof.
  revert page_num token. induction fuel as [|fuel IH]; intros page_num token Hp Hf.
  { lia. }
  simpl. apply fuelled_bind; [apply fuelled_call | intros places_result].
  apply fuelled_bind; [apply fuelled_count_request | intros _].
  destruct (negb (truthy_list _)); [apply fuelled_ret|].
  apply fuelled_bind; [apply fuelled_total, grid_results_total | intros _].
  destruct (negb _); simpl; [apply fuelled_ret|].
  destruct (Z.geb_spec (page_num + 1) 3); [apply fuelled_ret|].
  apply fuelled_bind; [apply fuelled_sleep | intros _]. apply IH; lia.
Qed.

Lemma text_pages_fuelled fuel keyword page_num token :
  page_num < 2 -> 2 - page_num <= Z.of_nat fuel ->
  fuelled
    (Comprehensive.text_pages (gmaps:=gmaps) fuel min_reviews keyword page_num token).
Proof.
  revert page_num token. induction fuel as [|fuel IH]; intros page_num token Hp Hf;
    [lia|].
  simpl. apply fuelled_bind; [apply fuelled_call | intros places_result].
  apply fuelled_bind; [apply fuelled_count_request | intros _].
  destruct (negb (truthy_list _)); [apply fuelled_ret|].
  apply fuelled_bind; [apply fuelled_total, text_results_total | intros _].
  destruct (negb _); simpl; [apply fuelled_ret|].
  destruct (Z.geb_spec (page_num + 1) 2); [apply fuelled_ret|].
  apply fuelled_bind; [apply fuelled_sleep | intros _]. apply IH; lia.
Qed.

(** A query always returns, whatever the API did. *)
Lemma grid_keyword_total search_radius zone_idx location keyword :
  total (Comprehensive.grid_keyword (gmaps:=gmaps) min_reviews search_radius zone_idx
           location keyword).
Proof. apply total_try_continue, grid_pages_fuelled; simpl; lia. Qed.

Lemma text_keyword_total keyword :
  total (Comprehensive.text_keyword (gmaps:=gmaps) min_reviews keyword).
Proof. apply total_try_continue, text_pages_fuelled; simpl; lia. Qed.

Lemma grid_keyword_progress search_radius zone_idx location keyword :
  respects progress
    (Comprehensive.grid_keyword min_reviews search_radius zone_idx location keyword).
Proof.
  apply (respects_try_continue (@progress_refl _ _) (@progress_trans _ _)),
    grid_pages_progress.
Qed.

Lemma text_keyword_progress keyword :
  respects progress (Comprehensive.text_keyword min_reviews keyword).
Proof.
  apply (respects_try_continue (@progress_refl _ _) (@progress_trans _ _)),
    text_pages_progress.
Qed.

Lemma grid_zone_total search_radius zone :
  total (Comprehensive.grid_zone (gmaps:=gmaps) min_reviews search_radius zone).
Proof.
  apply total_bind.
  - apply total_for_each. intros keyword _. apply grid_keyword_total.
  - intros _ s. now exists tt.
Qed.

Lemma grid_zone_progress search_radius zone :
  respects progress (Comprehensive.grid_zone min_reviews search_radius zone).
Proof.
  progress_bind; [|intros _; apply sleep_progress].
  apply (respects_for_each (@progress_refl _ _) (@progress_trans _ _)).
  intros keyword _. apply grid_keyword_progress.
Qed.

Definition grid_loop (search_radius : Z) : M state unit :=
  for_each (enumerate Comprehensive.GRID_POINTS 1)
    (Comprehensive.grid_zone min_reviews search_radius).

Definition text_loop : M state unit :=
  try_except
    (for_each Comprehensive.KEYWORDS (Comprehensive.text_keyword min_reviews))
    (fun _ => ret tt).

Lemma grid_loop_total search_radius : total (grid_loop search_radius).
Proof. apply total_for_each. intros zone _. apply grid_zone_total. Qed.

Lemma grid_loop_progress search_radius : respects progress (grid_loop search_radius).
Proof.
  apply (respects_for_each (@progress_refl _ _) (@progress_trans _ _)).
  intros zone _. apply grid_zone_progress.
Qed.

Lemma text_loop_total : total text_loop.
Proof.
  apply total_try_except; [|intros _; apply total_ret].
  apply fuelled_total, total_for_each. intros keyword _. apply text_keyword_total.
Qed.

Lemma text_loop_progress : respects progress text_loop.
Proof.
  apply (respects_try_except (@progress_trans _ _));
    [|intros _; apply respects_ret, progress_refl].
  apply (respects_for_each (@progress_refl _ _) (@progress_trans _ _)).
  intros keyword _. apply text_keyword_progress.
Qed.

(** The frame made of the store: its rows, reordered. *)
Lemma to_frame_spec (s : state) :
  exists df, Comprehensive.to_frame pandas s = (s, Ok df) /\
             Permutation (Dict.values (store s)) df /\
             StronglySorted by_reviews_desc df.
Proof.
  unfold Comprehensive.to_frame, locals, gets, bind, store. simpl.
  destruct (Comprehensive.all_hospitals (snd s)) as [|kv d].
  - exists []. repeat split; constructor.
  - eexists. split; [reflexivity|]. split.
    + apply sort_values_perm.
    + apply sort_values_sorted.
Qed.
End ComprehensiveRuns.

(** ** DataFrame operations *)

Definition ids (df : DataFrame) : list string := map place_id df.

(** The first row of [df] with identifier [id]. *)
Definition first_with (id : string) (df : DataFrame) : option Row :=
  find (fun r => String.eqb (place_id r) id) df.

Lemma existsb_eqb_in (k : string) (seen : list string) :
  existsb (String.eqb k) seen = true <-> In k seen.
Proof.
  rewrite existsb_exists. split.
  - intros (x & Hx & E). apply String.eqb_eq in E. now subst.
  - intros H. exists k. split; [exact H | apply String.eqb_refl].
Qed.

Lemma drop_duplicates_from_ids seen df id :
  In id (ids (drop_duplicates_from seen df)) <-> In id (ids df) /\ ~ In id seen.
Proof.
  revert seen. induction df as [|r df IH]; intros seen; simpl; [tauto|].
  destruct (existsb _ seen) eqn:E.
  - apply existsb_eqb_in in E. rewrite IH. split.
    + tauto.
    + intros [[<-|H] Hs]; tauto.
  - assert (Hn : ~ In (place_id r) seen).
    { intros H. apply existsb_eqb_in in H. congruence. }
    simpl. rewrite IH. simpl. split.
    + intros [<-|[H Hs]]; [tauto|]. split; [tauto|]. intros ?; apply Hs; tauto.
    + intros [[<-|H] Hs]; [tauto|].
      destruct (string_dec (place_id r) id); [tauto|]. right. split; [exact H|].
      intros [?|?]; tauto.
Qed.

Lemma drop_duplicates_from_nodup seen df :
  NoDup (ids (drop_duplicates_from seen df)).
Proof.
  revert seen. induction df as [|r df IH]; intros seen; simpl; [constructor|].
  destruct (existsb _ seen); [apply IH|].
  simpl. constructor; [|apply IH].
  intros H. apply drop_duplicates_from_ids in H. simpl in H. tauto.
Qed.

Lemma drop_duplicates_from_incl seen df r :
  In r (drop_duplicates_from seen df) -> In r df.
Proof.
  revert seen. induction df as [|x df IH]; intros seen; simpl; [tauto|].
  destruct (existsb _ seen); simpl; [eauto|]. intros [?|?]; eauto.
Qed.

(** [keep='first']: a row that survives is the first row of the frame with
    its identifier. *)
Lemma drop_duplicates_from_first seen df r :
  In r (drop_duplicates_from seen df) ->
  first_with (place_id r) df = Some r /\ ~ In (place_id r) seen.
Proof.
  revert seen. induction df as [|x df IH]; intros seen; simpl; [tauto|].
  destruct (existsb _ seen) eqn:E.
  - intros H. destruct (IH _ H) as [F Hs]. split; [|exact Hs].
    apply existsb_eqb_in in E.
    destruct (String.eqb_spec (place_id x) (place_id r)); [congruence | exact F].
  - assert (Hn : ~ In (place_id x) seen).
    { intros H. apply existsb_eqb_in in H. congruence. }
    intros [<-|H].
    + now rewrite String.eqb_refl.
    + destruct (IH _ H) as [F Hs]. simpl in Hs.
      destruct (String.eqb_spec (place_id x) (place_id r)); [tauto|].
      split; [exact F | tauto].
Qed.

Lemma drop_duplicates_ids df id :
  In id (ids (drop_duplicates df)) <-> In id (ids df).
Proof. unfold drop_duplicates. rewrite drop_duplicates_from_ids. simpl. tauto. Qed.

(** A frame with pairwise distinct review counts has one sorted order. *)
Lemma sorted_perm_unique (l l' : DataFrame) :
  Permutation l l' ->
  StronglySorted by_reviews_desc l -> StronglySorted by_reviews_desc l' ->
  NoDup (map review_count l) -> l = l'.
Proof.
  revert l'. induction l as [|a l IH]; intros l' P Sl Sl' N.
  - now apply Permutation_nil in P.
  - destruct l' as [|b l']; [now apply Permutation_sym, Permutation_nil in P|].
    inversion Sl as [|? ? Sl1 Fa]; subst. inversion Sl' as [|? ? Sl1' Fb]; subst.
    inversion N as [|? ? Na N1]; subst.
    assert (Hab : b = a).
    { assert (Hb : In b (a :: l))
        by (eapply Permutation_in; [apply Permutation_sym, P | now left]).
      destruct Hb as [->|Hb]; [reflexivity|].
      assert (Ha : In a (b :: l')) by (eapply Permutation_in; [exact P | now left]).
      destruct Ha as [->|Ha]; [reflexivity|].
      rewrite Forall_forall in Fa, Fb.
      pose proof (Fa _ Hb). pose proof (Fb _ Ha). unfold by_reviews_desc in *.
      exfalso. apply Na. replace (review_count a) with (review_count b) by lia.
      now apply in_map. }
    subst b. f_equal. apply IH; auto. eapply Permutation_cons_inv; eauto.
Qed.

(** Whatever the sorter, a frame with distinct review counts comes out as
    insertion sort leaves it. *)
Lemma sort_values_distinct (pandas : Sorter) df :
  NoDup (map review_count df) ->
  sort_values pandas df = insertion_sort_desc false df.
Proof.
  intros N. apply sorted_perm_unique.
  - eapply perm_trans; [apply Permutation_sym, sort_values_perm|].
    apply insertion_sort_desc_perm.
  - apply sort_values_sorted.
  - apply insertion_sort_desc_sorted.
  - eapply Permutation_NoDup; [|exact N].
    apply Permutation_map, sort_values_perm.
Qed.

(** ** What a strategy hands over *)

(** An aggregated result for threshold [min_reviews]: one row per
    identifier, every row above the threshold and with both coordinates,
    in non-increasing order of review count. *)
Definition located (r : Row) : Prop := latitude r <> None /\ longitude r <> None.

Definition aggregated (min_reviews : Z) (df : DataFrame) : Prop :=
  NoDup (ids df) /\
  Forall (fun r => min_reviews <= review_count r) df /\
  Forall located df /\
  StronglySorted by_reviews_desc df.

Lemma aggregated_nil min_reviews : aggregated min_reviews [].
Proof. repeat split; constructor. Qed.

Lemma store_aggregated min_reviews (d : Dict.t Row) df :
  grows min_reviews Dict.empty d ->
  Permutation (Dict.values d) df ->
  StronglySorted by_reviews_desc df ->
  aggregated min_reviews df.
Proof.
  intros G P Sd. apply grows_from_empty in G as [F N].
  assert (Fv : Forall (fun r => min_reviews <= review_count r /\ located r)
                 (Dict.values d)).
  { unfold Dict.values. rewrite Forall_map.
    eapply Forall_impl; [|exact F]. intros kv (_ & ? & ? & ?). now repeat split. }
  pose proof (Permutation_Forall P Fv) as Fd.
  repeat split; auto.
  - eapply Permutation_NoDup; [apply Permutation_map, P|].
    fold (ids (Dict.values d)). unfold ids. now rewrite (admissible_ids F).
  - eapply Forall_impl; [|exact Fd]. simpl. intros r [? ?]. assumption.
  - eapply Forall_impl; [|exact Fd]. simpl. intros r [? ?]. assumption.
Qed.

(** [m] run from [s] returns a value that satisfies [Q]. *)
Definition returns {S A} (m : M S A) (s : S) (Q : A -> Prop) : Prop :=
  exists a, snd (m s) = Ok a /\ Q a.

Lemma returns_ret {S A} (a : A) (s : S) (Q : A -> Prop) :
  Q a -> returns (ret a) s Q.
Proof. intros H. now exists a. Qed.

Lemma returns_bind {S A B} (m : M S A) (k : A -> M S B) s (P : A -> Prop) Q :
  returns m s P -> (forall a s', P a -> returns (k a) s' Q) ->
  returns (bind m k) s Q.
Proof.
  intros (a & E & Ha) Hk. unfold returns, bind.
  destruct (m s) as [s' o]; simpl in *; subst o. now apply Hk.
Qed.

Section Strategies.
Variable pandas : Sorter.
Variable gmaps : Api.Client.

Local Abbreviation state := (@frame gmaps Comprehensive.Locals).

Lemma strategy_run min_reviews (loop : M state unit) (e : Env gmaps) :
  total loop -> respects (@progress gmaps min_reviews) loop ->
  exists s' df,
    bind loop (fun _ => Comprehensive.to_frame (gmaps:=gmaps) pandas)
      (e, Comprehensive.fresh)
      = (s', Ok df) /\
    progress min_reviews (e, Comprehensive.fresh) s' /\
    aggregated min_reviews df.
Proof.
  intros Ht Hp. unfold bind.
  destruct (Ht (e, Comprehensive.fresh)) as [[] Hok].
  specialize (Hp (e, Comprehensive.fresh)).
  destruct (loop (e, Comprehensive.fresh)) as [s' o]; simpl in *; subst o.
  destruct (to_frame_spec pandas s') as (df & E & P & Sd).
  exists s', df. repeat split; auto; try apply Hp.
  all: eapply store_aggregated; eauto; apply Hp.
Qed.

Lemma grid_body_run min_reviews search_radius (e : Env gmaps) :
  exists s' df,
    Comprehensive.grid_body pandas min_reviews search_radius (e, Comprehensive.fresh)
      = (s', Ok df) /\
    progress min_reviews (e, Comprehensive.fresh) s' /\
    aggregated min_reviews df.
Proof.
  apply (strategy_run (loop := grid_loop (gmaps:=gmaps) min_reviews search_radius));
    [apply grid_loop_total | apply grid_loop_progress].
Qed.

Lemma text_body_run min_reviews (e : Env gmaps) :
  exists s' df,
    Comprehensive.text_body pandas min_reviews (e, Comprehensive.fresh)
      = (s', Ok df) /\
    progress min_reviews (e, Comprehensive.fresh) s' /\
    aggregated min_reviews df.
Proof.
  apply (strategy_run (loop := text_loop (gmaps:=gmaps) min_reviews));
    [apply text_loop_total | apply text_loop_progress].
Qed.

Lemma grid_search_aggregated min_reviews search_radius (e : Env gmaps) :
  returns (Comprehensive.fetch_hospitals_grid_search pandas min_reviews search_radius)
    e (aggregated min_reviews).
Proof.
  destruct (grid_body_run min_reviews search_radius e) as (s' & df & E & _ & A).
  exists df. unfold Comprehensive.fetch_hospitals_grid_search, with_locals.
  rewrite E. auto.
Qed.

Lemma text_search_aggregated min_reviews (e : Env gmaps) :
  returns (Comprehensive.fetch_hospitals_text_search pandas min_reviews)
    e (aggregated min_reviews).
Proof.
  destruct (text_body_run min_reviews e) as (s' & df & E & _ & A).
  exists df. unfold Comprehensive.fetch_hospitals_text_search, with_locals.
  rewrite E. auto.
Qed.

(** The combiner keeps an aggregated result aggregated. *)
Lemma combine_results_aggregated min_reviews grid_df text_df :
  aggregated min_reviews grid_df -> aggregated min_reviews text_df ->
  aggregated min_reviews (Comprehensive.combine_results pandas grid_df text_df).
Proof.
  intros Hg Ht. unfold Comprehensive.combine_results.
  destruct grid_df as [|g grid_df]; destruct text_df as [|t text_df]; simpl; auto.
  set (g_df := g :: grid_df) in *. set (t_df := t :: text_df) in *.
  change (aggregated min_reviews
            (sort_values pandas (drop_duplicates (concat g_df t_df)))).
  destruct Hg as (_ & Rg & Lg & _), Ht as (_ & Rt & Lt & _).
  pose proof (sort_values_perm pandas (drop_duplicates (concat g_df t_df))) as P.
  assert (I : forall r, In r (drop_duplicates (concat g_df t_df)) ->
                        In r g_df \/ In r t_df).
  { intros r H. apply drop_duplicates_from_incl in H. now apply in_app_or in H. }
  rewrite Forall_forall in Rg, Rt, Lg, Lt.
  repeat split.
  - eapply Permutation_NoDup; [apply Permutation_map, P|].
    apply drop_duplicates_from_nodup.
  - eapply Permutation_Forall; [exact P|]. apply Forall_forall.
    intros r H. destruct (I r H); auto.
  - eapply Permutation_Forall; [exact P|]. apply Forall_forall.
    intros r H. destruct (I r H); auto.
  - apply sort_values_sorted.
Qed.

(** The script always ends with a report; its frame is an aggregated
    result for 100 reviews, written to the file exactly when it has rows. *)
Lemma main_spec use_grid_only use_text_only (e : Env gmaps) :
  returns (Comprehensive.main pandas use_grid_only use_text_only) e
    (fun report =>
       aggregated 100 (Comprehensive.final_df report) /\
       Comprehensive.csv report =
         if empty (Comprehensive.final_df report) then None
         else Some ("eye_hospitals_bangalore_comprehensive.csv",
                    Comprehensive.final_df report)).
Proof.
  assert (Hend : forall (df : DataFrame) method s,
    aggregated 100 df ->
    returns
      (ret {| Comprehensive.final_df := df;
              Comprehensive.search_method_used := method;
              Comprehensive.csv :=
                if negb (empty df)
                then Comprehensive.save_hospitals_to_csv df
                       "eye_hospitals_bangalore_comprehensive.csv"
                else None |}) (s : Env gmaps)
      (fun report =>
         aggregated 100 (Comprehensive.final_df report) /\
         Comprehensive.csv report =
           if empty (Comprehensive.final_df report) then None
           else Some ("eye_hospitals_bangalore_comprehensive.csv",
                      Comprehensive.final_df report))).
  { intros df method s A. apply returns_ret. split; [exact A|]. now destruct df. }
  unfold Comprehensive.main.
  destruct use_text_only, use_grid_only; cbn [negb].
  - eapply returns_bind; [apply (returns_ret _ _ (fun l => l = [])); reflexivity|].
    intros ? s1 ->.
    eapply returns_bind; [apply (returns_ret _ _ (fun l => l = [])); reflexivity|].
    intros ? s2 ->. apply Hend, aggregated_nil.
  - eapply returns_bind; [apply (returns_ret _ _ (fun l => l = [])); reflexivity|].
    intros ? s1 ->.
    eapply returns_bind.
    + eapply returns_bind; [apply text_search_aggregated|].
      intros t s2 At.
      apply (returns_ret _ _ (fun l => exists t, l = [t] /\ aggregated 100 t)).
      now exists t.
    + intros ? s2 (t & -> & At). now apply Hend.
  - eapply returns_bind.
    + eapply returns_bind; [apply grid_search_aggregated|].
      intros g s1 Ag.
      apply (returns_ret _ _ (fun l => exists g, l = [g] /\ aggregated 100 g)).
      now exists g.
    + intros ? s1 (g & -> & Ag).
      eapply returns_bind;
        [apply (returns_ret _ _ (fun l => l = [g])); reflexivity|].
      intros ? s2 ->. now apply Hend.
  - eapply returns_bind.
    + eapply returns_bind; [apply grid_search_aggregated|].
      intros g s1 Ag.
      apply (returns_ret _ _ (fun l => exists g, l = [g] /\ aggregated 100 g)).
      now exists g.
    + intros ? s1 (g & -> & Ag).
      eapply returns_bind.
      * eapply returns_bind; [apply text_search_aggregated|].
        intros t s2 At.
        apply (returns_ret _ _
                 (fun l => exists t, l = [g; t] /\ aggregated 100 t)).
        now exists t.
      * intros ? s2 (t & -> & At). apply Hend.
        now apply combine_results_aggregated.
Qed.
End Strategies.

(** ** The single-query fetcher *)

Section SimpleSteps.
Variable pandas : Sorter.
Variable gmaps : Api.Client.
Variable min_reviews : Z.

Local Abbreviation state := (@frame gmaps Simple.Locals).

(** The list of hospitals only gets rows that passed the review filter,
    appended at its end. *)
Definition appended (s s' : state) : Prop :=
  exists new, Simple.hospitals (snd s') = Simple.hospitals (snd s) ++ new /\
              Forall (fun r => min_reviews <= review_count r) new.

Definition api_quiet (s s' : state) : Prop :=
  appended s s' /\
  extends (fun ev => negb (is_search ev)) s s' /\
  (details_are_pure gmaps -> world (fst s') = world (fst s)).

Definition api_progress (s s' : state) : Prop :=
  appended s s' /\ extends (fun _ => true) s s'.

Lemma appended_refl s : appended s s.
Proof. exists []. now rewrite app_nil_r. Qed.

Lemma appended_trans s1 s2 s3 : appended s1 s2 -> appended s2 s3 -> appended s1 s3.
Proof.
  intros (n1 & E1 & F1) (n2 & E2 & F2). exists (n1 ++ n2).
  rewrite E2, E1, app_assoc. split; [reflexivity | now apply Forall_app].
Qed.

Lemma api_quiet_refl s : api_quiet s s.
Proof. repeat split; auto using appended_refl, extends_refl. Qed.

Lemma api_quiet_trans s1 s2 s3 : api_quiet s1 s2 -> api_quiet s2 s3 -> api_quiet s1 s3.
Proof.
  intros (G1 & E1 & W1) (G2 & E2 & W2). repeat split.
  - eapply appended_trans; eauto.
  - eapply extends_trans; eauto.
  - intros H. rewrite W2, W1; auto.
Qed.

Lemma api_progress_refl s : api_progress s s.
Proof. split; auto using appended_refl, extends_refl. Qed.

Lemma api_progress_trans s1 s2 s3 :
  api_progress s1 s2 -> api_progress s2 s3 -> api_progress s1 s3.
Proof.
  intros (G1 & E1) (G2 & E2). split.
  - eapply appended_trans; eauto.
  - eapply extends_trans; eauto.
Qed.

Lemma api_quiet_progress s s' : api_quiet s s' -> api_progress s s'.
Proof. intros (G & E & _). split; [exact G | eapply extends_weaken; eauto]. Qed.

Lemma appended_same (s s' : state) :
  Simple.hospitals (snd s') = Simple.hospitals (snd s) -> appended s s'.
Proof. intros H. exists []. now rewrite app_nil_r. Qed.

Lemma api_place_quiet place : respects api_quiet (Simple.api_place min_reviews place).
Proof.
  intros [e l].
  unfold Simple.api_place, Simple.rate_limit, Simple.append, Simple.count_request,
    gmaps_place, call, sleep, emit, locals, set_locals, gets, modify, bind.
  destruct (Api.place_id place) as [pid|]; simpl; [|apply api_quiet_refl].
  pose proof (fun H : details_are_pure gmaps => H (world e) pid) as Hpure.
  destruct (Api.place gmaps (world e) pid) as [w' [details|]]; simpl in *.
  2: { split; [now apply appended_same | split; [now exists [PlaceCall pid] | exact Hpure]]. }
  destruct (Api.result details) as [place_data|]; simpl.
  2: { split; [now apply appended_same | split; [now exists [PlaceCall pid] | exact Hpure]]. }
  destruct (_ >=? _) eqn:Hrev; simpl.
  - apply Z.geb_le in Hrev.
    destruct (_ =? 0); simpl; (split; [|split; [|exact Hpure]]).
    + eexists; split; [reflexivity|]. now repeat constructor.
    + exists [PlaceCall pid; Sleep 1]. simpl. now rewrite <- app_assoc.
    + eexists; split; [reflexivity|]. now repeat constructor.
    + now exists [PlaceCall pid].
  - destruct (_ =? 0); simpl; (split; [now apply appended_same|split; [|exact Hpure]]).
    + exists [PlaceCall pid; Sleep 1]. simpl. now rewrite <- app_assoc.
    + now exists [PlaceCall pid].
Qed.

Lemma api_call_fuelled {A} ev (request : _ -> _ * Api.reply A) :
  fuelled (call (gmaps:=gmaps) (L:=Simple.Locals) ev request).
Proof.
  intros s. unfold call.
  destruct (snd (request (world (fst s)))); simpl; discriminate.
Qed.

Lemma api_place_fuelled place :
  fuelled (Simple.api_place (gmaps:=gmaps) min_reviews place).
Proof.
  unfold Simple.api_place, Simple.rate_limit, Simple.append, Simple.count_request,
    gmaps_place, sleep, emit, locals, set_locals.
  repeat first
    [ apply fuelled_bind; [|intros ?]
    | apply fuelled_getitem | apply fuelled_ret | apply fuelled_gets
    | apply fuelled_modify | apply api_call_fuelled
    | match goal with
      | |- fuelled (if ?b then _ else _) => destruct b
      end ].
Qed.

Lemma api_results_quiet places :
  respects api_quiet
    (for_each places (fun place => try_continue (Simple.api_place min_reviews place))).
Proof.
  apply (respects_for_each api_quiet_refl api_quiet_trans). intros place _.
  apply (respects_try_continue api_quiet_refl api_quiet_trans), api_place_quiet.
Qed.

Lemma api_results_total places :
  total
    (for_each places (fun place =>
       try_continue (Simple.api_place (gmaps:=gmaps) min_reviews place))).
Proof.
  apply total_for_each. intros place _.
  apply total_try_continue, api_place_fuelled.
Qed.

Lemma api_pages_progress fuel token :
  respects api_progress (Simple.api_pages fuel min_reviews token).
Proof.
  revert token. induction fuel as [|fuel IH]; intros token; simpl.
  - apply respects_diverge, api_progress_refl.
  - apply (respects_bind api_progress_trans).
    { intros [e l]. unfold gmaps_places_nearby, call. simpl.
      destruct (snd _); simpl; (split; [now apply appended_same | now eexists [_]]). }
    intros places_result. apply (respects_bind api_progress_trans).
    { intros [e l]. split; [now apply appended_same|]. exists []. simpl.
      now rewrite app_nil_r. }
    intros _. apply (respects_bind api_progress_trans).
    { eapply respects_weaken; [apply api_quiet_progress | apply api_results_quiet]. }
    intros _. destruct (negb _); [apply respects_ret, api_progress_refl|].
    apply (respects_bind api_progress_trans); [|intros _; apply IH].
    intros [e l]. split; [now apply appended_same | now eexists [_]].
Qed.

(** The sample data, filtered and sorted. *)
Lemma sample_data_spec :
  Forall (fun r => min_reviews <= review_count r) (Simple.sample_data pandas min_reviews) /\
  StronglySorted by_reviews_desc (Simple.sample_data pandas min_reviews) /\
  Permutation (at_least min_reviews Simple.SAMPLE_EYE_HOSPITALS)
              (Simple.sample_data pandas min_reviews).
Proof.
  unfold Simple.sample_data. repeat split.
  - eapply Permutation_Forall; [apply sort_values_perm|].
    unfold at_least. apply Forall_forall. intros r H.
    apply filter_In in H as [_ H]. now apply Z.leb_le.
  - apply sort_values_sorted.
  - apply sort_values_perm.
Qed.

(** What the API fetch can come back with: nothing, or a non-empty sorted
    frame of rows above the threshold; it never raises. *)
Definition fetched (result : outcome (option DataFrame)) : Prop :=
  match result with
  | Ok (Some df) =>
      df <> [] /\ Forall (fun r => min_reviews <= review_count r) df /\
      StronglySorted by_reviews_desc df
  | Ok None => True
  | Raised _ => False
  | OutOfFuel => True
  end.

Lemma fetch_eye_hospitals_from_api_spec fuel (e : Env gmaps) :
  fetched (snd (Simple.fetch_eye_hospitals_from_api pandas fuel min_reviews e)).
Proof.
  unfold Simple.fetch_eye_hospitals_from_api, with_locals, Simple.api_body,
    try_except, bind, locals, gets. simpl.
  pose proof (api_pages_progress fuel None (e, Simple.fresh)) as [(new & E & F) _].
  destruct (Simple.api_pages fuel min_reviews None (e, Simple.fresh)) as [s' [[]|x|]];
    simpl in *; auto.
  destruct (Simple.hospitals (snd s')) as [|r rs] eqn:Eh; simpl; auto.
  subst new. split; [|split].
  - intros H.
    apply (Permutation_nil_cons (l := rs) (x := r)).
    rewrite <- H. apply Permutation_sym, sort_values_perm.
  - eapply Permutation_Forall; [apply sort_values_perm | exact F].
  - apply sort_values_sorted.
Qed.
End SimpleSteps.

(** * The combiner *)

Lemma first_with_survives seen df id r :
  first_with id df = Some r -> ~ In id seen ->
  In r (drop_duplicates_from seen df).
Proof.
  revert seen. induction df as [|x df IH]; intros seen; simpl; [discriminate|].
  destruct (String.eqb_spec (place_id x) id) as [E|E]; intros F Hs.
  - injection F as <-. subst id.
    destruct (existsb _ seen) eqn:Ex; [|now left].
    apply existsb_eqb_in in Ex. tauto.
  - destruct (existsb _ seen); [now apply IH|].
    right. apply IH; [exact F|]. intros [?|?]; tauto.
Qed.

Lemma first_with_app id g t :
  first_with id (g ++ t) =
  match first_with id g with Some r => Some r | None => first_with id t end.
Proof.
  unfold first_with. induction g as [|x g IH]; simpl; [reflexivity|].
  now destruct (String.eqb (place_id x) id).
Qed.

Lemma combine_results_nonempty pandas g grid_df t text_df :
  Comprehensive.combine_results pandas (g :: grid_df) (t :: text_df) =
  sort_values pandas (drop_duplicates ((g :: grid_df) ++ (t :: text_df))).
Proof. reflexivity. Qed.

(** A row of the scenarios: identifier and review count as given, the other
    columns as the fetchers fill them when the API gives nothing else. *)
Definition hospital (id : string) (reviews : Z) : Row :=
  {| name := "N/A"; address := "N/A";
     latitude := Some 12.9716%R; longitude := Some 77.5946%R;
     rating := None; review_count := reviews;
     phone := "N/A"; website := "N/A"; place_id := id;
     types := None; zone := None; keyword_found := None;
     search_method := None; open_now := None |}.

(** C4, as stated, fails: the combiner has no review filter of its own, so
    a text row below the threshold that reaches it is kept.  Merging grid
    [[A:500]] with text [[A:999; B:50]] gives [[A:500; B:50]], not
    [[A:500]]. *)
Lemma C4_counterexample :
  Comprehensive.combine_results stable_sorter
    [hospital "A" 500] [hospital "A" 999; hospital "B" 50]
  = [hospital "A" 500; hospital "B" 50] /\
  Comprehensive.combine_results stable_sorter
    [hospital "A" 500] [hospital "A" 999; hospital "B" 50]
  <> [hospital "A" 500].
Proof. split; [reflexivity | discriminate]. Qed.

(** What "first seen wins, grid before text, re-sorted" says of the merged
    frame [out]. *)
Definition first_seen_merge (grid_df text_df out : DataFrame) : Prop :=
  Permutation (drop_duplicates (grid_df ++ text_df)) out /\
  StronglySorted by_reviews_desc out /\
  NoDup (ids out) /\
  (forall r, In r out -> first_with (place_id r) (grid_df ++ text_df) = Some r) /\
  (forall id r, first_with id grid_df = Some r -> In r out) /\
  (forall id r, first_with id grid_df = None -> first_with id text_df = Some r ->
                In r out).

(** C4, amended: for two non-empty frames [combine_results] keeps, for each
    identifier, the first row of the concatenation grid-then-text (so a grid
    row always beats a text row with the same identifier, and a text row
    survives only when grid has none), and returns these rows ordered by
    review count, non-increasing.  It applies no review filter: grid
    [[A:500]] with text [[A:999; B:50]] gives [[A:500; B:50]] whatever the
    sorter, and [[A:500]] only once B has been filtered out upstream. *)
Theorem C4_combine_results_first_seen (pandas : Sorter) (grid_df text_df : DataFrame) :
  grid_df <> [] -> text_df <> [] ->
  first_seen_merge grid_df text_df
    (Comprehensive.combine_results pandas grid_df text_df) /\
  Comprehensive.combine_results pandas
    [hospital "A" 500] [hospital "A" 999; hospital "B" 50]
  = [hospital "A" 500; hospital "B" 50] /\
  Comprehensive.combine_results pandas [hospital "A" 500] [hospital "A" 999]
  = [hospital "A" 500].
Proof.
  intros Hg Ht.
  destruct grid_df as [|g grid_df]; [congruence|].
  destruct text_df as [|t text_df]; [congruence|].
  rewrite combine_results_nonempty.
  set (both := (g :: grid_df) ++ t :: text_df).
  pose proof (sort_values_perm pandas (drop_duplicates both)) as P.
  assert (Hin : forall r, In r (drop_duplicates both) ->
                          In r (sort_values pandas (drop_duplicates both))).
  { intros r. apply Permutation_in, P. }
  unfold first_seen_merge. fold both. repeat split.
  - exact P.
  - apply sort_values_sorted.
  - eapply Permutation_NoDup; [apply Permutation_map, P|].
    apply drop_duplicates_from_nodup.
  - intros r H. apply (Permutation_in _ (Permutation_sym P)) in H.
    now apply drop_duplicates_from_first in H.
  - intros id r F. apply Hin, (@first_with_survives [] both id); [|tauto].
    unfold both. now rewrite first_with_app, F.
  - intros id r Fg Ft. apply Hin, (@first_with_survives [] both id); [|tauto].
    unfold both. now rewrite first_with_app, Fg.
  - rewrite combine_results_nonempty, sort_values_distinct; [reflexivity|].
    simpl. repeat constructor; simpl; intuition discriminate.
  - rewrite combine_results_nonempty, sort_values_distinct; [reflexivity|].
    simpl. repeat constructor; simpl; intuition discriminate.
Qed.

Lemma C4_combine_results_first_seen_witness :
  [hospital "A" 500] <> [] /\ [hospital "A" 999; hospital "B" 50] <> [] /\
  first_seen_merge [hospital "A" 500] [hospital "A" 999; hospital "B" 50]
    (Comprehensive.combine_results stable_sorter
       [hospital "A" 500] [hospital "A" 999; hospital "B" 50]).
Proof.
  split; [discriminate | split; [discriminate|]].
  apply (@C4_combine_results_first_seen stable_sorter
           [hospital "A" 500] [hospital "A" 999; hospital "B" 50]); discriminate.
Defined.

(** C10: the identifiers in the output of [combine_results] are exactly
    those of the grid frame together with those of the text frame, and
    combining with an empty frame returns the other frame as it is. *)
Theorem C10_combine_results_identifiers (pandas : Sorter) (grid_df text_df : DataFrame) :
  (forall id, In id (ids (Comprehensive.combine_results pandas grid_df text_df)) <->
              In id (ids grid_df) \/ In id (ids text_df)) /\
  Comprehensive.combine_results pandas grid_df [] = grid_df /\
  Comprehensive.combine_results pandas [] text_df = text_df.
Proof.
  split; [|split; [now destruct grid_df | now destruct text_df]].
  intros id. destruct grid_df as [|g grid_df]; destruct text_df as [|t text_df].
  - simpl. tauto.
  - simpl. tauto.
  - simpl. tauto.
  - rewrite combine_results_nonempty.
    set (both := (g :: grid_df) ++ t :: text_df).
    transitivity (In id (ids (drop_duplicates both))).
    + unfold ids. split; apply Permutation_in, Permutation_map;
        [apply Permutation_sym|]; apply sort_values_perm.
    + rewrite drop_duplicates_ids. unfold both, ids. rewrite map_app.
      apply in_app_iff.
Qed.

(** * The haversine distance *)

Section Haversine.
Import Comprehensive.
Local Open Scope R_scope.

Lemma atan2_pos y x : 0 < x -> atan2 y x = atan (y / x).
Proof. intros H. unfold atan2. destruct (Rlt_dec 0 x); [reflexivity | contradiction]. Qed.

Lemma haversine_distance_self lat lon : haversine_distance lat lon lat lon = 0.
Proof.
  unfold haversine_distance.
  replace (radians lat - radians lat) with 0 by lra.
  replace (radians lon - radians lon) with 0 by lra.
  replace (0 / 2) with 0 by lra.
  rewrite sin_0.
  replace (0 ^ 2 + cos (radians lat) * cos (radians lat) * 0 ^ 2) with 0 by (simpl; lra).
  rewrite sqrt_0, Rminus_0_r, sqrt_1, atan2_pos by lra.
  replace (0 / 1) with 0 by lra. rewrite atan_0. lra.
Qed.



Lemma exceeds_spec distance limit : exceeds distance limit = true <-> distance > limit.
Proof.
  unfold exceeds. destruct (Rgt_dec distance limit); split; auto; discriminate.
Qed.

(** [km] kilometres due north of a point, in degrees of latitude. *)
Definition north (lat km : R) : R := lat + km / 6371 * (180 / PI).

(** Going [km] kilometres due north is a distance of [km]. *)
Lemma haversine_distance_north lat lon km :
  0 <= km <= 6371 ->
  haversine_distance lat lon (north lat km) lon = km.
Proof.
  intros Hkm. unfold haversine_distance, north.
  pose proof PI_RGT_0 as Hpi. pose proof PI2_1 as Hpi2.
  replace (radians (lat + km / 6371 * (180 / PI)) - radians lat) with (km / 6371)
    by (unfold radians; field; lra).
  replace (radians lon - radians lon) with 0 by lra.
  replace (0 / 2) with 0 by lra. rewrite sin_0.
  set (x := km / 6371 / 2).
  assert (Hx : 0 <= x <= 1 / 2) by (unfold x; lra).
  replace (sin x ^ 2 + cos (radians lat) * cos (radians (lat + km / 6371 * (180 / PI))) * 0 ^ 2)
    with (Rsqr (sin x)) by (unfold Rsqr; simpl; lra).
  assert (Hs : 0 <= sin x) by (apply sin_ge_0; lra).
  assert (Hc : 0 < cos x) by (apply cos_gt_0; lra).
  rewrite sqrt_Rsqr by exact Hs.
  replace (1 - Rsqr (sin x)) with (Rsqr (cos x)) by (rewrite sin2; lra).
  rewrite sqrt_Rsqr by lra.
  rewrite atan2_pos by exact Hc.
  change (sin x / cos x) with (tan x).
  rewrite atan_tan by lra.
  unfold x. field.
Qed.
End Haversine.

(** A search result with identifier [id] located at ([lat], [lon]). *)
Definition place_at (id : string) (lat lon : R) : Api.Place :=
  {| Api.place_id := Some id;
     Api.place_geometry :=
       Some {| Api.location := Some {| Api.lat := Some lat; Api.lng := Some lon |} |} |}.

Section Validator.
Import Comprehensive.
Variable gmaps : Api.Client.
Local Open Scope R_scope.


(** The distance check of the text search on a result with coordinates. *)
Lemma text_place_check min_reviews id lat lon (s : @frame gmaps Locals) :
  text_place min_reviews (place_at id lat lon) s =
  if exceeds (haversine_distance (fst BANGALORE_CENTER) (snd BANGALORE_CENTER) lat lon) 50
  then (s, Ok tt)
  else text_enrich min_reviews (place_at id lat lon) s.
Proof.
  unfold text_place, distance_from_center, bind, ret. simpl.
  now destruct (exceeds _ 50).
Qed.


Lemma text_place_near min_reviews id lat lon (s : @frame gmaps Locals) :
  ~ haversine_distance (fst BANGALORE_CENTER) (snd BANGALORE_CENTER) lat lon > 50 ->
  text_place min_reviews (place_at id lat lon) s =
  text_enrich min_reviews (place_at id lat lon) s.
Proof.
  intros H. rewrite text_place_check.
  destruct (exceeds _ 50) eqn:E; [|reflexivity].
  apply exceeds_spec in E. contradiction.
Qed.

End Validator.

(** * Pagination *)

(** A client that serves search requests from a script, one page per
    request whatever is asked, fails once the script is exhausted, and
    answers details requests by a fixed table. *)
Definition scripted (details : string -> Api.reply Api.Details) : Api.Client :=
  {| Api.world := list Api.SearchResponse;
     Api.places_nearby := fun w _ _ _ _ =>
       match w with
       | [] => ([], Api.Failed)
       | page :: w' => (w', Api.Returned page)
       end;
     Api.places_text := fun w _ _ =>
       match w with
       | [] => ([], Api.Failed)
       | page :: w' => (w', Api.Returned page)
       end;
     Api.place := fun w id => (w, details id) |}.

Definition page (places : list Api.Place) (token : option string) : Api.SearchResponse :=
  {| Api.results := Some places; Api.next_page_token := token |}.

Lemma scripted_details_pure details : details_are_pure (scripted details).
Proof. intros w pid. reflexivity. Qed.

Section Paging.
Variable gmaps : Api.Client.
Variable min_reviews : Z.

Local Abbreviation state := (@frame gmaps Comprehensive.Locals).

Lemma searches_snoc {L} (e : Env gmaps) (l l' : L) w ev :
  searches (@Build_Env gmaps w (trace e ++ [ev]), l') =
  searches (e, l) ++ (if is_search ev then [ev] else []).
Proof. unfold searches. simpl. now rewrite filter_app. Qed.

Lemma grid_results_run zone_idx keyword places (s : state) :
  exists s',
    for_each places
      (fun place => try_continue
         (Comprehensive.grid_place min_reviews zone_idx keyword place)) s = (s', Ok tt) /\
    quiet min_reviews s s'.
Proof.
  pose proof (grid_results_quiet min_reviews zone_idx keyword places s) as Q.
  destruct (grid_results_total min_reviews zone_idx keyword places s) as [[] E].
  destruct (for_each _ _ s) as [s' o]; simpl in *; subst o. now exists s'.
Qed.

Lemma text_results_run places (s : state) :
  exists s',
    for_each places
      (fun place => try_continue (Comprehensive.text_place min_reviews place)) s
      = (s', Ok tt) /\
    quiet min_reviews s s'.
Proof.
  pose proof (text_results_quiet min_reviews places s) as Q.
  destruct (text_results_total min_reviews places s) as [[] E].
  destruct (for_each _ _ s) as [s' o]; simpl in *; subst o. now exists s'.
Qed.

(** The number of search requests of one query never exceeds what the page
    cap leaves. *)
Lemma grid_pages_bound fuel search_radius zone_idx location keyword page_num token
    (s : state) :
  0 <= page_num < 3 ->
  (List.length (searches (fst (Comprehensive.grid_pages fuel min_reviews search_radius
                           zone_idx location keyword page_num token s)))
   <= List.length (searches s) + Z.to_nat (3 - page_num))%nat.
Proof.
  revert page_num token s.
  induction fuel as [|fuel IH]; intros page_num token [e l] Hp; [simpl; lia|].
  set (n := Z.to_nat (3 - page_num)).
  assert (IH' : forall tok (s : state),
    page_num + 1 < 3 ->
    (List.length (searches (fst (Comprehensive.grid_pages fuel min_reviews search_radius
                             zone_idx location keyword (page_num + 1) tok s)))
     <= List.length (searches s) + pred n)%nat).
  { intros tok s H. etransitivity; [apply IH; lia|]. unfold n. lia. }
  assert (Hn : (1 <= n)%nat) by (unfold n; lia).
  clearbody n. clear IH. simpl.
  unfold bind at 1. unfold gmaps_places_nearby, call. simpl.
  assert (H1 : forall w (l' : Comprehensive.Locals),
    List.length (searches (@Build_Env gmaps w
        (trace e ++ [NearbyCall location search_radius keyword token]), l'))
    = S (List.length (searches (e, l)))).
  { intros w l'. rewrite (searches_snoc e l l'). simpl. rewrite length_app. simpl. lia. }
  destruct (snd (Api.places_nearby gmaps (world e) location search_radius keyword token))
    as [places_result|]; simpl; [|rewrite H1; lia].
  unfold bind at 1. simpl.
  destruct (negb (truthy_list _)); simpl; [rewrite H1; lia|].
  unfold bind at 1.
  match goal with |- context [for_each ?ps _ ?s1] =>
    destruct (grid_results_run zone_idx keyword ps s1) as (s2 & E & Q) end.
  rewrite E. destruct Q as (_ & Q & _). apply extends_quiet_searches in Q.
  destruct (negb (truthy_token _)); simpl; [rewrite Q, H1; lia|].
  destruct (Z.geb_spec (page_num + 1) 3); simpl; [rewrite Q, H1; lia|].
  unfold bind at 1. destruct s2 as [e2 l2]. simpl.
  etransitivity; [apply IH'; lia|].
  rewrite (searches_snoc e2 l2 l2). simpl. rewrite app_nil_r, Q, H1. lia.
Qed.

Lemma text_pages_bound fuel keyword page_num token (s : state) :
  0 <= page_num < 2 ->
  (List.length (searches (fst (Comprehensive.text_pages fuel min_reviews keyword
                           page_num token s)))
   <= List.length (searches s) + Z.to_nat (2 - page_num))%nat.
Proof.
  revert page_num token s.
  induction fuel as [|fuel IH]; intros page_num token [e l] Hp; [simpl; lia|].
  set (n := Z.to_nat (2 - page_num)).
  assert (IH' : forall tok (s : state),
    page_num + 1 < 2 ->
    (List.length (searches (fst (Comprehensive.text_pages fuel min_reviews keyword
                             (page_num + 1) tok s)))
     <= List.length (searches s) + pred n)%nat).
  { intros tok s H. etransitivity; [apply IH; lia|]. unfold n. lia. }
  assert (Hn : (1 <= n)%nat) by (unfold n; lia).
  clearbody n. clear IH. simpl.
  unfold bind at 1. unfold gmaps_places_text, call. simpl.
  assert (H1 : forall w (l' : Comprehensive.Locals),
    List.length (searches (@Build_Env gmaps w
        (trace e ++ [TextCall (keyword ++ " Bangalore") token]), l'))
    = S (List.length (searches (e, l)))).
  { intros w l'. rewrite (searches_snoc e l l'). simpl. rewrite length_app. simpl. lia. }
  destruct (snd (Api.places_text gmaps (world e) (keyword ++ " Bangalore") token))
    as [search_result|]; simpl; [|rewrite H1; lia].
  unfold bind at 1. simpl.
  destruct (negb (truthy_list _)); simpl; [rewrite H1; lia|].
  unfold bind at 1.
  match goal with |- context [for_each ?ps _ ?s1] =>
    destruct (text_results_run ps s1) as (s2 & E & Q) end.
  rewrite E. destruct Q as (_ & Q & _). apply extends_quiet_searches in Q.
  destruct (negb (truthy_token _)); simpl; [rewrite Q, H1; lia|].
  destruct (Z.geb_spec (page_num + 1) 2); simpl; [rewrite Q, H1; lia|].
  unfold bind at 1. destruct s2 as [e2 l2]. simpl.
  etransitivity; [apply IH'; lia|].
  rewrite (searches_snoc e2 l2 l2). simpl. rewrite app_nil_r, Q, H1. lia.
Qed.
End Paging.

Section Scripted.
Variable details : string -> Api.reply Api.Details.
Variable min_reviews : Z.

Local Abbreviation client := (scripted details).
Local Abbreviation state := (@frame client Comprehensive.Locals).

Lemma truthy_token_some t : t <> "" -> truthy_token (Some t) = true.
Proof. intros H. simpl. now destruct (String.eqb_spec t ""). Qed.

Lemma searches_sleep {L} (e : Env client) (l : L) seconds :
  searches (@Build_Env client (world e) (trace e ++ [Sleep seconds]), l) = searches (e, l).
Proof. rewrite (searches_snoc e l l). simpl. apply app_nil_r. Qed.

(** One page served to the grid search: the request is made, the results
    are processed without any further search, and the loop either stops or
    sleeps and asks for the next page with the token just received. *)
Lemma grid_pages_served fuel search_radius zone_idx location keyword page_num token
    places next rest (e : Env client) (l : Comprehensive.Locals) :
  world e = page places next :: rest -> places <> [] ->
  exists (e1 : Env client) (l1 : Comprehensive.Locals),
    world e1 = rest /\
    searches (e1, l1) =
      searches (e, l) ++ [NearbyCall location search_radius keyword token] /\
    Comprehensive.grid_pages (S fuel) min_reviews search_radius zone_idx location
      keyword page_num token (e, l) =
    (if negb (truthy_token next) || (page_num + 1 >=? 3) then ret tt
     else sleep 1 ;;
          Comprehensive.grid_pages fuel min_reviews search_radius zone_idx location
            keyword (page_num + 1) next) (e1, l1).
Proof.
  intros Hw Hp. simpl.
  unfold bind at 1. unfold gmaps_places_nearby, call. simpl. rewrite Hw. simpl.
  unfold bind at 1. simpl.
  destruct places as [|p places]; [congruence|]. cbn [truthy_list negb].
  unfold bind at 1.
  match goal with |- context [for_each ?ps _ ?s1] =>
    destruct (grid_results_run min_reviews zone_idx keyword ps s1) as ([e1 l1] & E & Q)
  end.
  rewrite E. destruct Q as (_ & Q & W). apply extends_quiet_searches in Q.
  specialize (W (@scripted_details_pure details)). simpl in W.
  exists e1, l1. repeat split.
  - exact W.
  - rewrite Q. now rewrite (searches_snoc e l).
Qed.

Lemma text_pages_served fuel keyword page_num token places next rest (e : Env client)
    (l : Comprehensive.Locals) :
  world e = page places next :: rest -> places <> [] ->
  exists (e1 : Env client) (l1 : Comprehensive.Locals),
    world e1 = rest /\
    searches (e1, l1) =
      searches (e, l) ++ [TextCall (keyword ++ " Bangalore") token] /\
    Comprehensive.text_pages (S fuel) min_reviews keyword page_num token (e, l) =
    (if negb (truthy_token next) || (page_num + 1 >=? 2) then ret tt
     else sleep 1 ;;
          Comprehensive.text_pages fuel min_reviews keyword (page_num + 1) next) (e1, l1).
Proof.
  intros Hw Hp. simpl.
  unfold bind at 1. unfold gmaps_places_text, call. simpl. rewrite Hw. simpl.
  unfold bind at 1. simpl.
  destruct places as [|p places]; [congruence|]. cbn [truthy_list negb].
  unfold bind at 1.
  match goal with |- context [for_each ?ps _ ?s1] =>
    destruct (text_results_run min_reviews ps s1) as ([e1 l1] & E & Q)
  end.
  rewrite E. destruct Q as (_ & Q & W). apply extends_quiet_searches in Q.
  specialize (W (@scripted_details_pure details)). simpl in W.
  exists e1, l1. repeat split.
  - exact W.
  - rewrite Q. now rewrite (searches_snoc e l).
Qed.

(** The scenario of the specification on the grid search: tokens on the
    first two pages, none on the third. *)
Lemma grid_keyword_three_pages search_radius zone_idx location keyword
    r1 r2 r3 t1 t2 rest (e : Env client)
    (l : Comprehensive.Locals) :
  r1 <> [] -> r2 <> [] -> r3 <> [] -> t1 <> "" -> t2 <> "" ->
  world e = page r1 (Some t1) :: page r2 (Some t2) :: page r3 None :: rest ->
  exists s' : state,
    Comprehensive.grid_keyword min_reviews search_radius zone_idx location keyword (e, l)
      = (s', Ok tt) /\
    searches s' =
      searches (e, l) ++
      [NearbyCall location search_radius keyword None;
       NearbyCall location search_radius keyword (Some t1);
       NearbyCall location search_radius keyword (Some t2)] /\
    world (fst s') = rest.
Proof.
  intros H1 H2 H3 T1 T2 Hw.
  unfold Comprehensive.grid_keyword, try_continue, try_except.
  destruct (@grid_pages_served 2 search_radius zone_idx location keyword 0 None
              _ _ _ e l Hw H1)
    as (e1 & l1 & W1 & S1 & ->).
  rewrite (truthy_token_some T1).
  change (0 + 1) with 1. change (1 >=? 3) with false. change (1 >=? 2) with false.
  cbn [negb orb]. unfold bind at 1. cbn [sleep emit modify fst snd].
  set (e1' := @Build_Env client (world e1) (trace e1 ++ [Sleep 1])).
  destruct (@grid_pages_served 1 search_radius zone_idx location keyword 1 (Some t1)
              _ _ _ e1' l1 W1 H2) as (e2 & l2 & W2 & S2 & ->).
  rewrite (truthy_token_some T2).
  change (1 + 1) with 2. change (2 >=? 3) with false.
  cbn [negb orb]. unfold bind at 1. cbn [sleep emit modify fst snd].
  set (e2' := @Build_Env client (world e2) (trace e2 ++ [Sleep 1])).
  destruct (@grid_pages_served 0 search_radius zone_idx location keyword 2 (Some t2)
              _ _ _ e2' l2 W2 H3) as (e3 & l3 & W3 & S3 & ->).
  cbn [truthy_token negb orb]. exists (e3, l3). repeat split; auto.
  rewrite S3. unfold e2'. rewrite searches_sleep, S2. unfold e1'.
  rewrite searches_sleep, S1, <- !app_assoc. reflexivity.
Qed.

(** The same scenario on the text search: the cap of two pages stops it
    before the third page is asked for. *)
Lemma text_keyword_three_pages keyword r1 r2 r3 t1 t2 rest (e : Env client)
    (l : Comprehensive.Locals) :
  r1 <> [] -> r2 <> [] -> t1 <> "" ->
  world e = page r1 (Some t1) :: page r2 (Some t2) :: page r3 None :: rest ->
  exists s' : state,
    Comprehensive.text_keyword min_reviews keyword (e, l) = (s', Ok tt) /\
    searches s' =
      searches (e, l) ++
      [TextCall (keyword ++ " Bangalore") None;
       TextCall (keyword ++ " Bangalore") (Some t1)] /\
    world (fst s') = page r3 None :: rest.
Proof.
  intros H1 H2 T1 Hw.
  unfold Comprehensive.text_keyword, try_continue, try_except.
  destruct (@text_pages_served 1 keyword 0 None _ _ _ e l Hw H1) as (e1 & l1 & W1 & S1 & ->).
  rewrite (truthy_token_some T1).
  change (0 + 1) with 1. change (1 >=? 3) with false. change (1 >=? 2) with false.
  cbn [negb orb]. unfold bind at 1. cbn [sleep emit modify fst snd].
  set (e1' := @Build_Env client (world e1) (trace e1 ++ [Sleep 1])).
  destruct (@text_pages_served 0 keyword 1 (Some t1) _ _ _ e1' l1 W1 H2)
    as (e2 & l2 & W2 & S2 & ->).
  change (1 + 1 >=? 2) with true.
  rewrite orb_true_r. exists (e2, l2). repeat split; auto.
  rewrite S2. unfold e1'. rewrite searches_sleep, S1, <- !app_assoc. reflexivity.
Qed.
End Scripted.

Section ScriptedSimple.
Variable details : string -> Api.reply Api.Details.
Variable min_reviews : Z.

Local Abbreviation client := (scripted details).
Local Abbreviation state := (@frame client Simple.Locals).

Lemma api_results_run places (s : state) :
  exists s',
    for_each places
      (fun place => try_continue (Simple.api_place min_reviews place)) s = (s', Ok tt) /\
    api_quiet min_reviews s s'.
Proof.
  pose proof (api_results_quiet min_reviews places s) as Q.
  destruct (api_results_total min_reviews places s) as [[] E].
  destruct (for_each _ _ s) as [s' o]; simpl in *; subst o. now exists s'.
Qed.

Lemma api_pages_served fuel token places next rest (e : Env client) (l : Simple.Locals) :
  world e = page places next :: rest ->
  exists (e1 : Env client) (l1 : Simple.Locals),
    world e1 = rest /\
    searches (e1, l1) =
      searches (e, l) ++
      [NearbyCall Simple.BANGALORE_CENTER Simple.SEARCH_RADIUS "eye hospital" token] /\
    Simple.api_pages (S fuel) min_reviews token (e, l) =
    (if negb (truthy_token next) then ret tt
     else sleep 2 ;; Simple.api_pages fuel min_reviews next) (e1, l1).
Proof.
  intros Hw. simpl.
  unfold bind at 1. unfold gmaps_places_nearby, call. simpl. rewrite Hw. simpl.
  unfold bind at 1. simpl. unfold bind at 1.
  match goal with |- context [for_each ?ps _ ?s1] =>
    destruct (api_results_run ps s1) as ([e1 l1] & E & Q)
  end.
  rewrite E. destruct Q as (_ & Q & W). apply extends_quiet_searches in Q.
  specialize (W (@scripted_details_pure details)). simpl in W.
  exists e1, l1. repeat split.
  - exact W.
  - rewrite Q. now rewrite (searches_snoc e l).
Qed.

(** The scenario on the single-query fetcher, which has no page cap: given
    fuel for three pages it asks for all three. *)
Lemma api_pages_three_pages fuel r1 r2 r3 t1 t2 rest (e : Env client) (l : Simple.Locals) :
  t1 <> "" -> t2 <> "" ->
  world e = page r1 (Some t1) :: page r2 (Some t2) :: page r3 None :: rest ->
  exists s' : state,
    Simple.api_pages (3 + fuel) min_reviews None (e, l) = (s', Ok tt) /\
    searches s' =
      searches (e, l) ++
      [NearbyCall Simple.BANGALORE_CENTER Simple.SEARCH_RADIUS "eye hospital" None;
       NearbyCall Simple.BANGALORE_CENTER Simple.SEARCH_RADIUS "eye hospital" (Some t1);
       NearbyCall Simple.BANGALORE_CENTER Simple.SEARCH_RADIUS "eye hospital" (Some t2)] /\
    world (fst s') = rest.
Proof.
  intros T1 T2 Hw. change (3 + fuel)%nat with (S (S (S fuel))).
  destruct (@api_pages_served (S (S fuel)) None _ _ _ e l Hw) as (e1 & l1 & W1 & S1 & ->).
  rewrite (truthy_token_some T1). cbn [negb].
  unfold bind at 1. cbn [sleep emit modify fst snd].
  set (e1' := @Build_Env client (world e1) (trace e1 ++ [Sleep 2])).
  destruct (@api_pages_served (S fuel) (Some t1) _ _ _ e1' l1 W1)
    as (e2 & l2 & W2 & S2 & ->).
  rewrite (truthy_token_some T2). cbn [negb].
  unfold bind at 1. cbn [sleep emit modify fst snd].
  set (e2' := @Build_Env client (world e2) (trace e2 ++ [Sleep 2])).
  destruct (@api_pages_served fuel (Some t2) _ _ _ e2' l2 W2)
    as (e3 & l3 & W3 & S3 & ->).
  cbn [truthy_token negb]. exists (e3, l3). repeat split; auto.
  rewrite S3. unfold e2'. rewrite searches_sleep, S2. unfold e1'.
  rewrite searches_sleep, S1, <- !app_assoc. reflexivity.
Qed.
End ScriptedSimple.

(** ** Scenario data *)

(** A details table under which every place has the given number of
    reviews and sits at the centre of Bangalore. *)
Definition listing (reviews : Z) (id : string) : Api.reply Api.Details :=
  Api.Returned
    {| Api.result :=
         Some {| Api.name := Some id;
                 Api.formatted_address := Some "Bangalore";
                 Api.geometry :=
                   Some {| Api.location :=
                             Some {| Api.lat := Some 12.9716%R;
                                     Api.lng := Some 77.5946%R |} |};
                 Api.rating := Some 4.5%R;
                 Api.user_ratings_total := Some reviews;
                 Api.website := None;
                 Api.formatted_phone_number := None;
                 Api.opening_hours := None;
                 Api.types := None |} |}.

(** Three pages of one result each, with a token on the first two. *)
Definition three_pages : list Api.SearchResponse :=
  [ page [place_at "P1" 12.9716 77.5946] (Some "t1");
    page [place_at "P2" 12.9716 77.5946] (Some "t2");
    page [place_at "P3" 12.9716 77.5946] None ].

Lemma try_continue_state {S} (m : M S unit) s : fst (try_continue m s) = fst (m s).
Proof.
  unfold try_continue, try_except. now destruct (m s) as [s' [[]|e|]].
Qed.

(** C5, as stated, fails on the text search: its cap is two pages, so with
    a token on the first two pages and none on the third it makes two
    requests and never asks for the third page. *)
Lemma C5_counterexample :
  exists s' : @frame (scripted (listing 500)) Comprehensive.Locals,
    Comprehensive.text_keyword 100 "eye hospital"
      (@Build_Env (scripted (listing 500)) three_pages [], Comprehensive.fresh)
    = (s', Ok tt) /\
    searches s' =
      [TextCall "eye hospital Bangalore" None;
       TextCall "eye hospital Bangalore" (Some "t1")] /\
    world (fst s') = [page [place_at "P3" 12.9716 77.5946] None].
Proof.
  apply (@text_keyword_three_pages (listing 500) 100 "eye hospital"
           [place_at "P1" 12.9716 77.5946] [place_at "P2" 12.9716 77.5946]
           [place_at "P3" 12.9716 77.5946] "t1" "t2" []
           (@Build_Env (scripted (listing 500)) three_pages []) Comprehensive.fresh);
    try discriminate; reflexivity.
Qed.

(** What the three-page scenario does to each fetcher, from a state whose
    script starts with the three pages: the requests made, in order, and
    the pages left unrequested. *)
Definition three_page_runs (details : string -> Api.reply Api.Details)
    (min_reviews : Z) (r1 r2 r3 : list Api.Place) (t1 t2 : string)
    (rest : list Api.SearchResponse) : Prop :=
  let pages := page r1 (Some t1) :: page r2 (Some t2) :: page r3 None :: rest in
  (forall search_radius zone_idx location keyword tr l,
     exists s',
       Comprehensive.grid_keyword min_reviews search_radius zone_idx location keyword
         (@Build_Env (scripted details) pages tr, l) = (s', Ok tt) /\
       searches s' =
         filter is_search tr ++
         [NearbyCall location search_radius keyword None;
          NearbyCall location search_radius keyword (Some t1);
          NearbyCall location search_radius keyword (Some t2)] /\
       world (fst s') = rest) /\
  (forall keyword tr l,
     exists s',
       Comprehensive.text_keyword min_reviews keyword
         (@Build_Env (scripted details) pages tr, l) = (s', Ok tt) /\
       searches s' =
         filter is_search tr ++
         [TextCall (keyword ++ " Bangalore") None;
          TextCall (keyword ++ " Bangalore") (Some t1)] /\
       world (fst s') = page r3 None :: rest) /\
  (forall fuel tr l,
     exists s',
       Simple.api_pages (3 + fuel) min_reviews None
         (@Build_Env (scripted details) pages tr, l) = (s', Ok tt) /\
       searches s' =
         filter is_search tr ++
         [NearbyCall Simple.BANGALORE_CENTER Simple.SEARCH_RADIUS "eye hospital" None;
          NearbyCall Simple.BANGALORE_CENTER Simple.SEARCH_RADIUS "eye hospital" (Some t1);
          NearbyCall Simple.BANGALORE_CENTER Simple.SEARCH_RADIUS "eye hospital" (Some t2)] /\
       world (fst s') = rest).

(** The page caps, for any client: one grid query makes at most three
    search requests, one text query at most two. *)
Definition page_caps : Prop :=
  forall (gmaps : Api.Client) min_reviews (s : @frame gmaps Comprehensive.Locals),
    (forall search_radius zone_idx location keyword,
       (List.length (searches (fst (Comprehensive.grid_keyword min_reviews search_radius
                                zone_idx location keyword s)))
        <= List.length (searches s) + 3)%nat) /\
    (forall keyword,
       (List.length (searches (fst (Comprehensive.text_keyword min_reviews keyword s)))
        <= List.length (searches s) + 2)%nat).

(** C5, amended: a fetcher asks for a further page only with the token the
    last response carried, and only below its page cap: three pages in the
    grid search, two in the text search, none in the single-query fetcher.
    With a token on the first two non-empty pages and none on the third, the
    grid search and the single-query fetcher make exactly three requests
    (no token, then each token in turn) and stop; the text search makes
    exactly two and leaves the third page unrequested. *)
Theorem C5_pagination (details : string -> Api.reply Api.Details) (min_reviews : Z)
    (r1 r2 r3 : list Api.Place) (t1 t2 : string) (rest : list Api.SearchResponse) :
  r1 <> [] -> r2 <> [] -> r3 <> [] -> t1 <> "" -> t2 <> "" ->
  three_page_runs details min_reviews r1 r2 r3 t1 t2 rest /\ page_caps.
Proof.
  intros H1 H2 H3 T1 T2. split; [repeat split|].
  - intros search_radius zone_idx location keyword tr l.
    now apply (@grid_keyword_three_pages details min_reviews search_radius zone_idx
                 location keyword r1 r2 r3 t1 t2 rest
                 (@Build_Env (scripted details) _ tr) l).
  - intros keyword tr l.
    now apply (@text_keyword_three_pages details min_reviews keyword r1 r2 r3 t1 t2 rest
                 (@Build_Env (scripted details) _ tr) l).
  - intros fuel tr l.
    now apply (@api_pages_three_pages details min_reviews fuel r1 r2 r3 t1 t2 rest
                 (@Build_Env (scripted details) _ tr) l).
  - intros gmaps min s. split.
    + intros search_radius zone_idx location keyword.
      unfold Comprehensive.grid_keyword. rewrite try_continue_state.
      apply (@grid_pages_bound gmaps min 3 search_radius zone_idx location keyword 0 None s).
      lia.
    + intros keyword.
      unfold Comprehensive.text_keyword. rewrite try_continue_state.
      apply (@text_pages_bound gmaps min 2 keyword 0 None s). lia.
Qed.

Lemma C5_pagination_witness :
  [place_at "P1" 12.9716 77.5946] <> [] /\ [place_at "P2" 12.9716 77.5946] <> [] /\
  [place_at "P3" 12.9716 77.5946] <> [] /\ "t1" <> "" /\ "t2" <> "" /\
  three_page_runs (listing 500) 100
    [place_at "P1" 12.9716 77.5946] [place_at "P2" 12.9716 77.5946]
    [place_at "P3" 12.9716 77.5946] "t1" "t2" [] /\
  page_caps.
Proof.
  repeat (split; [discriminate|]).
  apply (@C5_pagination (listing 500) 100
           [place_at "P1" 12.9716 77.5946] [place_at "P2" 12.9716 77.5946]
           [place_at "P3" 12.9716 77.5946] "t1" "t2" []); discriminate.
Defined.

(** * Failures *)

Lemma enumerate_in {A} (x : A) xs start :
  In x xs -> exists i, In (i, x) (enumerate xs start).
Proof.
  revert start. induction xs as [|y xs IH]; intros start; simpl; [tauto|].
  intros [->|H].
  - exists start. now left.
  - destruct (IH (start + 1) H) as [i Hi]. exists i. now right.
Qed.

Section Containment.
Variable gmaps : Api.Client.
Variable min_reviews : Z.

Local Abbreviation state := (@frame gmaps Comprehensive.Locals).

(** Whatever comes of it, a request that is made is in the trace. *)
Lemma bind_call_asks {A B} ev (request : _ -> _ * Api.reply A) (k : A -> M state B)
    (s : state) :
  (forall a, respects (@progress gmaps min_reviews) (k a)) ->
  In ev (trace (fst (fst (bind (call ev request) k s)))).
Proof.
  intros Hk. unfold bind, call. destruct s as [e l]. cbn [fst snd].
  destruct (snd (request (world e))) as [a|]; cbn [fst snd trace].
  - eapply extends_in; [apply Hk|]. cbn [fst trace]. apply in_or_app. right. now left.
  - apply in_or_app. right. now left.
Qed.

Lemma grid_pages_asks fuel search_radius zone_idx location keyword page_num token
    (s : state) :
  In (NearbyCall location search_radius keyword token)
     (trace (fst (fst (Comprehensive.grid_pages (S fuel) min_reviews search_radius
                         zone_idx location keyword page_num token s)))).
Proof.
  simpl. unfold gmaps_places_nearby. apply bind_call_asks. intros a.
  apply (respects_bind (@progress_trans gmaps min_reviews));
    [apply count_request_progress | intros _].
  destruct (negb (truthy_list _)); [apply respects_ret, progress_refl|].
  apply (respects_bind (@progress_trans gmaps min_reviews));
    [apply results_progress, grid_results_quiet | intros _].
  destruct (_ || _); [apply respects_ret, progress_refl|].
  apply (respects_bind (@progress_trans gmaps min_reviews));
    [apply sleep_progress | intros _; apply grid_pages_progress].
Qed.

Lemma text_pages_asks fuel keyword page_num token (s : state) :
  In (TextCall (keyword ++ " Bangalore") token)
     (trace (fst (fst (Comprehensive.text_pages (S fuel) min_reviews keyword
                         page_num token s)))).
Proof.
  simpl. unfold gmaps_places_text. apply bind_call_asks. intros a.
  apply (respects_bind (@progress_trans gmaps min_reviews));
    [apply count_request_progress | intros _].
  destruct (negb (truthy_list _)); [apply respects_ret, progress_refl|].
  apply (respects_bind (@progress_trans gmaps min_reviews));
    [apply results_progress, text_results_quiet | intros _].
  destruct (_ || _); [apply respects_ret, progress_refl|].
  apply (respects_bind (@progress_trans gmaps min_reviews));
    [apply sleep_progress | intros _; apply text_pages_progress].
Qed.

Lemma grid_keyword_asks search_radius zone_idx location keyword (s : state) :
  In (NearbyCall location search_radius keyword None)
     (trace (fst (fst (Comprehensive.grid_keyword min_reviews search_radius zone_idx
                         location keyword s)))).
Proof.
  unfold Comprehensive.grid_keyword. rewrite try_continue_state.
  apply grid_pages_asks.
Qed.

Lemma text_keyword_asks keyword (s : state) :
  In (TextCall (keyword ++ " Bangalore") None)
     (trace (fst (fst (Comprehensive.text_keyword min_reviews keyword s)))).
Proof.
  unfold Comprehensive.text_keyword. rewrite try_continue_state.
  apply text_pages_asks.
Qed.

Lemma progress_keeps_event (s s' : state) ev :
  progress min_reviews s s' -> In ev (trace (fst s)) -> In ev (trace (fst s')).
Proof. intros [_ E]. now apply extends_in with (kind := fun _ => true). Qed.

(** A failure in one query never keeps the grid search from the others:
    the first page of every zone and keyword is asked for. *)
Lemma grid_loop_asks_all search_radius zone keyword (s : state) :
  In zone Comprehensive.GRID_POINTS -> In keyword Comprehensive.KEYWORDS ->
  In (NearbyCall zone search_radius keyword None)
     (trace (fst (fst (grid_loop min_reviews search_radius s)))).
Proof.
  intros Hz Hk. destruct (enumerate_in zone Comprehensive.GRID_POINTS 1 Hz) as [i Hi].
  unfold grid_loop.
  apply (@for_each_reaches state (Z * (R * R)) (@progress gmaps min_reviews)
           (fun (z : Z * (R * R)) (s : state) =>
              In (NearbyCall (snd z) search_radius keyword None) (trace (fst s)))
           (enumerate Comprehensive.GRID_POINTS 1)
           (Comprehensive.grid_zone min_reviews search_radius)
           (@progress_trans gmaps min_reviews) (@progress_refl gmaps min_reviews))
    with (x := (i, zone)); auto.
  - intros z s1 s2 H P. eapply progress_keeps_event; eauto.
  - intros z _. apply grid_zone_total.
  - intros z _. apply grid_zone_progress.
  - intros z s1 _. unfold Comprehensive.grid_zone. unfold bind at 1.
    assert (Hin : In (NearbyCall (snd z) search_radius keyword None)
                    (trace (fst (fst (for_each Comprehensive.KEYWORDS
                       (Comprehensive.grid_keyword min_reviews search_radius
                          (fst z) (snd z)) s1))))).
    { apply (@for_each_reaches state string (@progress gmaps min_reviews)
               (fun kw (s : state) =>
                  In (NearbyCall (snd z) search_radius kw None) (trace (fst s)))
               Comprehensive.KEYWORDS
               (Comprehensive.grid_keyword min_reviews search_radius (fst z) (snd z))
               (@progress_trans gmaps min_reviews) (@progress_refl gmaps min_reviews));
        auto.
      - intros kw sa sb H P. eapply progress_keeps_event; eauto.
      - intros kw _. apply grid_keyword_total.
      - intros kw _. apply grid_keyword_progress.
      - intros kw sa _. apply grid_keyword_asks. }
    assert (T : total (for_each Comprehensive.KEYWORDS
                 (Comprehensive.grid_keyword (gmaps:=gmaps) min_reviews search_radius
                    (fst z) (snd z))))
      by (apply total_for_each; intros kw _; apply grid_keyword_total).
    destruct (T s1) as [[] E].
    destruct (for_each _ _ s1) as [s2 o]; cbn [fst snd] in *; subst o.
    cbn [fst snd sleep emit modify trace]. apply in_or_app. now left.
Qed.

Lemma text_loop_asks_all keyword (s : state) :
  In keyword Comprehensive.KEYWORDS ->
  In (TextCall (keyword ++ " Bangalore") None)
     (trace (fst (fst (text_loop min_reviews s)))).
Proof.
  intros Hk. unfold text_loop, try_except.
  assert (Hin : In (TextCall (keyword ++ " Bangalore") None)
                  (trace (fst (fst (for_each Comprehensive.KEYWORDS
                     (Comprehensive.text_keyword min_reviews) s))))).
  { apply (@for_each_reaches state string (@progress gmaps min_reviews)
             (fun kw (s : state) =>
                In (TextCall (kw ++ " Bangalore") None) (trace (fst s)))
             Comprehensive.KEYWORDS (Comprehensive.text_keyword min_reviews)
             (@progress_trans gmaps min_reviews) (@progress_refl gmaps min_reviews));
      auto.
    - intros kw sa sb H P. eapply progress_keeps_event; eauto.
    - intros kw _. apply text_keyword_total.
    - intros kw _. apply text_keyword_progress.
    - intros kw sa _. apply text_keyword_asks. }
  assert (T : total (for_each Comprehensive.KEYWORDS
               (Comprehensive.text_keyword (gmaps:=gmaps) min_reviews)))
    by (apply total_for_each; intros kw _; apply text_keyword_total).
  destruct (T s) as [[] E].
  destruct (for_each _ _ s) as [s2 o]; cbn [fst snd] in *; subst o. exact Hin.
Qed.
End Containment.

Lemma bind_raised {S A B} (m : M S A) (k : A -> M S B) s s' e :
  m s = (s', Raised e) -> bind m k s = (s', Raised e).
Proof. intros H. unfold bind. now rewrite H. Qed.

Lemma try_except_raised {S A} (body : M S A) handler s s' e :
  body s = (s', Raised e) -> try_except body handler s = handler e s'.
Proof. intros H. unfold try_except. now rewrite H. Qed.

Section FailingRequests.
Variable pandas : Sorter.
Variable gmaps : Api.Client.
Variable min_reviews : Z.

Local Abbreviation state := (@frame gmaps Comprehensive.Locals).

(** A search request that fails ends its query with nothing stored and
    nothing raised. *)
Lemma grid_keyword_failed search_radius zone_idx location keyword (s : state) :
  snd (Api.places_nearby gmaps (world (fst s)) location search_radius keyword None)
    = Api.Failed ->
  exists s', Comprehensive.grid_keyword min_reviews search_radius zone_idx location
               keyword s = (s', Ok tt) /\
             store s' = store s.
Proof.
  intros H. unfold Comprehensive.grid_keyword, try_continue, try_except.
  change (Comprehensive.grid_pages 3) with (Comprehensive.grid_pages (gmaps:=gmaps) (S 2)).
  cbn [Comprehensive.grid_pages]. unfold bind at 1, gmaps_places_nearby, call.
  rewrite H. eexists. split; reflexivity.
Qed.

Lemma text_keyword_failed keyword (s : state) :
  snd (Api.places_text gmaps (world (fst s)) (keyword ++ " Bangalore") None)
    = Api.Failed ->
  exists s', Comprehensive.text_keyword min_reviews keyword s = (s', Ok tt) /\
             store s' = store s.
Proof.
  intros H. unfold Comprehensive.text_keyword, try_continue, try_except.
  change (Comprehensive.text_pages 2) with (Comprehensive.text_pages (gmaps:=gmaps) (S 1)).
  cbn [Comprehensive.text_pages]. unfold bind at 1, gmaps_places_text, call.
  rewrite H. eexists. split; reflexivity.
Qed.

(** A first page without results ends its query with nothing stored and
    nothing raised, after that one request. *)
Lemma grid_keyword_no_results search_radius zone_idx location keyword (s : state)
    response :
  snd (Api.places_nearby gmaps (world (fst s)) location search_radius keyword None)
    = Api.Returned response ->
  truthy_list (Api.results response) = false ->
  exists s', Comprehensive.grid_keyword min_reviews search_radius zone_idx location
               keyword s = (s', Ok tt) /\
             store s' = store s /\
             searches s' = searches s ++ [NearbyCall location search_radius keyword None].
Proof.
  intros H E. unfold Comprehensive.grid_keyword, try_continue, try_except.
  change (Comprehensive.grid_pages 3) with (Comprehensive.grid_pages (gmaps:=gmaps) (S 2)).
  cbn [Comprehensive.grid_pages]. unfold bind at 1, gmaps_places_nearby, call.
  rewrite H. unfold bind at 1. cbn [Comprehensive.count_request set_locals modify fst snd].
  rewrite E. cbn [negb ret]. eexists. split; [reflexivity|]. split; [reflexivity|].
  destruct s as [e l]. apply (searches_snoc e l).
Qed.

Lemma text_keyword_no_results keyword (s : state) response :
  snd (Api.places_text gmaps (world (fst s)) (keyword ++ " Bangalore") None)
    = Api.Returned response ->
  truthy_list (Api.results response) = false ->
  exists s', Comprehensive.text_keyword min_reviews keyword s = (s', Ok tt) /\
             store s' = store s /\
             searches s' = searches s ++ [TextCall (keyword ++ " Bangalore") None].
Proof.
  intros H E. unfold Comprehensive.text_keyword, try_continue, try_except.
  change (Comprehensive.text_pages 2) with (Comprehensive.text_pages (gmaps:=gmaps) (S 1)).
  cbn [Comprehensive.text_pages]. unfold bind at 1, gmaps_places_text, call.
  rewrite H. unfold bind at 1. cbn [Comprehensive.count_request set_locals modify fst snd].
  rewrite E. cbn [negb ret]. eexists. split; [reflexivity|]. split; [reflexivity|].
  destruct s as [e l]. apply (searches_snoc e l).
Qed.

(** The trace a strategy leaves is the trace of its loop. *)
Lemma grid_search_trace search_radius (e : Env gmaps) :
  trace (fst (Comprehensive.fetch_hospitals_grid_search pandas min_reviews search_radius e))
  = trace (fst (fst (grid_loop min_reviews search_radius (e, Comprehensive.fresh)))).
Proof.
  unfold Comprehensive.fetch_hospitals_grid_search, with_locals, Comprehensive.grid_body.
  fold (grid_loop (gmaps:=gmaps) min_reviews search_radius). unfold bind.
  destruct (grid_loop_total (gmaps:=gmaps) min_reviews search_radius (e, Comprehensive.fresh))
    as [[] E].
  destruct (grid_loop _ _ _) as [s' o]; cbn [fst snd] in *; subst o.
  destruct (to_frame_spec pandas s') as (df & -> & _). reflexivity.
Qed.

Lemma text_search_trace (e : Env gmaps) :
  trace (fst (Comprehensive.fetch_hospitals_text_search pandas min_reviews e))
  = trace (fst (fst (text_loop min_reviews (e, Comprehensive.fresh)))).
Proof.
  unfold Comprehensive.fetch_hospitals_text_search, with_locals, Comprehensive.text_body.
  fold (text_loop (gmaps:=gmaps) min_reviews). unfold bind.
  destruct (text_loop_total (gmaps:=gmaps) min_reviews (e, Comprehensive.fresh)) as [[] E].
  destruct (text_loop _ _) as [s' o]; cbn [fst snd] in *; subst o.
  destruct (to_frame_spec pandas s') as (df & -> & _). reflexivity.
Qed.

(** The single-query fetcher whose first request fails: the fetch comes
    back with [None] (nothing is raised), and the sample data is used. *)
Lemma api_search_failed fuel (e : Env gmaps) :
  snd (Api.places_nearby gmaps (world e) Simple.BANGALORE_CENTER Simple.SEARCH_RADIUS
         "eye hospital" None) = Api.Failed ->
  snd (Simple.fetch_eye_hospitals_from_api pandas (S fuel) min_reviews e) = Ok None /\
  snd (Simple.get_eye_hospitals pandas (S fuel) min_reviews false e)
    = Ok (Simple.sample_data pandas min_reviews).
Proof.
  intros H.
  assert (P : exists s1, Simple.api_pages (S fuel) min_reviews None (e, Simple.fresh)
                         = (s1, Raised ApiError)).
  { cbn [Simple.api_pages]. unfold bind at 1. unfold gmaps_places_nearby, call.
    cbn [fst snd]. rewrite H. eexists. reflexivity. }
  destruct P as [s1 P].
  assert (E : snd (Simple.fetch_eye_hospitals_from_api pandas (S fuel) min_reviews e)
              = Ok None).
  { unfold Simple.fetch_eye_hospitals_from_api, with_locals, Simple.api_body.
    erewrite try_except_raised; [reflexivity|].
    apply bind_raised, P. }
  split; [exact E|].
  unfold Simple.get_eye_hospitals, bind.
  destruct (Simple.fetch_eye_hospitals_from_api pandas (S fuel) min_reviews e) as [e' o].
  cbn [snd] in E. subst o. reflexivity.
Qed.

(** The single-query fetcher never raises, and what it returns is either
    what the API gave or the sample data. *)
Lemma get_eye_hospitals_spec fuel use_sample (e : Env gmaps) :
  match snd (Simple.get_eye_hospitals pandas fuel min_reviews use_sample e) with
  | Ok df =>
      Forall (fun r => min_reviews <= review_count r) df /\
      StronglySorted by_reviews_desc df /\
      (df = Simple.sample_data pandas min_reviews \/ df <> [])
  | Raised _ => False
  | OutOfFuel => use_sample = false
  end.
Proof.
  pose proof (sample_data_spec pandas min_reviews) as (F & Sd & _).
  unfold Simple.get_eye_hospitals. destruct use_sample; cbn [ret snd]; [auto|].
  unfold bind.
  pose proof (fetch_eye_hospitals_from_api_spec pandas min_reviews fuel e) as H.
  destruct (Simple.fetch_eye_hospitals_from_api pandas fuel min_reviews e)
    as [e' [[df|]|x|]]; cbn [snd fetched] in *.
  - destruct H as (N & Fd & Sdf).
    destruct (0 <? Z.of_nat (List.length df)); cbn [ret snd]; auto.
  - cbn [ret snd]. auto.
  - contradiction.
  - reflexivity.
Qed.
End FailingRequests.

(** A client whose every request fails (no network, no billing). *)
Definition down : Api.Client :=
  {| Api.world := unit;
     Api.places_nearby := fun w _ _ _ _ => (w, Api.Failed);
     Api.places_text := fun w _ _ => (w, Api.Failed);
     Api.place := fun w _ => (w, Api.Failed) |}.

Definition offline : Env down := @Build_Env down tt [].

(** C6: whatever the API does, a failure stays inside the query it hits.
    Both strategies and the script always run to their end; every zone and
    keyword of the grid search and every keyword of the text search has its
    first page asked for, whichever requests failed before; a query always
    returns with the store grown at most (nothing gathered earlier is
    lost); a query whose search request fails, or whose first page has no
    results, returns with the store as it was.  The single-query fetcher
    never raises either: a failed search makes it return [None], and the
    caller goes on with the sample data. *)
Theorem C6_failures_are_contained (pandas : Sorter) (gmaps : Api.Client)
    (min_reviews search_radius : Z) (e : Env gmaps) :
  returns (Comprehensive.fetch_hospitals_grid_search pandas min_reviews search_radius) e
    (fun _ => True) /\
  returns (Comprehensive.fetch_hospitals_text_search pandas min_reviews) e
    (fun _ => True) /\
  (forall use_grid_only use_text_only,
     returns (Comprehensive.main pandas use_grid_only use_text_only) e (fun _ => True)) /\
  (forall zone keyword,
     In zone Comprehensive.GRID_POINTS -> In keyword Comprehensive.KEYWORDS ->
     In (NearbyCall zone search_radius keyword None)
        (trace (fst (Comprehensive.fetch_hospitals_grid_search pandas min_reviews
                       search_radius e)))) /\
  (forall keyword,
     In keyword Comprehensive.KEYWORDS ->
     In (TextCall (keyword ++ " Bangalore") None)
        (trace (fst (Comprehensive.fetch_hospitals_text_search pandas min_reviews e)))) /\
  (forall (s : @frame gmaps Comprehensive.Locals) zone_idx location keyword,
     (exists s', Comprehensive.grid_keyword min_reviews search_radius zone_idx location
                   keyword s = (s', Ok tt) /\
                 grows min_reviews (store s) (store s')) /\
     (exists s', Comprehensive.text_keyword min_reviews keyword s = (s', Ok tt) /\
                 grows min_reviews (store s) (store s')) /\
     (snd (Api.places_nearby gmaps (world (fst s)) location search_radius keyword None)
        = Api.Failed ->
      exists s', Comprehensive.grid_keyword min_reviews search_radius zone_idx location
                   keyword s = (s', Ok tt) /\
                 store s' = store s) /\
     (snd (Api.places_text gmaps (world (fst s)) (keyword ++ " Bangalore") None)
        = Api.Failed ->
      exists s', Comprehensive.text_keyword min_reviews keyword s = (s', Ok tt) /\
                 store s' = store s) /\
     (forall response,
        snd (Api.places_nearby gmaps (world (fst s)) location search_radius keyword None)
          = Api.Returned response ->
        truthy_list (Api.results response) = false ->
        exists s', Comprehensive.grid_keyword min_reviews search_radius zone_idx location
                     keyword s = (s', Ok tt) /\
                   store s' = store s /\
                   searches s' =
                     searches s ++ [NearbyCall location search_radius keyword None])) /\
  (forall fuel,
     fetched min_reviews
       (snd (Simple.fetch_eye_hospitals_from_api pandas fuel min_reviews e)) /\
     (snd (Api.places_nearby gmaps (world e) Simple.BANGALORE_CENTER Simple.SEARCH_RADIUS
             "eye hospital" None) = Api.Failed ->
      snd (Simple.fetch_eye_hospitals_from_api pandas (S fuel) min_reviews e) = Ok None /\
      snd (Simple.get_eye_hospitals pandas (S fuel) min_reviews false e)
        = Ok (Simple.sample_data pandas min_reviews))).
Proof.
  assert (W : forall A (m : M (Env gmaps) A) Q, returns m e Q -> returns m e (fun _ => True)).
  { intros A m Q (a & E & _). now exists a. }
  split; [eapply W, grid_search_aggregated|].
  split; [eapply W, text_search_aggregated|].
  split; [intros g t; eapply W, main_spec|].
  split.
  { intros zone keyword Hz Hk. rewrite grid_search_trace. now apply grid_loop_asks_all. }
  split.
  { intros keyword Hk. rewrite text_search_trace. now apply text_loop_asks_all. }
  split.
  - intros s zone_idx location keyword. repeat split.
    + pose proof (grid_keyword_progress min_reviews search_radius zone_idx location
                    keyword s) as [G _].
      destruct (grid_keyword_total min_reviews search_radius zone_idx location keyword s)
        as [[] E].
      destruct (Comprehensive.grid_keyword _ _ _ _ _ s) as [s' o];
        cbn [fst snd] in *; subst o. now exists s'.
    + pose proof (text_keyword_progress min_reviews keyword s) as [G _].
      destruct (text_keyword_total min_reviews keyword s) as [[] E].
      destruct (Comprehensive.text_keyword _ _ s) as [s' o];
        cbn [fst snd] in *; subst o. now exists s'.
    + apply grid_keyword_failed.
    + apply text_keyword_failed.
    + intros response. apply grid_keyword_no_results.
  - intros fuel. split.
    + apply fetch_eye_hospitals_from_api_spec.
    + apply api_search_failed.
Qed.

Lemma C6_failures_are_contained_witness :
  In (12.9716, 77.5946)%R Comprehensive.GRID_POINTS /\
  In "retina hospital" Comprehensive.KEYWORDS /\
  In (NearbyCall (12.9716, 77.5946)%R 15000 "retina hospital" None)
     (trace (fst (Comprehensive.fetch_hospitals_grid_search stable_sorter 100 15000
                    offline))) /\
  snd (Simple.get_eye_hospitals stable_sorter 1 100 false offline)
    = Ok (Simple.sample_data stable_sorter 100).
Proof.
  assert (Hz : In (12.9716, 77.5946)%R Comprehensive.GRID_POINTS) by (now left).
  assert (Hk : In "retina hospital" Comprehensive.KEYWORDS)
    by (unfold Comprehensive.KEYWORDS; simpl; tauto).
  pose proof (@C6_failures_are_contained stable_sorter down 100 15000 offline) as H.
  destruct H as (_ & _ & _ & Hgrid & _ & _ & Hsimple).
  split; [exact Hz|]. split; [exact Hk|]. split.
  - exact (Hgrid _ _ Hz Hk).
  - exact (proj2 (proj2 (Hsimple 0%nat) eq_refl)).
Defined.

(** * The sample-data fallback *)

Lemma filter_all {A} (f : A -> bool) l : forallb f l = true -> filter f l = l.
Proof.
  induction l as [|x l IH]; simpl; [reflexivity|].
  intros H. apply andb_true_iff in H as [-> H]. now rewrite IH.
Qed.

Lemma filter_none {A} (f : A -> bool) l :
  Forall (fun x => f x = false) l -> filter f l = [].
Proof. induction 1 as [|x l E _ IH]; simpl; [reflexivity|]. now rewrite E. Qed.

(** The identifiers of the sample data, by review count. *)
Definition SAMPLE_BY_REVIEWS : list string :=
  [ "sample_2"; "sample_1"; "sample_3"; "sample_5"; "sample_8";
    "sample_6"; "sample_10"; "sample_9"; "sample_4"; "sample_7" ].

Lemma sample_data_all pandas min_reviews :
  min_reviews <= 750 ->
  ids (Simple.sample_data pandas min_reviews) = SAMPLE_BY_REVIEWS.
Proof.
  intros H. unfold Simple.sample_data, at_least.
  rewrite filter_all.
  - rewrite sort_values_distinct; [reflexivity|].
    simpl. repeat constructor; simpl; intuition discriminate.
  - simpl. repeat (apply andb_true_iff; split); try reflexivity; apply Z.leb_le; lia.
Qed.

Lemma sample_data_nonempty pandas min_reviews :
  min_reviews <= 2150 -> Simple.sample_data pandas min_reviews <> [].
Proof.
  intros H E.
  assert (I : In (nth 1 Simple.SAMPLE_EYE_HOSPITALS (hospital "" 0))
                 (at_least min_reviews Simple.SAMPLE_EYE_HOSPITALS)).
  { apply filter_In. split; [simpl; tauto|]. apply Z.leb_le. simpl. exact H. }
  apply (Permutation_in _ (sort_values_perm pandas _)) in I.
  unfold Simple.sample_data in E. rewrite E in I. exact I.
Qed.

Lemma sample_data_empty pandas min_reviews :
  2150 < min_reviews -> Simple.sample_data pandas min_reviews = [].
Proof.
  intros H. unfold Simple.sample_data.
  assert (E : at_least min_reviews Simple.SAMPLE_EYE_HOSPITALS = []).
  { unfold at_least. apply filter_none.
    repeat constructor; apply Z.leb_gt; simpl; lia. }
  rewrite E. apply Permutation_nil, sort_values_perm.
Qed.

(** Against a script of finitely many pages the unbounded loop ends: with
    more fuel than pages it never runs dry. *)
Lemma api_pages_scripted_fuelled details min_reviews fuel token
    (s : @frame (scripted details) Simple.Locals) :
  (List.length (world (fst s)) < fuel)%nat ->
  snd (Simple.api_pages fuel min_reviews token s) <> OutOfFuel.
Proof.
  revert token s. induction fuel as [|fuel IH]; intros token [e l] H; [simpl in H; lia|].
  cbn [fst] in H. destruct (world e) as [|answer rest] eqn:Hw.
  - cbn [Simple.api_pages]. unfold bind at 1. unfold gmaps_places_nearby, call.
    cbn [fst snd]. rewrite Hw. cbn. discriminate.
  - destruct answer as [places next].
    cbn [Simple.api_pages]. unfold bind at 1. unfold gmaps_places_nearby, call.
    cbn [fst snd]. rewrite Hw. cbn [scripted Api.places_nearby fst snd].
    unfold bind at 1. cbn [Simple.count_request set_locals modify fst snd].
    unfold bind at 1.
    match goal with |- context [for_each ?ps _ ?s1] =>
      destruct (@api_results_run details min_reviews ps s1) as ([e1 l1] & E & Q)
    end.
    rewrite E. destruct Q as (_ & _ & W).
    specialize (W (@scripted_details_pure details)). cbn [fst world] in W.
    cbn [Api.next_page_token].
    destruct (negb (truthy_token next)); [discriminate|].
    unfold bind at 1. cbn [sleep emit modify fst snd].
    apply IH. cbn [fst world]. rewrite W. simpl in H. lia.
Qed.

Lemma get_eye_hospitals_scripted pandas details pages min_reviews use_sample :
  returns (Simple.get_eye_hospitals pandas (S (List.length pages)) min_reviews use_sample)
    (@Build_Env (scripted details) pages []) (fun _ => True).
Proof.
  set (e := @Build_Env (scripted details) pages []).
  pose proof (@get_eye_hospitals_spec pandas (scripted details) min_reviews
                (S (List.length pages)) use_sample e) as H.
  destruct (snd (Simple.get_eye_hospitals pandas (S (List.length pages)) min_reviews
                   use_sample e)) as [df|x|] eqn:E.
  - now exists df.
  - contradiction.
  - exfalso. subst use_sample.
    unfold Simple.get_eye_hospitals, bind in E.
    destruct (Simple.fetch_eye_hospitals_from_api pandas (S (List.length pages))
                min_reviews e) as [e' [[df|]|x|]] eqn:F; cbn [snd] in E;
      try discriminate.
    + destruct (0 <? _) in E; discriminate.
    + unfold Simple.fetch_eye_hospitals_from_api, with_locals, Simple.api_body,
        try_except, bind in F.
      pose proof (@api_pages_scripted_fuelled details min_reviews (S (List.length pages))
                    None (e, Simple.fresh)) as P.
      destruct (Simple.api_pages (S (List.length pages)) min_reviews None
                  (e, Simple.fresh)) as [s1 [[]|x|]]; cbn [fst snd] in *.
      * unfold locals, gets in F. cbn in F.
        destruct (Simple.hospitals (snd s1)); cbn in F; congruence.
      * cbn in F. congruence.
      * apply P; [unfold e; simpl; lia | reflexivity].
Qed.

(** C9, as stated, fails on the comprehensive script, which has no sample
    data: with the API down it ends with an empty frame and writes no
    file. *)
Lemma C9_counterexample :
  snd (Comprehensive.main stable_sorter false false offline)
  = Ok {| Comprehensive.final_df := [];
          Comprehensive.search_method_used := "Grid + Text Search";
          Comprehensive.csv := None |}.
Proof. vm_compute. reflexivity. Qed.

(** C9, amended: the fallback belongs to the single-query script alone.
    [get_eye_hospitals] returns the sample data, filtered by [min_reviews]
    and ordered by review count, when it is asked to, when the API fetch
    fails and when the fetch finds no hospital; it never raises.  The sample
    has ten rows with 750 to 2150 reviews, so what is returned has all ten
    for a threshold up to 750 (the default 100 among them) and at least one
    up to 2150, and the script, which asks for 100, always writes its file.
    Its page loop has no cap, so it is run on fuel: against an API that
    serves finitely many pages, more fuel than pages always gives a result.
    The comprehensive script has no fallback: a run that finds nothing ends
    with an empty frame and no file. *)
Theorem C9_sample_fallback (pandas : Sorter) (gmaps : Api.Client) (e : Env gmaps) :
  (forall fuel min_reviews,
     snd (Simple.get_eye_hospitals pandas fuel min_reviews true e)
       = Ok (Simple.sample_data pandas min_reviews)) /\
  (forall fuel min_reviews,
     match snd (Simple.fetch_eye_hospitals_from_api pandas fuel min_reviews e) with
     | Ok None =>
         snd (Simple.get_eye_hospitals pandas fuel min_reviews false e)
           = Ok (Simple.sample_data pandas min_reviews)
     | Ok (Some df) =>
         df <> [] /\
         snd (Simple.get_eye_hospitals pandas fuel min_reviews false e) = Ok df
     | Raised _ => False
     | OutOfFuel => True
     end) /\
  (forall fuel min_reviews,
     snd (Api.places_nearby gmaps (world e) Simple.BANGALORE_CENTER Simple.SEARCH_RADIUS
            "eye hospital" None) = Api.Failed ->
     snd (Simple.get_eye_hospitals pandas (S fuel) min_reviews false e)
       = Ok (Simple.sample_data pandas min_reviews)) /\
  (forall min_reviews,
     Forall (fun r => min_reviews <= review_count r)
            (Simple.sample_data pandas min_reviews) /\
     StronglySorted by_reviews_desc (Simple.sample_data pandas min_reviews) /\
     (min_reviews <= 750 ->
      ids (Simple.sample_data pandas min_reviews) = SAMPLE_BY_REVIEWS) /\
     (min_reviews <= 2150 -> Simple.sample_data pandas min_reviews <> []) /\
     (2150 < min_reviews -> Simple.sample_data pandas min_reviews = [])) /\
  (forall fuel use_sample,
     match snd (Simple.main pandas fuel use_sample e) with
     | Ok (df, csv) => df <> [] /\ csv = Some ("eye_hospitals_bangalore.csv", df)
     | Raised _ => False
     | OutOfFuel => use_sample = false
     end) /\
  (forall details pages min_reviews use_sample,
     returns (Simple.get_eye_hospitals pandas (S (List.length pages)) min_reviews
                use_sample)
       (@Build_Env (scripted details) pages []) (fun _ => True)) /\
  (forall use_grid_only use_text_only,
     returns (Comprehensive.main pandas use_grid_only use_text_only) e
       (fun report =>
          Comprehensive.final_df report = [] -> Comprehensive.csv report = None)).
Proof.
  split; [reflexivity|]. split.
  { intros fuel min_reviews.
    pose proof (fetch_eye_hospitals_from_api_spec pandas min_reviews fuel e) as H.
    unfold Simple.get_eye_hospitals, bind.
    destruct (Simple.fetch_eye_hospitals_from_api pandas fuel min_reviews e)
      as [e' [[df|]|x|]]; cbn [snd fetched] in *; auto.
    destruct H as (N & _). split; [exact N|].
    destruct df as [|r df]; [congruence|]. reflexivity. }
  split.
  { intros fuel min_reviews H. now apply api_search_failed. }
  split.
  { intros min_reviews.
    pose proof (sample_data_spec pandas min_reviews) as (F & Sd & _).
    repeat split; auto.
    - apply sample_data_all.
    - apply sample_data_nonempty.
    - apply sample_data_empty. }
  split.
  { intros fuel use_sample. unfold Simple.main, bind.
    pose proof (get_eye_hospitals_spec pandas 100 fuel use_sample e) as H.
    destruct (Simple.get_eye_hospitals pandas fuel 100 use_sample e)
      as [e' [df|x|]]; cbn [snd] in *; auto.
    destruct H as (_ & _ & [->|N]).
    - pose proof (@sample_data_nonempty pandas 100 ltac:(lia)) as N.
      destruct (Simple.sample_data pandas 100); [congruence|].
      cbn. split; [discriminate | reflexivity].
    - destruct df; [congruence|]. cbn. split; [discriminate | reflexivity]. }
  split.
  { intros details pages min_reviews use_sample. apply get_eye_hospitals_scripted. }
  intros g t. destruct (main_spec pandas g t e) as (report & E & _ & C).
  exists report. split; [exact E|]. intros F. now rewrite C, F.
Qed.

Lemma C9_sample_fallback_witness :
  snd (Api.places_nearby down (world offline) Simple.BANGALORE_CENTER Simple.SEARCH_RADIUS
         "eye hospital" None) = Api.Failed /\
  100 <= 750 /\
  snd (Simple.get_eye_hospitals stable_sorter 1 100 false offline)
    = Ok (Simple.sample_data stable_sorter 100) /\
  ids (Simple.sample_data stable_sorter 100) = SAMPLE_BY_REVIEWS.
Proof.
  pose proof (@C9_sample_fallback stable_sorter down offline) as H.
  destruct H as (_ & _ & Hfail & Hsample & _).
  split; [reflexivity|]. split; [lia|]. split.
  - exact (Hfail 0%nat 100 eq_refl).
  - destruct (Hsample 100) as (_ & _ & Hall & _). apply Hall. lia.
Defined.

(** * The aggregator *)

Section Aggregator.
Variable gmaps : Api.Client.
Variable min_reviews : Z.

Local Abbreviation state := (@frame gmaps Comprehensive.Locals).

(** A result whose identifier is already stored is skipped before any
    request is made. *)
Lemma grid_place_again zone_idx keyword place id (s : state) :
  Api.place_id place = Some id -> Dict.mem id (store s) = true ->
  Comprehensive.grid_place min_reviews zone_idx keyword place s = (s, Ok tt).
Proof.
  intros Hid Hmem. unfold Comprehensive.grid_place, bind, locals, gets, store in *.
  rewrite Hid. cbn. now rewrite Hmem.
Qed.

Lemma text_enrich_again place id (s : state) :
  Api.place_id place = Some id -> Dict.mem id (store s) = true ->
  Comprehensive.text_enrich min_reviews place s = (s, Ok tt).
Proof.
  intros Hid Hmem. unfold Comprehensive.text_enrich, bind, locals, gets, store in *.
  rewrite Hid. cbn. now rewrite Hmem.
Qed.

Lemma text_place_again place id (s : state) :
  Api.place_id place = Some id -> Dict.mem id (store s) = true ->
  fst (Comprehensive.text_place min_reviews place s) = s.
Proof.
  intros Hid Hmem. unfold Comprehensive.text_place, Comprehensive.distance_from_center.
  unfold bind at 1.
  destruct (geometry_location _ Api.lat); [|reflexivity].
  destruct (geometry_location _ Api.lng); [|reflexivity].
  cbn [ret]. destruct (Comprehensive.exceeds _ 50); [reflexivity|].
  now rewrite (@text_enrich_again place id s Hid Hmem).
Qed.

(** What is stored under an identifier stays as it is, whatever part of a
    fetch runs next. *)
Lemma progress_get (s s' : state) id row :
  progress min_reviews s s' ->
  Dict.get id (store s) = Some row -> Dict.get id (store s') = Some row.
Proof. intros [G _] H. eapply grows_get; eauto. Qed.

(** The review filter comes first: no step puts a row below the threshold
    into the store. *)
Lemma progress_filtered (s s' : state) :
  progress min_reviews s s' ->
  Forall (fun kv => min_reviews <= review_count (snd kv)) (store s) ->
  Forall (fun kv => min_reviews <= review_count (snd kv)) (store s').
Proof.
  intros [(new & -> & F & _) _] H. apply Forall_app. split; [exact H|].
  eapply Forall_impl; [|exact F]. intros kv (_ & ? & _). assumption.
Qed.

Lemma grid_place_progress zone_idx keyword place :
  respects (@progress gmaps min_reviews)
    (Comprehensive.grid_place min_reviews zone_idx keyword place).
Proof. intros s. apply quiet_progress, grid_place_quiet. Qed.

Lemma text_place_progress place :
  respects (@progress gmaps min_reviews) (Comprehensive.text_place min_reviews place).
Proof. intros s. apply quiet_progress, text_place_quiet. Qed.
End Aggregator.

Lemma aggregated_returns {S} (m : M S DataFrame) s min_reviews (Q : DataFrame -> Prop) :
  (forall df, aggregated min_reviews df -> Q df) ->
  returns m s (aggregated min_reviews) -> returns m s Q.
Proof. intros H (df & E & A). exists df. auto. Qed.

(** ** Scenario data *)

(** A client that answers every search with the same page and details
    requests by a fixed table. *)
Definition steady (answer : Api.SearchResponse)
    (details : string -> Api.reply Api.Details) : Api.Client :=
  {| Api.world := unit;
     Api.places_nearby := fun w _ _ _ _ => (w, Api.Returned answer);
     Api.places_text := fun w _ _ => (w, Api.Returned answer);
     Api.place := fun w id => (w, details id) |}.

(** The same place listed twice on one page. *)
Definition twice : Api.Client :=
  steady (page [place_at "A" 12.9716 77.5946; place_at "A" 12.9716 77.5946] None)
         (listing 500).

(** C1, as stated, fails on the single-query script: it appends to a list
    and never looks at identifiers, so a place the API lists twice is in
    its output twice. *)
Lemma C1_counterexample :
  exists df,
    snd (Simple.get_eye_hospitals stable_sorter 1 100 false (@Build_Env twice tt []))
      = Ok df /\
    ids df = ["A"; "A"].
Proof. eexists. split; vm_compute; reflexivity. Qed.

(** C1, amended: in the comprehensive script the output of the grid search,
    of the text search and of the script itself has at most one row per
    place identifier, the rows being those of the keyed store; a search
    result whose identifier is already stored leaves the store as it is (the
    grid search does not even ask for its details), and whatever runs later
    in the fetch, an identifier keeps the row first stored for it.  (The
    single-query script keeps a plain list and does not deduplicate.) *)
Theorem C1_first_seen_unique (pandas : Sorter) (gmaps : Api.Client)
    (min_reviews search_radius : Z) (e : Env gmaps) :
  returns (Comprehensive.fetch_hospitals_grid_search pandas min_reviews search_radius) e
    (fun df => NoDup (ids df)) /\
  returns (Comprehensive.fetch_hospitals_text_search pandas min_reviews) e
    (fun df => NoDup (ids df)) /\
  (forall use_grid_only use_text_only,
     returns (Comprehensive.main pandas use_grid_only use_text_only) e
       (fun report => NoDup (ids (Comprehensive.final_df report)))) /\
  (forall s : @frame gmaps Comprehensive.Locals,
     returns (Comprehensive.to_frame (gmaps:=gmaps) pandas) s
       (fun df => Permutation (Dict.values (store s)) df)) /\
  (forall (s : @frame gmaps Comprehensive.Locals) zone_idx keyword place id,
     Api.place_id place = Some id -> Dict.mem id (store s) = true ->
     Comprehensive.grid_place min_reviews zone_idx keyword place s = (s, Ok tt) /\
     fst (Comprehensive.text_place min_reviews place s) = s) /\
  (forall (s : @frame gmaps Comprehensive.Locals) id row,
     Dict.get id (store s) = Some row ->
     (forall zone_idx keyword place,
        Dict.get id (store (fst (Comprehensive.grid_place min_reviews zone_idx keyword
                                   place s))) = Some row) /\
     (forall place,
        Dict.get id (store (fst (Comprehensive.text_place min_reviews place s)))
          = Some row) /\
     Dict.get id (store (fst (grid_loop min_reviews search_radius s))) = Some row /\
     Dict.get id (store (fst (text_loop min_reviews s))) = Some row).
Proof.
  split.
  { eapply aggregated_returns; [|apply grid_search_aggregated]. now intros df (N & _). }
  split.
  { eapply aggregated_returns; [|apply text_search_aggregated]. now intros df (N & _). }
  split.
  { intros g t. destruct (main_spec pandas g t e) as (report & E & (N & _) & _).
    now exists report. }
  split.
  { intros s. destruct (to_frame_spec pandas s) as (df & E & P & _).
    exists df. now rewrite E. }
  split.
  { intros s zone_idx keyword place id Hid Hmem. split.
    - now apply grid_place_again with (id := id).
    - now apply text_place_again with (id := id). }
  intros s id row H. repeat split; intros.
  - eapply progress_get; [apply grid_place_progress | exact H].
  - eapply progress_get; [apply text_place_progress | exact H].
  - eapply progress_get; [apply grid_loop_progress | exact H].
  - eapply progress_get; [apply text_loop_progress | exact H].
Qed.

(** A state of the grid search in which "A" is stored with 500 reviews,
    against an API that would now report 999. *)
Definition holding_A : @frame (scripted (listing 999)) Comprehensive.Locals :=
  (@Build_Env (scripted (listing 999)) [] [],
   {| Comprehensive.all_hospitals := [("A", hospital "A" 500)];
      Comprehensive.total_requests := 1 |}).

Lemma C1_first_seen_unique_witness :
  Api.place_id (place_at "A" 12.9716 77.5946) = Some "A" /\
  Dict.mem "A" (store holding_A) = true /\
  Dict.get "A" (store holding_A) = Some (hospital "A" 500) /\
  Comprehensive.grid_place 100 1 "eye hospital" (place_at "A" 12.9716 77.5946) holding_A
    = (holding_A, Ok tt) /\
  Dict.get "A" (store (fst (grid_loop 100 15000 holding_A))) = Some (hospital "A" 500).
Proof.
  pose proof (@C1_first_seen_unique stable_sorter (scripted (listing 999)) 100 15000
                (@Build_Env (scripted (listing 999)) [] [])) as H.
  destruct H as (_ & _ & _ & _ & Hagain & Hkeep).
  split; [reflexivity|]. split; [reflexivity|]. split; [reflexivity|]. split.
  - exact (proj1 (Hagain holding_A 1 "eye hospital" (place_at "A" 12.9716 77.5946) "A"
                    eq_refl eq_refl)).
  - destruct (Hkeep holding_A "A" (hospital "A" 500) eq_refl) as (_ & _ & Hgrid & _).
    exact Hgrid.
Defined.

(** * The review filter *)

Lemma appended_filtered {gmaps} min_reviews (s s' : @frame gmaps Simple.Locals) :
  appended min_reviews s s' ->
  Forall (fun r => min_reviews <= review_count r) (Simple.hospitals (snd s)) ->
  Forall (fun r => min_reviews <= review_count r) (Simple.hospitals (snd s')).
Proof. intros (new & -> & F) H. apply Forall_app. now split. Qed.

(** C2: every row handed over has at least [min_reviews] reviews: the
    output of the grid search and of the text search for their threshold,
    the final frame of the comprehensive script for the 100 it asks for, and
    whatever [get_eye_hospitals] returns, API rows or sample rows.  The
    check comes before the insertion: a store (or, in the single-query
    script, a list) free of rows below the threshold is still free of them
    after any search result has been processed, and after any whole loop. *)
Theorem C2_review_filter (pandas : Sorter) (gmaps : Api.Client)
    (min_reviews search_radius : Z) (e : Env gmaps) :
  returns (Comprehensive.fetch_hospitals_grid_search pandas min_reviews search_radius) e
    (Forall (fun r => min_reviews <= review_count r)) /\
  returns (Comprehensive.fetch_hospitals_text_search pandas min_reviews) e
    (Forall (fun r => min_reviews <= review_count r)) /\
  (forall use_grid_only use_text_only,
     returns (Comprehensive.main pandas use_grid_only use_text_only) e
       (fun report => Forall (fun r => 100 <= review_count r)
                        (Comprehensive.final_df report))) /\
  (forall fuel use_sample,
     match snd (Simple.get_eye_hospitals pandas fuel min_reviews use_sample e) with
     | Ok df => Forall (fun r => min_reviews <= review_count r) df
     | Raised _ => False
     | OutOfFuel => use_sample = false
     end) /\
  (forall s : @frame gmaps Comprehensive.Locals,
     Forall (fun kv => min_reviews <= review_count (snd kv)) (store s) ->
     (forall zone_idx keyword place,
        Forall (fun kv => min_reviews <= review_count (snd kv))
          (store (fst (Comprehensive.grid_place min_reviews zone_idx keyword place s)))) /\
     (forall place,
        Forall (fun kv => min_reviews <= review_count (snd kv))
          (store (fst (Comprehensive.text_place min_reviews place s)))) /\
     Forall (fun kv => min_reviews <= review_count (snd kv))
       (store (fst (grid_loop min_reviews search_radius s))) /\
     Forall (fun kv => min_reviews <= review_count (snd kv))
       (store (fst (text_loop min_reviews s)))) /\
  (forall s : @frame gmaps Simple.Locals,
     Forall (fun r => min_reviews <= review_count r) (Simple.hospitals (snd s)) ->
     (forall place,
        Forall (fun r => min_reviews <= review_count r)
          (Simple.hospitals (snd (fst (Simple.api_place min_reviews place s))))) /\
     (forall fuel token,
        Forall (fun r => min_reviews <= review_count r)
          (Simple.hospitals (snd (fst (Simple.api_pages fuel min_reviews token s)))))).
Proof.
  split.
  { eapply aggregated_returns; [|apply grid_search_aggregated]. now intros df (_ & F & _). }
  split.
  { eapply aggregated_returns; [|apply text_search_aggregated]. now intros df (_ & F & _). }
  split.
  { intros g t. destruct (main_spec pandas g t e) as (report & E & (_ & F & _) & _).
    now exists report. }
  split.
  { intros fuel use_sample.
    pose proof (get_eye_hospitals_spec pandas min_reviews fuel use_sample e) as H.
    destruct (snd (Simple.get_eye_hospitals pandas fuel min_reviews use_sample e));
      auto. now destruct H. }
  split.
  - intros s H. repeat split; intros.
    + eapply progress_filtered; [apply grid_place_progress | exact H].
    + eapply progress_filtered; [apply text_place_progress | exact H].
    + eapply progress_filtered; [apply grid_loop_progress | exact H].
    + eapply progress_filtered; [apply text_loop_progress | exact H].
  - intros s H. split; intros.
    + eapply appended_filtered; [|exact H]. apply api_place_quiet.
    + eapply appended_filtered; [|exact H]. apply api_pages_progress.
Qed.

(** A page with one hospital above the threshold of 100 and one below. *)
Definition mixed : Api.Client :=
  steady (page [place_at "big" 12.9716 77.5946; place_at "small" 12.9716 77.5946] None)
         (fun id => listing (if String.eqb id "big" then 500 else 50) id).

Lemma C2_review_filter_witness :
  Forall (fun kv => 100 <= review_count (snd kv))
         (store (@Build_Env mixed tt [], Comprehensive.fresh)) /\
  Forall (fun kv => 100 <= review_count (snd kv))
         (store (fst (grid_loop 100 15000 (@Build_Env mixed tt [], Comprehensive.fresh)))) /\
  Dict.keys (store (fst (grid_loop 100 15000
                           (@Build_Env mixed tt [], Comprehensive.fresh)))) = ["big"].
Proof.
  pose proof (@C2_review_filter stable_sorter mixed 100 15000 (@Build_Env mixed tt []))
    as H.
  destruct H as (_ & _ & _ & _ & Hstore & _).
  assert (H0 : Forall (fun kv => 100 <= review_count (snd kv))
                 (store (@Build_Env mixed tt [], Comprehensive.fresh)))
    by constructor.
  split; [exact H0|]. split.
  - destruct (Hstore _ H0) as (_ & _ & Hgrid & _). exact Hgrid.
  - vm_compute. reflexivity.
Defined.

(** * The order of the output *)






(** * Coordinates and absent fields *)

(** A details result that has coordinates and, possibly, a review count,
    and nothing else. *)
Definition coordinates_only (reviews : option Z) (lat lng : R) : Api.PlaceData :=
  {| Api.name := None;
     Api.formatted_address := None;
     Api.geometry :=
       Some {| Api.location := Some {| Api.lat := Some lat; Api.lng := Some lng |} |};
     Api.rating := None;
     Api.user_ratings_total := reviews;
     Api.website := None;
     Api.formatted_phone_number := None;
     Api.opening_hours := None;
     Api.types := None |}.

(** A details table whose results have a name and a review count and no
    geometry. *)
Definition unlocated (reviews : Z) (id : string) : Api.reply Api.Details :=
  Api.Returned
    {| Api.result :=
         Some {| Api.name := Some id;
                 Api.formatted_address := None;
                 Api.geometry := None;
                 Api.rating := None;
                 Api.user_ratings_total := Some reviews;
                 Api.website := None;
                 Api.formatted_phone_number := None;
                 Api.opening_hours := None;
                 Api.types := None |} |}.

Definition lacks_coordinates (details : Api.Details) : Prop :=
  forall place_data, Api.result details = Some place_data ->
    geometry_location (Api.geometry place_data) Api.lat = None \/
    geometry_location (Api.geometry place_data) Api.lng = None.

Section Coordinates.
Variable gmaps : Api.Client.
Variable min_reviews : Z.

Local Abbreviation state := (@frame gmaps Comprehensive.Locals).

Lemma progress_located (s s' : state) :
  progress min_reviews s s' ->
  Forall (fun kv => located (snd kv)) (store s) ->
  Forall (fun kv => located (snd kv)) (store s').
Proof.
  intros [(new & -> & F & _) _] H. apply Forall_app. split; [exact H|].
  eapply Forall_impl; [|exact F]. intros kv (_ & _ & ? & ?). now split.
Qed.

(** Details without coordinates never reach the store. *)
Lemma grid_place_unlocated zone_idx keyword place id details (s : state) :
  Api.place_id place = Some id ->
  snd (Api.place gmaps (world (fst s)) id) = Api.Returned details ->
  lacks_coordinates details ->
  store (fst (Comprehensive.grid_place min_reviews zone_idx keyword place s)) = store s.
Proof.
  intros Hid Hcall Hlack. destruct s as [e l].
  unfold Comprehensive.grid_place, Comprehensive.rate_limit, Comprehensive.store,
    Comprehensive.count_request, gmaps_place, call, sleep, emit, locals, set_locals,
    gets, modify, bind, store.
  rewrite Hid. simpl.
  destruct (Dict.mem id (Comprehensive.all_hospitals l)); [reflexivity|].
  simpl in Hcall |- *. rewrite Hcall. simpl.
  destruct (Api.result details) as [place_data|] eqn:Hres; [|reflexivity].
  simpl.
  destruct (_ >=? _); simpl.
  - destruct (Hlack place_data Hres) as [E|E].
    + rewrite E. reflexivity.
    + rewrite E. now destruct (geometry_location _ Api.lat).
  - now destruct (_ =? 0).
Qed.

Lemma text_enrich_unlocated place id details (s : state) :
  Api.place_id place = Some id ->
  snd (Api.place gmaps (world (fst s)) id) = Api.Returned details ->
  lacks_coordinates details ->
  store (fst (Comprehensive.text_enrich min_reviews place s)) = store s.
Proof.
  intros Hid Hcall Hlack. destruct s as [e l].
  unfold Comprehensive.text_enrich, Comprehensive.rate_limit, Comprehensive.store,
    Comprehensive.count_request, gmaps_place, call, sleep, emit, locals, set_locals,
    gets, modify, bind, store.
  rewrite Hid. simpl.
  destruct (Dict.mem id (Comprehensive.all_hospitals l)); [reflexivity|].
  simpl in Hcall |- *. rewrite Hcall. simpl.
  destruct (Api.result details) as [place_data|] eqn:Hres; [|reflexivity].
  simpl.
  destruct (_ >=? _); simpl.
  - destruct (Hlack place_data Hres) as [E|E].
    + rewrite E. reflexivity.
    + rewrite E. now destruct (geometry_location _ Api.lat).
  - now destruct (_ =? 0).
Qed.
End Coordinates.

(** What the grid search stores for details that have nothing but
    coordinates and a review count. *)
Lemma grid_place_defaults min_reviews zone_idx keyword id reviews lat lng :
  min_reviews <= get_default reviews 0 ->
  store (fst (Comprehensive.grid_place min_reviews zone_idx keyword
                (place_at id lat lng)
                (@Build_Env
                   (scripted (fun _ => Api.Returned
                      {| Api.result := Some (coordinates_only reviews lat lng) |}))
                   [] [],
                 Comprehensive.fresh)))
  = [(id, {| name := "N/A"; address := "N/A";
             latitude := Some lat; longitude := Some lng;
             rating := None; review_count := get_default reviews 0;
             phone := "N/A"; website := "N/A"; place_id := id;
             types := Some []; zone := Some zone_idx;
             keyword_found := Some keyword; search_method := None;
             open_now := None |})].
Proof.
  intros H.
  unfold Comprehensive.grid_place, Comprehensive.rate_limit, Comprehensive.store,
    Comprehensive.count_request, gmaps_place, call, sleep, emit, locals, set_locals,
    gets, modify, bind, store.
  cbn [place_at Api.place_id getitem ret fst snd Comprehensive.fresh
       Comprehensive.all_hospitals Dict.mem Dict.empty existsb scripted Api.place
       Api.result coordinates_only Api.user_ratings_total].
  destruct (Z.geb_spec (get_default reviews 0) min_reviews); [|lia].
  cbn. reflexivity.
Qed.

Lemma text_enrich_defaults min_reviews id reviews lat lng :
  min_reviews <= get_default reviews 0 ->
  store (fst (Comprehensive.text_enrich min_reviews (place_at id lat lng)
                (@Build_Env
                   (scripted (fun _ => Api.Returned
                      {| Api.result := Some (coordinates_only reviews lat lng) |}))
                   [] [],
                 Comprehensive.fresh)))
  = [(id, {| name := "N/A"; address := "N/A";
             latitude := Some lat; longitude := Some lng;
             rating := None; review_count := get_default reviews 0;
             phone := "N/A"; website := "N/A"; place_id := id;
             types := None; zone := None;
             keyword_found := None; search_method := Some "text_search";
             open_now := None |})].
Proof.
  intros H.
  unfold Comprehensive.text_enrich, Comprehensive.rate_limit, Comprehensive.store,
    Comprehensive.count_request, gmaps_place, call, sleep, emit, locals, set_locals,
    gets, modify, bind, store.
  cbn [place_at Api.place_id getitem ret fst snd Comprehensive.fresh
       Comprehensive.all_hospitals Dict.mem Dict.empty existsb scripted Api.place
       Api.result coordinates_only Api.user_ratings_total].
  destruct (Z.geb_spec (get_default reviews 0) min_reviews); [|lia].
  cbn. reflexivity.
Qed.

(** A hospital whose details have no geometry. *)
Definition nowhere : Api.Client :=
  steady (page [place_at "G" 12.9716 77.5946] None) (unlocated 300).

(** C7, as stated, fails on the single-query script, which reads the
    coordinates with [.get] and a default of [None]: details without
    geometry give a stored row without latitude and longitude (and, like in
    every pipeline, an absent rating stays [None]). *)
Lemma C7_counterexample :
  exists df,
    snd (Simple.get_eye_hospitals stable_sorter 1 100 false (@Build_Env nowhere tt []))
      = Ok df /\
    ids df = ["G"] /\
    map latitude df = [None] /\ map longitude df = [None] /\ map rating df = [None].
Proof. eexists. split; [vm_compute; reflexivity|]. vm_compute. repeat split. Qed.

(** What is stored for details that have nothing but coordinates and,
    possibly, a review count: the texts read ["N/A"], the review count is the
    one given or 0, the rating stays [None]. *)
Definition stored_defaults (min_reviews zone_idx : Z) (keyword id : string)
    (reviews : option Z) (lat lng : R) : Prop :=
  let details := fun _ : string =>
    Api.Returned {| Api.result := Some (coordinates_only reviews lat lng) |} in
  let start : @frame (scripted details) Comprehensive.Locals :=
    (@Build_Env (scripted details) [] [], Comprehensive.fresh) in
  store (fst (Comprehensive.grid_place min_reviews zone_idx keyword
                (place_at id lat lng) start))
  = [(id, {| name := "N/A"; address := "N/A";
             latitude := Some lat; longitude := Some lng;
             rating := None; review_count := get_default reviews 0;
             phone := "N/A"; website := "N/A"; place_id := id;
             types := Some []; zone := Some zone_idx;
             keyword_found := Some keyword; search_method := None;
             open_now := None |})] /\
  store (fst (Comprehensive.text_enrich min_reviews (place_at id lat lng) start))
  = [(id, {| name := "N/A"; address := "N/A";
             latitude := Some lat; longitude := Some lng;
             rating := None; review_count := get_default reviews 0;
             phone := "N/A"; website := "N/A"; place_id := id;
             types := None; zone := None;
             keyword_found := None; search_method := Some "text_search";
             open_now := None |})].

(** C7, amended: in the comprehensive script no row is stored or handed
    over without latitude and longitude: details that lack
    geometry/location make the grid search and the text search skip the
    item.  An absent name, address, phone or website is stored as ["N/A"]
    and an absent review count as 0; an absent rating is stored as [None],
    not as a sentinel.  (The single-query script stores [None] for absent
    coordinates too.) *)
Theorem C7_coordinates_required (pandas : Sorter) (gmaps : Api.Client)
    (min_reviews search_radius : Z) (e : Env gmaps) :
  returns (Comprehensive.fetch_hospitals_grid_search pandas min_reviews search_radius) e
    (Forall located) /\
  returns (Comprehensive.fetch_hospitals_text_search pandas min_reviews) e
    (Forall located) /\
  (forall use_grid_only use_text_only,
     returns (Comprehensive.main pandas use_grid_only use_text_only) e
       (fun report => Forall located (Comprehensive.final_df report))) /\
  (forall s : @frame gmaps Comprehensive.Locals,
     Forall (fun kv => located (snd kv)) (store s) ->
     (forall zone_idx keyword place,
        Forall (fun kv => located (snd kv))
          (store (fst (Comprehensive.grid_place min_reviews zone_idx keyword place s)))) /\
     (forall place,
        Forall (fun kv => located (snd kv))
          (store (fst (Comprehensive.text_place min_reviews place s)))) /\
     Forall (fun kv => located (snd kv))
       (store (fst (grid_loop min_reviews search_radius s))) /\
     Forall (fun kv => located (snd kv)) (store (fst (text_loop min_reviews s)))) /\
  (forall (s : @frame gmaps Comprehensive.Locals) zone_idx keyword place id details,
     Api.place_id place = Some id ->
     snd (Api.place gmaps (world (fst s)) id) = Api.Returned details ->
     lacks_coordinates details ->
     store (fst (Comprehensive.grid_place min_reviews zone_idx keyword place s))
       = store s /\
     store (fst (Comprehensive.text_enrich min_reviews place s)) = store s) /\
  (forall zone_idx keyword id reviews lat lng,
     min_reviews <= get_default reviews 0 ->
     stored_defaults min_reviews zone_idx keyword id reviews lat lng).
Proof.
  split.
  { eapply aggregated_returns; [|apply grid_search_aggregated]. now intros df (_ & _ & L & _). }
  split.
  { eapply aggregated_returns; [|apply text_search_aggregated]. now intros df (_ & _ & L & _). }
  split.
  { intros g t. destruct (main_spec pandas g t e) as (report & E & (_ & _ & L & _) & _).
    now exists report. }
  split.
  { intros s H. repeat split; intros.
    - eapply progress_located; [apply grid_place_progress | exact H].
    - eapply progress_located; [apply text_place_progress | exact H].
    - eapply progress_located; [apply grid_loop_progress | exact H].
    - eapply progress_located; [apply text_loop_progress | exact H]. }
  split.
  { intros s zone_idx keyword place id details Hid Hcall Hlack. split.
    - eapply grid_place_unlocated; eauto.
    - eapply text_enrich_unlocated; eauto. }
  intros zone_idx keyword id reviews lat lng H. split.
  - now apply grid_place_defaults.
  - now apply text_enrich_defaults.
Qed.

Lemma C7_coordinates_required_witness :
  0 <= get_default None 0 /\
  stored_defaults 0 1 "eye clinic" "Q" None 12.9716 77.5946.
Proof.
  assert (H0 : 0 <= get_default None 0) by (simpl; lia).
  split; [exact H0|].
  pose proof (@C7_coordinates_required stable_sorter down 0 15000 offline) as H.
  destruct H as (_ & _ & _ & _ & _ & Hdef).
  exact (Hdef 1 "eye clinic" "Q" None _ _ H0).
Defined.

(** * What a run asks of the API *)

(** ** The events a step adds *)

(** The step from [s] to [s'] adds events to the trace that satisfy [P]. *)
Definition adds {gmaps L} (P : list Event -> Prop) (s s' : @frame gmaps L) : Prop :=
  exists evs, trace (fst s') = trace (fst s) ++ evs /\ P evs.

(** [P] holds of no events, and of the events of two steps in a row when
    it holds of each. *)
Definition sequential (P : list Event -> Prop) : Prop :=
  P [] /\ forall a b, P a -> P b -> P (a ++ b).

Lemma sequential_Forall (K : Event -> Prop) : sequential (Forall K).
Proof. split; [constructor|]. intros a b Ha Hb. apply Forall_app. now split. Qed.

Section Adding.
Context {gmaps : Api.Client} {L : Type}.
Variable P : list Event -> Prop.
Hypothesis P_sequential : sequential P.

Local Abbreviation state := (@frame gmaps L).

Lemma adds_refl (s : state) : adds P s s.
Proof. exists []. rewrite app_nil_r. split; [reflexivity | apply P_sequential]. Qed.

Lemma adds_trans (s1 s2 s3 : state) : adds P s1 s2 -> adds P s2 s3 -> adds P s1 s3.
Proof.
  intros (a & Ha & Pa) (b & Hb & Pb). exists (a ++ b).
  rewrite Hb, Ha, app_assoc. split; [reflexivity | now apply P_sequential].
Qed.

Lemma call_adds {A} ev (request : Api.world gmaps -> Api.world gmaps * Api.reply A) :
  P [ev] -> respects (adds P) (call (L:=L) ev request).
Proof.
  intros H [e l]. unfold call. cbn [fst snd].
  destruct (snd (request (world e))); exists [ev]; now split.
Qed.

Lemma sleep_adds seconds :
  P [Sleep seconds] -> respects (adds P) (sleep (gmaps:=gmaps) (L:=L) seconds).
Proof. intros H [e l]. exists [Sleep seconds]. now split. Qed.

(** A page delay and the request that follows it. *)
Lemma sleep_call_adds {A} seconds ev (request : Api.world gmaps -> Api.world gmaps * Api.reply A) :
  P [Sleep seconds; ev] ->
  respects (adds P) (sleep seconds ;; call (L:=L) ev request).
Proof.
  intros H [e l]. unfold bind, sleep, emit, modify, call. cbn [fst snd trace world].
  destruct (snd (request (world e))); exists [Sleep seconds; ev];
    cbn [fst snd trace]; now rewrite <- app_assoc.
Qed.

Lemma set_locals_adds (f : L -> L) : respects (adds P) (set_locals (gmaps:=gmaps) f).
Proof.
  intros [e l]. exists []. cbn. rewrite app_nil_r.
  split; [reflexivity | apply P_sequential].
Qed.
End Adding.

(** Steps compose whatever the first one returns. *)
Lemma respects_bind_assoc {S A B C} (Rel : S -> S -> Prop)
    (m1 : M S A) (m2 : M S B) (k : B -> M S C) :
  (forall s1 s2 s3, Rel s1 s2 -> Rel s2 s3 -> Rel s1 s3) ->
  respects Rel (bind m1 (fun _ => m2)) -> (forall b, respects Rel (k b)) ->
  respects Rel (bind m1 (fun _ => bind m2 k)).
Proof.
  intros Htrans H12 Hk s. specialize (H12 s). unfold bind in *.
  destruct (m1 s) as [s1 [a|e|]]; cbn [fst] in *; auto.
  destruct (m2 s1) as [s2 [b|e|]]; cbn [fst] in *; auto.
  eapply Htrans; [exact H12 | apply Hk].
Qed.

Lemma enumerate_snd {A} (i : Z) (x : A) xs start :
  In (i, x) (enumerate xs start) -> In x xs.
Proof.
  revert start. induction xs as [|y xs IH]; intros start; simpl; [tauto|].
  intros [E|H]; [left; congruence | right; eauto].
Qed.

(** ** Lifting a property of the steps to the grid search *)

Section GridLifting.
Variable gmaps : Api.Client.
Variables min_reviews search_radius : Z.

Local Abbreviation state := (@frame gmaps Comprehensive.Locals).

Variable Rel : state -> state -> Prop.
Hypothesis Rel_refl : forall s, Rel s s.
Hypothesis Rel_trans : forall s1 s2 s3, Rel s1 s2 -> Rel s2 s3 -> Rel s1 s3.
Hypothesis Rel_count : respects Rel (Comprehensive.count_request (gmaps:=gmaps)).
Hypothesis Rel_page_delay : respects Rel (sleep 1).
Hypothesis Rel_zone_delay : respects Rel (sleep 0.5).

(** What follows the search request in one round of the page loop; [page_num]
    counts the request just made. *)
Definition grid_page_rest (fuel : nat) (zone_idx : Z) (location : R * R)
    (keyword : string) (page_num : Z) (places_result : Api.SearchResponse)
    : M state unit :=
  Comprehensive.count_request (gmaps:=gmaps) ;;
  if negb (truthy_list (Api.results places_result)) then ret tt
  else
    for_each (get_default (Api.results places_result) [])
      (fun place =>
         try_continue (Comprehensive.grid_place min_reviews zone_idx keyword place)) ;;
    let next_page_token := Api.next_page_token places_result in
    if negb (truthy_token next_page_token) || (page_num >=? 3) then ret tt
    else
      sleep 1 ;;
      Comprehensive.grid_pages fuel min_reviews search_radius zone_idx location
        keyword page_num next_page_token.

Lemma grid_pages_round fuel zone_idx location keyword page_num token :
  Comprehensive.grid_pages (S fuel) min_reviews search_radius zone_idx location
    keyword page_num token =
  bind (gmaps_places_nearby location search_radius keyword token)
       (grid_page_rest fuel zone_idx location keyword (page_num + 1)).
Proof. reflexivity. Qed.

Section OneQuery.
Variable zone_idx : Z.
Variable location : R * R.
Variable keyword : string.
Hypothesis Rel_place : forall place,
  respects Rel (Comprehensive.grid_place min_reviews zone_idx keyword place).
Hypothesis Rel_next : forall token,
  truthy_token token = true ->
  respects Rel (sleep 1 ;; gmaps_places_nearby location search_radius keyword token).

Lemma grid_page_rest_respects fuel page_num places_result :
  respects Rel (grid_page_rest fuel zone_idx location keyword page_num places_result).
Proof.
  revert page_num places_result.
  induction fuel as [|fuel IH]; intros page_num places_result; unfold grid_page_rest.
  - apply (respects_bind Rel_trans); [exact Rel_count | intros _].
    destruct (negb (truthy_list _)); [apply respects_ret, Rel_refl|].
    apply (respects_bind Rel_trans); [|intros _].
    { apply (respects_for_each Rel_refl Rel_trans). intros place _.
      apply (respects_try_continue Rel_refl Rel_trans), Rel_place. }
    destruct (_ || _); [apply respects_ret, Rel_refl|].
    apply (respects_bind Rel_trans); [exact Rel_page_delay | intros _].
    apply respects_diverge, Rel_refl.
  - apply (respects_bind Rel_trans); [exact Rel_count | intros _].
    destruct (negb (truthy_list _)); [apply respects_ret, Rel_refl|].
    apply (respects_bind Rel_trans); [|intros _].
    { apply (respects_for_each Rel_refl Rel_trans). intros place _.
      apply (respects_try_continue Rel_refl Rel_trans), Rel_place. }
    destruct (truthy_token (Api.next_page_token places_result)) eqn:T; cbn [negb orb];
      [|apply respects_ret, Rel_refl].
    destruct (page_num >=? 3); [apply respects_ret, Rel_refl|].
    rewrite grid_pages_round.
    apply respects_bind_assoc; [exact Rel_trans | now apply Rel_next | intros r; apply IH].
Qed.

Hypothesis Rel_first :
  respects Rel (gmaps_places_nearby location search_radius keyword None).

Lemma grid_keyword_respects :
  respects Rel
    (Comprehensive.grid_keyword min_reviews search_radius zone_idx location keyword).
Proof.
  unfold Comprehensive.grid_keyword.
  apply (respects_try_continue Rel_refl Rel_trans).
  change (Comprehensive.grid_pages 3) with (Comprehensive.grid_pages (gmaps:=gmaps) (S 2)).
  rewrite grid_pages_round.
  apply (respects_bind Rel_trans); [exact Rel_first | intros r].
  apply grid_page_rest_respects.
Qed.
End OneQuery.

Hypothesis Rel_place : forall zone_idx location keyword place,
  In (zone_idx, location) (enumerate Comprehensive.GRID_POINTS 1) ->
  In keyword Comprehensive.KEYWORDS ->
  respects Rel (Comprehensive.grid_place min_reviews zone_idx keyword place).
Hypothesis Rel_first : forall location keyword,
  In location Comprehensive.GRID_POINTS -> In keyword Comprehensive.KEYWORDS ->
  respects Rel (gmaps_places_nearby location search_radius keyword None).
Hypothesis Rel_next : forall location keyword token,
  In location Comprehensive.GRID_POINTS -> In keyword Comprehensive.KEYWORDS ->
  truthy_token token = true ->
  respects Rel (sleep 1 ;; gmaps_places_nearby location search_radius keyword token).

Lemma grid_zone_respects zone :
  In zone (enumerate Comprehensive.GRID_POINTS 1) ->
  respects Rel (Comprehensive.grid_zone min_reviews search_radius zone).
Proof.
  destruct zone as [zone_idx location]. intros Hz.
  pose proof (enumerate_snd _ _ _ _ Hz) as Hl.
  unfold Comprehensive.grid_zone.
  apply (respects_bind Rel_trans); [|intros _; exact Rel_zone_delay].
  apply (respects_for_each Rel_refl Rel_trans). intros keyword Hk.
  apply grid_keyword_respects; eauto.
Qed.

Lemma grid_loop_respects : respects Rel (grid_loop min_reviews search_radius).
Proof.
  apply (respects_for_each Rel_refl Rel_trans). intros zone Hz.
  now apply grid_zone_respects.
Qed.
End GridLifting.

(** ** The events of one search result *)

(** What processing one search result adds to the trace: nothing, or one
    details request for the identifier of the result, which is not stored
    yet, followed by the pause of the rate limit or not. *)
Definition item_events (stored : string -> bool) (place : Api.Place)
    (evs : list Event) : Prop :=
  evs = [] \/
  exists pid, Api.place_id place = Some pid /\ stored pid = false /\
              (evs = [PlaceCall pid] \/ evs = [PlaceCall pid; Sleep 1]).

Local Ltac item_done pid :=
  first
    [ exists []; rewrite app_nil_r; split; [reflexivity | now left]
    | exists [PlaceCall pid]; split; [reflexivity | right; exists pid; auto]
    | exists [PlaceCall pid; Sleep 1]; split;
      [now rewrite <- app_assoc | right; exists pid; auto] ].

Lemma grid_place_events gmaps min_reviews zone_idx keyword place
    (s : @frame gmaps Comprehensive.Locals) :
  adds (item_events (fun id => Dict.mem id (store s)) place) s
       (fst (Comprehensive.grid_place min_reviews zone_idx keyword place s)).
Proof.
  destruct s as [e l].
  unfold Comprehensive.grid_place, Comprehensive.rate_limit, Comprehensive.store,
    Comprehensive.count_request, gmaps_place, call, sleep, emit, locals, set_locals,
    gets, modify, bind, adds, store.
  destruct (Api.place_id place) as [pid|] eqn:Hid; simpl; [|item_done ""].
  destruct (Dict.mem pid (Comprehensive.all_hospitals l)) eqn:Hmem; simpl;
    [item_done pid|].
  destruct (Api.place gmaps (world e) pid) as [w' [details|]]; simpl; [|item_done pid].
  destruct (Api.result details) as [place_data|]; simpl; [|item_done pid].
  destruct (_ >=? _); simpl.
  - destruct (geometry_location _ Api.lat) as [lat0|]; simpl; [|item_done pid].
    destruct (geometry_location _ Api.lng) as [lng0|]; simpl; [|item_done pid].
    destruct (_ =? 0); simpl; item_done pid.
  - destruct (_ =? 0); simpl; item_done pid.
Qed.

Lemma text_place_events gmaps min_reviews place (s : @frame gmaps Comprehensive.Locals) :
  adds (item_events (fun id => Dict.mem id (store s)) place) s
       (fst (Comprehensive.text_place min_reviews place s)).
Proof.
  destruct s as [e l].
  unfold Comprehensive.text_place, Comprehensive.text_enrich,
    Comprehensive.distance_from_center, Comprehensive.rate_limit, Comprehensive.store,
    Comprehensive.count_request, gmaps_place, call, sleep, emit, locals, set_locals,
    gets, modify, bind, adds, store.
  destruct (geometry_location _ Api.lat) as [lat|]; simpl; [|item_done ""].
  destruct (geometry_location _ Api.lng) as [lon|]; simpl; [|item_done ""].
  destruct (Comprehensive.exceeds _ 50); simpl; [item_done ""|].
  destruct (Api.place_id place) as [pid|] eqn:Hid; simpl; [|item_done ""].
  destruct (Dict.mem pid (Comprehensive.all_hospitals l)) eqn:Hmem; simpl;
    [item_done pid|].
  destruct (Api.place gmaps (world e) pid) as [w' [details|]]; simpl; [|item_done pid].
  destruct (Api.result details) as [place_data|]; simpl; [|item_done pid].
  destruct (_ >=? _); simpl.
  - destruct (geometry_location _ Api.lat) as [lat0|]; simpl; [|item_done pid].
    destruct (geometry_location _ Api.lng) as [lng0|]; simpl; [|item_done pid].
    destruct (_ =? 0); simpl; item_done pid.
  - destruct (_ =? 0); simpl; item_done pid.
Qed.

Lemma api_place_events gmaps min_reviews place (s : @frame gmaps Simple.Locals) :
  adds (item_events (fun _ => false) place) s
       (fst (Simple.api_place min_reviews place s)).
Proof.
  destruct s as [e l].
  unfold Simple.api_place, Simple.rate_limit, Simple.append, Simple.count_request,
    gmaps_place, call, sleep, emit, locals, set_locals, gets, modify, bind, adds.
  destruct (Api.place_id place) as [pid|] eqn:Hid; simpl; [|item_done ""].
  destruct (Api.place gmaps (world e) pid) as [w' [details|]]; simpl; [|item_done pid].
  destruct (Api.result details) as [place_data|]; simpl; [|item_done pid].
  destruct (_ >=? _); simpl; destruct (_ =? 0); simpl; item_done pid.
Qed.

(** A property of traces that holds of whatever one search result adds. *)
Lemma item_events_adds {gmaps L} (P : list Event -> Prop) stored place
    (s s' : @frame gmaps L) :
  sequential P -> (forall pid, P [PlaceCall pid]) -> P [Sleep 1] ->
  adds (item_events stored place) s s' -> adds P s s'.
Proof.
  intros [P0 Papp] Hp Hs (evs & E & H). exists evs. split; [exact E|].
  destruct H as [->|(pid & _ & _ & [->| ->])]; auto.
  apply (Papp [PlaceCall pid] [Sleep 1]); auto.
Qed.

(** ** Properties of the trace, strategy by strategy *)

(** The same relation on the client alone, for the functions of the
    scripts. *)
Definition env_adds {gmaps} (P : list Event -> Prop) (e e' : Env gmaps) : Prop :=
  exists evs, trace e' = trace e ++ evs /\ P evs.

Lemma env_adds_refl {gmaps} P (e : Env gmaps) : sequential P -> env_adds P e e.
Proof. intros [P0 _]. exists []. now rewrite app_nil_r. Qed.

Lemma env_adds_trans {gmaps} P (e1 e2 e3 : Env gmaps) :
  sequential P -> env_adds P e1 e2 -> env_adds P e2 e3 -> env_adds P e1 e3.
Proof.
  intros [_ Papp] (a & Ha & Pa) (b & Hb & Pb). exists (a ++ b).
  rewrite Hb, Ha, app_assoc. auto.
Qed.

Lemma env_adds_weaken {gmaps} (P Q : list Event -> Prop) (e e' : Env gmaps) :
  (forall evs, P evs -> Q evs) -> env_adds P e e' -> env_adds Q e e'.
Proof. intros H (evs & E & Pe). exists evs. auto. Qed.

(** A function body run with fresh locals adds what the body adds. *)
Lemma with_locals_adds {gmaps L A} P (init : L) (body : M (@frame gmaps L) A) :
  respects (adds P) body -> respects (env_adds P) (with_locals init body).
Proof. intros H e. exact (H (e, init)). Qed.

Section GridTrace.
Variable pandas : Sorter.
Variable gmaps : Api.Client.
Variables min_reviews search_radius : Z.
Variable P : list Event -> Prop.
Hypothesis P_sequential : sequential P.
Hypothesis P_details : forall pid, P [PlaceCall pid].
Hypothesis P_pause : P [Sleep 1].

Local Abbreviation state := (@frame gmaps Comprehensive.Locals).

Lemma grid_place_adds zone_idx keyword place :
  respects (adds P) (Comprehensive.grid_place (gmaps:=gmaps) min_reviews zone_idx keyword place).
Proof.
  intros s. eapply item_events_adds; eauto. apply grid_place_events.
Qed.

Lemma text_place_adds place :
  respects (adds P) (Comprehensive.text_place (gmaps:=gmaps) min_reviews place).
Proof.
  intros s. eapply item_events_adds; eauto. apply text_place_events.
Qed.

Lemma to_frame_adds : respects (adds P) (Comprehensive.to_frame (gmaps:=gmaps) pandas).
Proof.
  intros s. destruct (to_frame_spec pandas s) as (df & -> & _).
  now apply adds_refl.
Qed.

(** What follows the first request of a grid query. *)
Lemma grid_page_rest_adds fuel zone_idx location keyword page_num places_result :
  (forall token, truthy_token token = true ->
     P [Sleep 1; NearbyCall location search_radius keyword token]) ->
  respects (adds P)
    (@grid_page_rest gmaps min_reviews search_radius fuel zone_idx location keyword
       page_num places_result).
Proof.
  intros Hnext. apply grid_page_rest_respects.
  - apply adds_refl, P_sequential.
  - apply adds_trans, P_sequential.
  - apply set_locals_adds, P_sequential.
  - now apply sleep_adds.
  - intros place. apply grid_place_adds.
  - intros token T. apply sleep_call_adds. now apply Hnext.
Qed.

Hypothesis P_zone_delay : P [Sleep 0.5].
Hypothesis P_first : forall location keyword,
  In location Comprehensive.GRID_POINTS -> In keyword Comprehensive.KEYWORDS ->
  P [NearbyCall location search_radius keyword None].
Hypothesis P_next : forall location keyword token,
  In location Comprehensive.GRID_POINTS -> In keyword Comprehensive.KEYWORDS ->
  truthy_token token = true ->
  P [Sleep 1; NearbyCall location search_radius keyword token].

Lemma grid_loop_adds : respects (adds P) (grid_loop (gmaps:=gmaps) min_reviews search_radius).
Proof.
  apply grid_loop_respects.
  - apply adds_refl, P_sequential.
  - apply adds_trans, P_sequential.
  - apply set_locals_adds, P_sequential.
  - now apply sleep_adds.
  - now apply sleep_adds.
  - intros zone_idx location keyword place _ _. apply grid_place_adds.
  - intros location keyword Hl Hk. apply call_adds. now apply P_first.
  - intros location keyword token Hl Hk T. apply sleep_call_adds. now apply P_next.
Qed.

Lemma grid_search_adds :
  respects (env_adds P)
    (Comprehensive.fetch_hospitals_grid_search pandas (gmaps:=gmaps) min_reviews search_radius).
Proof.
  apply with_locals_adds. unfold Comprehensive.grid_body.
  apply (respects_bind (adds_trans P_sequential)); [exact grid_loop_adds | intros _].
  apply to_frame_adds.
Qed.
End GridTrace.

(** ** The same for the text search *)

Section TextLifting.
Variable gmaps : Api.Client.
Variable min_reviews : Z.

Local Abbreviation state := (@frame gmaps Comprehensive.Locals).

Variable Rel : state -> state -> Prop.
Hypothesis Rel_refl : forall s, Rel s s.
Hypothesis Rel_trans : forall s1 s2 s3, Rel s1 s2 -> Rel s2 s3 -> Rel s1 s3.
Hypothesis Rel_count : respects Rel (Comprehensive.count_request (gmaps:=gmaps)).
Hypothesis Rel_place : forall place,
  respects Rel (Comprehensive.text_place min_reviews place).
Hypothesis Rel_page_delay : respects Rel (sleep 1).

Definition text_page_rest (fuel : nat) (keyword : string) (page_num : Z)
    (search_result : Api.SearchResponse) : M state unit :=
  Comprehensive.count_request (gmaps:=gmaps) ;;
  if negb (truthy_list (Api.results search_result)) then ret tt
  else
    for_each (get_default (Api.results search_result) [])
      (fun place => try_continue (Comprehensive.text_place min_reviews place)) ;;
    let next_page_token := Api.next_page_token search_result in
    if negb (truthy_token next_page_token) || (page_num >=? 2) then ret tt
    else
      sleep 1 ;;
      Comprehensive.text_pages fuel min_reviews keyword page_num next_page_token.

Lemma text_pages_round fuel keyword page_num token :
  Comprehensive.text_pages (S fuel) min_reviews keyword page_num token =
  bind (gmaps_places_text (keyword ++ " Bangalore") token)
       (text_page_rest fuel keyword (page_num + 1)).
Proof. reflexivity. Qed.

Section OneQuery.
Variable keyword : string.
Hypothesis Rel_next : forall token,
  truthy_token token = true ->
  respects Rel (sleep 1 ;; gmaps_places_text (keyword ++ " Bangalore") token).

Lemma text_page_rest_respects fuel page_num search_result :
  respects Rel (text_page_rest fuel keyword page_num search_result).
Proof.
  revert page_num search_result.
  induction fuel as [|fuel IH]; intros page_num search_result; unfold text_page_rest.
  - apply (respects_bind Rel_trans); [exact Rel_count | intros _].
    destruct (negb (truthy_list _)); [apply respects_ret, Rel_refl|].
    apply (respects_bind Rel_trans); [|intros _].
    { apply (respects_for_each Rel_refl Rel_trans). intros place _.
      apply (respects_try_continue Rel_refl Rel_trans), Rel_place. }
    destruct (_ || _); [apply respects_ret, Rel_refl|].
    apply (respects_bind Rel_trans); [exact Rel_page_delay | intros _].
    apply respects_diverge, Rel_refl.
  - apply (respects_bind Rel_trans); [exact Rel_count | intros _].
    destruct (negb (truthy_list _)); [apply respects_ret, Rel_refl|].
    apply (respects_bind Rel_trans); [|intros _].
    { apply (respects_for_each Rel_refl Rel_trans). intros place _.
      apply (respects_try_continue Rel_refl Rel_trans), Rel_place. }
    destruct (truthy_token (Api.next_page_token search_result)) eqn:T; cbn [negb orb];
      [|apply respects_ret, Rel_refl].
    destruct (page_num >=? 2); [apply respects_ret, Rel_refl|].
    rewrite text_pages_round.
    apply respects_bind_assoc; [exact Rel_trans | now apply Rel_next | intros r; apply IH].
Qed.

Hypothesis Rel_first :
  respects Rel (gmaps_places_text (keyword ++ " Bangalore") None).

Lemma text_keyword_respects :
  respects Rel (Comprehensive.text_keyword min_reviews keyword).
Proof.
  unfold Comprehensive.text_keyword.
  apply (respects_try_continue Rel_refl Rel_trans).
  change (Comprehensive.text_pages 2) with (Comprehensive.text_pages (gmaps:=gmaps) (S 1)).
  rewrite text_pages_round.
  apply (respects_bind Rel_trans); [exact Rel_first | intros r].
  apply text_page_rest_respects.
Qed.
End OneQuery.

Hypothesis Rel_first : forall keyword,
  In keyword Comprehensive.KEYWORDS ->
  respects Rel (gmaps_places_text (keyword ++ " Bangalore") None).
Hypothesis Rel_next : forall keyword token,
  In keyword Comprehensive.KEYWORDS -> truthy_token token = true ->
  respects Rel (sleep 1 ;; gmaps_places_text (keyword ++ " Bangalore") token).

Lemma text_loop_respects : respects Rel (text_loop min_reviews).
Proof.
  apply (respects_try_except Rel_trans); [|intros _; apply respects_ret, Rel_refl].
  apply (respects_for_each Rel_refl Rel_trans). intros keyword Hk.
  apply text_keyword_respects; auto.
Qed.
End TextLifting.

Section TextTrace.
Variable pandas : Sorter.
Variable gmaps : Api.Client.
Variable min_reviews : Z.
Variable P : list Event -> Prop.
Hypothesis P_sequential : sequential P.
Hypothesis P_details : forall pid, P [PlaceCall pid].
Hypothesis P_pause : P [Sleep 1].

Lemma text_page_rest_adds fuel keyword page_num search_result :
  (forall token, truthy_token token = true ->
     P [Sleep 1; TextCall (keyword ++ " Bangalore") token]) ->
  respects (adds P)
    (@text_page_rest gmaps min_reviews fuel keyword page_num search_result).
Proof.
  intros Hnext. apply text_page_rest_respects.
  - apply adds_refl, P_sequential.
  - apply adds_trans, P_sequential.
  - apply set_locals_adds, P_sequential.
  - now apply text_place_adds.
  - now apply sleep_adds.
  - intros token T. apply sleep_call_adds. now apply Hnext.
Qed.

Hypothesis P_first : forall keyword,
  In keyword Comprehensive.KEYWORDS -> P [TextCall (keyword ++ " Bangalore") None].
Hypothesis P_next : forall keyword token,
  In keyword Comprehensive.KEYWORDS -> truthy_token token = true ->
  P [Sleep 1; TextCall (keyword ++ " Bangalore") token].

Lemma text_loop_adds : respects (adds P) (text_loop (gmaps:=gmaps) min_reviews).
Proof.
  apply text_loop_respects.
  - apply adds_refl, P_sequential.
  - apply adds_trans, P_sequential.
  - apply set_locals_adds, P_sequential.
  - now apply text_place_adds.
  - now apply sleep_adds.
  - intros keyword Hk. apply call_adds. now apply P_first.
  - intros keyword token Hk T. apply sleep_call_adds. now apply P_next.
Qed.

Lemma text_search_adds :
  respects (env_adds P)
    (Comprehensive.fetch_hospitals_text_search pandas (gmaps:=gmaps) min_reviews).
Proof.
  apply with_locals_adds. unfold Comprehensive.text_body.
  apply (respects_bind (adds_trans P_sequential)); [exact text_loop_adds | intros _].
  now apply to_frame_adds.
Qed.
End TextTrace.

(** ** The same for the single-query fetcher *)

Section SimpleLifting.
Variable pandas : Sorter.
Variable gmaps : Api.Client.
Variable min_reviews : Z.

Local Abbreviation state := (@frame gmaps Simple.Locals).

Variable Rel : state -> state -> Prop.
Hypothesis Rel_refl : forall s, Rel s s.
Hypothesis Rel_trans : forall s1 s2 s3, Rel s1 s2 -> Rel s2 s3 -> Rel s1 s3.
Hypothesis Rel_count : respects Rel (Simple.count_request (gmaps:=gmaps)).
Hypothesis Rel_place : forall place, respects Rel (Simple.api_place min_reviews place).
Hypothesis Rel_page_delay : respects Rel (sleep 2).
Hypothesis Rel_next : forall token,
  truthy_token token = true ->
  respects Rel
    (sleep 2 ;;
     gmaps_places_nearby Simple.BANGALORE_CENTER Simple.SEARCH_RADIUS "eye hospital" token).

Definition api_page_rest (fuel : nat) (places_result : Api.SearchResponse)
    : M state unit :=
  Simple.count_request (gmaps:=gmaps) ;;
  for_each (get_default (Api.results places_result) [])
    (fun place => try_continue (Simple.api_place min_reviews place)) ;;
  let next_page_token := Api.next_page_token places_result in
  if negb (truthy_token next_page_token) then ret tt
  else
    sleep 2 ;;
    Simple.api_pages fuel min_reviews next_page_token.

Lemma api_pages_round fuel token :
  Simple.api_pages (S fuel) min_reviews token =
  bind (gmaps_places_nearby Simple.BANGALORE_CENTER Simple.SEARCH_RADIUS "eye hospital"
          token)
       (api_page_rest fuel).
Proof. reflexivity. Qed.

Lemma api_page_rest_respects fuel places_result :
  respects Rel (api_page_rest fuel places_result).
Proof.
  revert places_result.
  induction fuel as [|fuel IH]; intros places_result; unfold api_page_rest.
  - apply (respects_bind Rel_trans); [exact Rel_count | intros _].
    apply (respects_bind Rel_trans); [|intros _].
    { apply (respects_for_each Rel_refl Rel_trans). intros place _.
      apply (respects_try_continue Rel_refl Rel_trans), Rel_place. }
    destruct (negb _); [apply respects_ret, Rel_refl|].
    apply (respects_bind Rel_trans); [exact Rel_page_delay | intros _].
    apply respects_diverge, Rel_refl.
  - apply (respects_bind Rel_trans); [exact Rel_count | intros _].
    apply (respects_bind Rel_trans); [|intros _].
    { apply (respects_for_each Rel_refl Rel_trans). intros place _.
      apply (respects_try_continue Rel_refl Rel_trans), Rel_place. }
    destruct (truthy_token (Api.next_page_token places_result)) eqn:T; cbn [negb];
      [|apply respects_ret, Rel_refl].
    rewrite api_pages_round.
    apply respects_bind_assoc; [exact Rel_trans | now apply Rel_next | intros r; apply IH].
Qed.

Hypothesis Rel_first :
  respects Rel
    (gmaps_places_nearby Simple.BANGALORE_CENTER Simple.SEARCH_RADIUS "eye hospital" None).

Lemma api_pages_respects fuel : respects Rel (Simple.api_pages fuel min_reviews None).
Proof.
  destruct fuel as [|fuel]; [apply respects_diverge, Rel_refl|].
  rewrite api_pages_round.
  apply (respects_bind Rel_trans); [exact Rel_first | intros r].
  apply api_page_rest_respects.
Qed.

Lemma api_body_respects fuel : respects Rel (Simple.api_body pandas fuel min_reviews).
Proof.
  unfold Simple.api_body.
  apply (respects_try_except Rel_trans); [|intros _; apply respects_ret, Rel_refl].
  apply (respects_bind Rel_trans); [apply api_pages_respects | intros _].
  apply (respects_bind Rel_trans); [intros s; apply Rel_refl | intros found].
  destruct found; apply respects_ret, Rel_refl.
Qed.
End SimpleLifting.

Section SimpleTrace.
Variable pandas : Sorter.
Variable gmaps : Api.Client.
Variable min_reviews : Z.
Variable P : list Event -> Prop.
Hypothesis P_sequential : sequential P.
Hypothesis P_details : forall pid, P [PlaceCall pid].
Hypothesis P_pause : P [Sleep 1].
Hypothesis P_page_delay : P [Sleep 2].

Lemma api_place_adds place :
  respects (adds P) (Simple.api_place (gmaps:=gmaps) min_reviews place).
Proof.
  intros s. eapply item_events_adds; eauto. apply api_place_events.
Qed.

Hypothesis P_next : forall token,
  truthy_token token = true ->
  P [Sleep 2;
     NearbyCall Simple.BANGALORE_CENTER Simple.SEARCH_RADIUS "eye hospital" token].

Lemma api_page_rest_adds fuel places_result :
  respects (adds P) (@api_page_rest gmaps min_reviews fuel places_result).
Proof.
  apply api_page_rest_respects.
  - apply adds_refl, P_sequential.
  - apply adds_trans, P_sequential.
  - apply set_locals_adds, P_sequential.
  - apply api_place_adds.
  - now apply sleep_adds.
  - intros token T. apply sleep_call_adds. now apply P_next.
Qed.

Hypothesis P_first :
  P [NearbyCall Simple.BANGALORE_CENTER Simple.SEARCH_RADIUS "eye hospital" None].

Lemma api_search_adds fuel :
  respects (env_adds P)
    (Simple.fetch_eye_hospitals_from_api pandas (gmaps:=gmaps) fuel min_reviews).
Proof.
  apply with_locals_adds. apply api_body_respects.
  - apply adds_refl, P_sequential.
  - apply adds_trans, P_sequential.
  - apply set_locals_adds, P_sequential.
  - apply api_place_adds.
  - now apply sleep_adds.
  - intros token T. apply sleep_call_adds. now apply P_next.
  - now apply call_adds.
Qed.

Lemma get_eye_hospitals_adds fuel use_sample :
  respects (env_adds P)
    (Simple.get_eye_hospitals pandas (gmaps:=gmaps) fuel min_reviews use_sample).
Proof.
  assert (Hret : forall df : DataFrame, respects (env_adds P) (ret (S:=Env gmaps) df))
    by (intros df e; now apply env_adds_refl).
  unfold Simple.get_eye_hospitals. destruct use_sample; [apply Hret|].
  apply (respects_bind (fun e1 e2 e3 => env_adds_trans P_sequential (e1:=e1) (e2:=e2) (e3:=e3)));
    [apply api_search_adds | intros [df|]; [|apply Hret]].
  destruct (0 <? _); apply Hret.
Qed.
End SimpleTrace.

(** * What each fetcher asks for *)

(** The events of the grid search: nearby searches at a grid point, with the
    radius it was given and one of the keywords; details requests; pauses of
    a second (page delay, rate limit) and of half a second (between zones). *)
Definition grid_request (search_radius : Z) (ev : Event) : Prop :=
  match ev with
  | NearbyCall location radius keyword _ =>
      In location Comprehensive.GRID_POINTS /\ radius = search_radius /\
      In keyword Comprehensive.KEYWORDS
  | TextCall _ _ => False
  | PlaceCall _ => True
  | Sleep seconds => seconds = 1%Q \/ seconds = 0.5%Q
  end.

(** The events of the text search: text searches for a keyword followed by
    " Bangalore"; details requests; pauses of a second. *)
Definition text_request (ev : Event) : Prop :=
  match ev with
  | NearbyCall _ _ _ _ => False
  | TextCall query _ =>
      exists keyword, In keyword Comprehensive.KEYWORDS /\
                      query = (keyword ++ " Bangalore")%string
  | PlaceCall _ => True
  | Sleep seconds => seconds = 1%Q
  end.

(** The events of the single-query fetcher: the one nearby search, page
    after page; details requests; pauses of one second (rate limit) and two
    (page delay). *)
Definition api_request (ev : Event) : Prop :=
  match ev with
  | NearbyCall location radius keyword _ =>
      location = Simple.BANGALORE_CENTER /\ radius = 30000 /\ keyword = "eye hospital"
  | TextCall _ _ => False
  | PlaceCall _ => True
  | Sleep seconds => seconds = 1%Q \/ seconds = 2%Q
  end.

Lemma grid_search_requests pandas gmaps min_reviews search_radius :
  respects (env_adds (Forall (grid_request search_radius)))
    (Comprehensive.fetch_hospitals_grid_search pandas (gmaps:=gmaps) min_reviews
       search_radius).
Proof.
  apply grid_search_adds; try apply sequential_Forall; intros;
    repeat (apply Forall_cons; [cbn [grid_request]; auto|]); apply Forall_nil.
Qed.

Lemma text_search_requests pandas gmaps min_reviews :
  respects (env_adds (Forall text_request))
    (Comprehensive.fetch_hospitals_text_search pandas (gmaps:=gmaps) min_reviews).
Proof.
  apply text_search_adds; try apply sequential_Forall; intros;
    repeat (apply Forall_cons; [cbn [text_request]; eauto|]); apply Forall_nil.
Qed.

(** X1: whatever the API answers, the grid search asks it only for nearby
    searches centred on one of the thirteen grid points, with the radius it
    was given and one of the eight keywords, and for place details; it
    never makes a text search, and it pauses for a second or for half a
    second at a time. *)
Theorem X1_grid_search_requests (pandas : Sorter) (gmaps : Api.Client)
    (min_reviews search_radius : Z) (e : Env gmaps) :
  exists evs,
    trace (fst (Comprehensive.fetch_hospitals_grid_search pandas min_reviews
                  search_radius e)) = trace e ++ evs /\
    Forall (grid_request search_radius) evs.
Proof.
  apply grid_search_adds; try apply sequential_Forall; intros;
    repeat (apply Forall_cons; [cbn [grid_request]; auto|]); apply Forall_nil.
Qed.

(** X2: whatever the API answers, the text search asks it only for text
    searches whose query is one of the eight keywords followed by
    " Bangalore", and for place details; it never makes a nearby search, and
    it pauses for a second at a time. *)
Theorem X2_text_search_requests (pandas : Sorter) (gmaps : Api.Client)
    (min_reviews : Z) (e : Env gmaps) :
  exists evs,
    trace (fst (Comprehensive.fetch_hospitals_text_search pandas min_reviews e))
      = trace e ++ evs /\
    Forall text_request evs.
Proof.
  apply text_search_adds; try apply sequential_Forall; intros;
    repeat (apply Forall_cons; [cbn [text_request]; eauto|]); apply Forall_nil.
Qed.

(** X3: the single-query script asks the API only for the nearby search
    "eye hospital" within 30 km of the centre of Bangalore and for place
    details, and pauses for one or two seconds at a time; asked for the
    sample data, it makes no request at all. *)
Theorem X3_single_query_requests (pandas : Sorter) (gmaps : Api.Client)
    (fuel : nat) (min_reviews : Z) (e : Env gmaps) :
  (exists evs,
     trace (fst (Simple.fetch_eye_hospitals_from_api pandas fuel min_reviews e))
       = trace e ++ evs /\
     Forall api_request evs) /\
  (forall use_sample,
     exists evs,
       trace (fst (Simple.get_eye_hospitals pandas fuel min_reviews use_sample e))
         = trace e ++ evs /\
       Forall api_request evs) /\
  fst (Simple.get_eye_hospitals pandas fuel min_reviews true e) = e /\
  fst (Simple.main pandas fuel true e) = e.
Proof.
  assert (H : forall use_sample,
    respects (env_adds (Forall api_request))
      (Simple.get_eye_hospitals pandas (gmaps:=gmaps) fuel min_reviews use_sample)).
  { intros use_sample. apply get_eye_hospitals_adds; try apply sequential_Forall;
      intros; repeat (apply Forall_cons; [cbn [api_request]; auto|]); apply Forall_nil. }
  split; [|split; [intros use_sample; apply H | split]].
  - apply api_search_adds; try apply sequential_Forall; intros;
      repeat (apply Forall_cons; [cbn [api_request]; auto|]); apply Forall_nil.
  - reflexivity.
  - unfold Simple.main, bind. cbn [Simple.get_eye_hospitals ret].
    now destruct (negb _).
Qed.

(** X4: the flags of the comprehensive script decide what is asked of the
    API.  Every event of a run belongs to the grid search with radius 15000,
    which needs [--text-only] off, or to the text search, which needs
    [--grid-only] off: with [--grid-only] no text search is made, with
    [--text-only] no nearby search, and with both flags nothing is asked
    at all. *)
Theorem X4_main_flags (pandas : Sorter) (gmaps : Api.Client)
    (use_grid_only use_text_only : bool) (e : Env gmaps) :
  exists evs,
    trace (fst (Comprehensive.main pandas use_grid_only use_text_only e))
      = trace e ++ evs /\
    Forall (fun ev => use_text_only = false /\ grid_request 15000 ev \/
                      use_grid_only = false /\ text_request ev) evs /\
    (use_grid_only = true -> use_text_only = true -> evs = []).
Proof.
  set (K := fun ev => use_text_only = false /\ grid_request 15000 ev \/
                      use_grid_only = false /\ text_request ev).
  set (P := fun evs => Forall K evs /\
                       (use_grid_only = true -> use_text_only = true -> evs = [])).
  assert (Pseq : sequential P).
  { split; [split; [constructor | reflexivity]|].
    intros a b [Fa Ea] [Fb Eb]. split; [apply Forall_app; now split|].
    intros Hg Ht. now rewrite Ea, Eb. }
  assert (Hret : forall A (a : A), respects (env_adds P) (ret (S:=Env gmaps) a))
    by (intros A a s; now apply env_adds_refl).
  assert (Htrans : forall e1 e2 e3 : Env gmaps,
            env_adds P e1 e2 -> env_adds P e2 e3 -> env_adds P e1 e3)
    by (intros e1 e2 e3; now apply env_adds_trans).
  enough (H : respects (env_adds P)
                (Comprehensive.main pandas (gmaps:=gmaps) use_grid_only use_text_only)).
  { destruct (H e) as (evs & E & F & N). now exists evs. }
  unfold Comprehensive.main.
  apply (respects_bind Htrans); [|intros all_results; apply (respects_bind Htrans)].
  - destruct use_text_only eqn:Ht; cbn [negb]; [apply Hret|].
    apply (respects_bind Htrans); [|intros g; apply Hret].
    intros s. eapply env_adds_weaken; [|apply grid_search_requests].
    intros evs F. split; [|discriminate].
    eapply Forall_impl; [|exact F]. intros ev G. left. now split.
  - destruct use_grid_only eqn:Hg; cbn [negb]; [apply Hret|].
    apply (respects_bind Htrans); [|intros t; apply Hret].
    intros s. eapply env_adds_weaken; [|apply text_search_requests].
    intros evs F. split; [|discriminate].
    eapply Forall_impl; [|exact F]. intros ev G. right. now split.
  - intros all. destruct all as [|grid_df [|text_df [|x rest]]]; apply Hret.
Qed.

(** * The delay before a further page *)

(** A request for a further page: a search that carries a page token. *)
Definition follow_up (ev : Event) : bool :=
  match ev with
  | NearbyCall _ _ _ (Some _) | TextCall _ (Some _) => true
  | _ => false
  end.

(** Every request for a further page among [evs] comes right after a pause
    of [delay] seconds. *)
Definition delayed (delay : Q) (evs : list Event) : Prop :=
  forall pre ev post,
    evs = pre ++ ev :: post -> follow_up ev = true ->
    exists pre', pre = pre' ++ [Sleep delay].

Lemma delayed_sequential delay : sequential (delayed delay).
Proof.
  split.
  - intros pre ev post E. now destruct pre.
  - intros a b Ha Hb pre ev post E F.
    apply app_eq_app in E as (l & [[E1 E2]|[E1 E2]]).
    + destruct l as [|x l].
      * rewrite app_nil_r in E1. subst a. simpl in E2.
        destruct (Hb [] ev post (eq_sym E2) F) as (pre' & E').
        now destruct pre'.
      * simpl in E2. injection E2 as <- ->. now apply (Ha pre ev l).
    + destruct (Hb l ev post E2 F) as (pre' & ->).
      exists (a ++ pre'). now rewrite E1, app_assoc.
Qed.

Lemma delayed_one delay ev : follow_up ev = false -> delayed delay [ev].
Proof.
  intros H pre ev' post E F.
  destruct pre as [|x pre]; simpl in E.
  - injection E as <- _. congruence.
  - injection E as _ E. now destruct pre.
Qed.

Lemma delayed_next delay ev : delayed delay [Sleep delay; ev].
Proof.
  intros pre ev' post E F.
  destruct pre as [|x pre]; simpl in E.
  - injection E as <- _. discriminate.
  - injection E as <- E. destruct pre as [|y pre]; simpl in E.
    + now exists [].
    + injection E as _ E. now destruct pre.
Qed.

(** X5: in both strategies of the comprehensive script, a further page of
    a query is never asked for without the one-second delay: among the
    events of a run, every search request that carries a page token comes
    immediately after a pause of one second. *)
Theorem X5_page_delay (pandas : Sorter) (gmaps : Api.Client)
    (min_reviews search_radius : Z) (e : Env gmaps) :
  (exists evs,
     trace (fst (Comprehensive.fetch_hospitals_grid_search pandas min_reviews
                   search_radius e)) = trace e ++ evs /\
     delayed 1 evs) /\
  (exists evs,
     trace (fst (Comprehensive.fetch_hospitals_text_search pandas min_reviews e))
       = trace e ++ evs /\
     delayed 1 evs).
Proof.
  split.
  - apply grid_search_adds; try apply delayed_sequential; intros;
      first [now apply delayed_one | apply delayed_next].
  - apply text_search_adds; try apply delayed_sequential; intros;
      first [now apply delayed_one | apply delayed_next].
Qed.

(** X6: the single-query fetcher, whose page loop has no cap, keeps the
    same discipline with its own delay: however many pages it asks for,
    every request that carries a page token comes immediately after a pause
    of two seconds. *)
Theorem X6_single_query_page_delay (pandas : Sorter) (gmaps : Api.Client)
    (fuel : nat) (min_reviews : Z) (use_sample : bool) (e : Env gmaps) :
  (exists evs,
     trace (fst (Simple.fetch_eye_hospitals_from_api pandas fuel min_reviews e))
       = trace e ++ evs /\
     delayed 2 evs) /\
  (exists evs,
     trace (fst (Simple.get_eye_hospitals pandas fuel min_reviews use_sample e))
       = trace e ++ evs /\
     delayed 2 evs).
Proof.
  split.
  - apply api_search_adds; try apply delayed_sequential; intros;
      first [now apply delayed_one | apply delayed_next].
  - apply get_eye_hospitals_adds; try apply delayed_sequential; intros;
      first [now apply delayed_one | apply delayed_next].
Qed.

(** * The query plan *)

(** A request for the first page of a query: a search without page token. *)
Definition first_page (ev : Event) : bool :=
  match ev with
  | NearbyCall _ _ _ None | TextCall _ None => true
  | _ => false
  end.

(** The first-page requests of the grid search, in the order of the loops:
    zone by zone, and for each zone keyword by keyword. *)
Definition grid_plan (search_radius : Z) : list Event :=
  flat_map
    (fun location =>
       map (fun keyword => NearbyCall location search_radius keyword None)
           Comprehensive.KEYWORDS)
    Comprehensive.GRID_POINTS.

Definition text_plan : list Event :=
  map (fun keyword => TextCall (keyword ++ " Bangalore") None) Comprehensive.KEYWORDS.

Lemma truthy_token_follow_up token : truthy_token token = true -> exists t, token = Some t.
Proof. destruct token as [t|]; [now exists t | discriminate]. Qed.

(** A loop whose bodies all return adds what its bodies add, one after the
    other. *)
Lemma for_each_plan {gmaps L A} (p : Event -> bool) (f : A -> list Event)
    (xs : list A) (body : A -> M (@frame gmaps L) unit) :
  (forall x, In x xs -> total (body x)) ->
  (forall x s, In x xs ->
     exists evs, trace (fst (fst (body x s))) = trace (fst s) ++ evs /\
                 filter p evs = f x) ->
  forall s,
    exists evs, trace (fst (fst (for_each xs body s))) = trace (fst s) ++ evs /\
                filter p evs = flat_map f xs.
Proof.
  induction xs as [|x xs IH]; intros Ht Hb s.
  - exists []. now rewrite app_nil_r.
  - cbn [for_each flat_map]. unfold bind.
    destruct (Ht x (or_introl eq_refl) s) as [[] Hx].
    destruct (Hb x s (or_introl eq_refl)) as (a & Ea & Fa).
    destruct (body x s) as [s1 o]; cbn [fst snd] in *; subst o.
    destruct (IH (fun y Hy => Ht y (or_intror Hy))
                 (fun y s Hy => Hb y s (or_intror Hy)) s1) as (b & Eb & Fb).
    exists (a ++ b). rewrite Eb, Ea, app_assoc, filter_app, Fa, Fb. auto.
Qed.

Lemma flat_map_enumerate {A B} (f : A -> list B) xs start :
  flat_map (fun z => f (snd z)) (enumerate xs start) = flat_map f xs.
Proof.
  revert start. induction xs as [|x xs IH]; intros start; simpl; [reflexivity|].
  now rewrite IH.
Qed.

Lemma flat_map_single {A B} (f : A -> B) xs : flat_map (fun x => [f x]) xs = map f xs.
Proof. induction xs as [|x xs IH]; simpl; [reflexivity | now rewrite IH]. Qed.

(** Events among which no first page is asked for. *)
Definition later (evs : list Event) : Prop :=
  Forall (fun ev => first_page ev = false) evs.

Lemma later_sequential : sequential later.
Proof. apply sequential_Forall. Qed.

Section Plan.
Variable pandas : Sorter.
Variable gmaps : Api.Client.
Variable min_reviews : Z.

Local Abbreviation state := (@frame gmaps Comprehensive.Locals).


(** One grid query asks for its first page once, and first. *)
Lemma grid_keyword_plan search_radius zone_idx location keyword (s : state) :
  exists evs,
    trace (fst (fst (Comprehensive.grid_keyword min_reviews search_radius zone_idx
                       location keyword s)))
      = trace (fst s) ++ NearbyCall location search_radius keyword None :: evs /\
    filter first_page evs = [].
Proof.
  unfold Comprehensive.grid_keyword. rewrite try_continue_state.
  change (Comprehensive.grid_pages 3) with (Comprehensive.grid_pages (gmaps:=gmaps) (S 2)).
  rewrite grid_pages_round. unfold bind at 1, gmaps_places_nearby, call.
  destruct s as [e l]. cbn [fst snd].
  destruct (snd (Api.places_nearby gmaps (world e) location search_radius keyword None))
    as [places_result|]; [|now exists []].
  match goal with |- context [grid_page_rest ?a ?b ?c ?d ?e0 ?f ?g ?h ?s1] =>
    destruct (@grid_page_rest_adds gmaps a b later later_sequential
                ltac:(intros; now repeat constructor) ltac:(now repeat constructor)
                c d e0 f g h
                ltac:(intros tok T; apply truthy_token_follow_up in T as [t ->];
                      now repeat constructor) s1)
      as (evs & E & F)
  end.
  exists evs. rewrite E. cbn [fst trace]. rewrite <- app_assoc. split; [reflexivity|].
  now apply filter_none.
Qed.

Lemma text_keyword_plan keyword (s : state) :
  exists evs,
    trace (fst (fst (Comprehensive.text_keyword min_reviews keyword s)))
      = trace (fst s) ++ TextCall (keyword ++ " Bangalore") None :: evs /\
    filter first_page evs = [].
Proof.
  unfold Comprehensive.text_keyword. rewrite try_continue_state.
  change (Comprehensive.text_pages 2) with (Comprehensive.text_pages (gmaps:=gmaps) (S 1)).
  rewrite text_pages_round. unfold bind at 1, gmaps_places_text, call.
  destruct s as [e l]. cbn [fst snd].
  destruct (snd (Api.places_text gmaps (world e) (keyword ++ " Bangalore") None))
    as [search_result|]; [|now exists []].
  match goal with |- context [text_page_rest ?a ?c ?d ?g ?h ?s1] =>
    destruct (@text_page_rest_adds gmaps a later later_sequential
                ltac:(intros; now repeat constructor) ltac:(now repeat constructor)
                c d g h
                ltac:(intros tok T; apply truthy_token_follow_up in T as [t ->];
                      now repeat constructor) s1)
      as (evs & E & F)
  end.
  exists evs. rewrite E. cbn [fst trace]. rewrite <- app_assoc. split; [reflexivity|].
  now apply filter_none.
Qed.

Lemma grid_zone_plan search_radius zone (s : state) :
  exists evs,
    trace (fst (fst (Comprehensive.grid_zone min_reviews search_radius zone s)))
      = trace (fst s) ++ evs /\
    filter first_page evs =
      map (fun keyword => NearbyCall (snd zone) search_radius keyword None)
          Comprehensive.KEYWORDS.
Proof.
  unfold Comprehensive.grid_zone. unfold bind at 1.
  assert (T : total (for_each Comprehensive.KEYWORDS
               (Comprehensive.grid_keyword (gmaps:=gmaps) min_reviews search_radius
                  (fst zone) (snd zone))))
    by (apply total_for_each; intros kw _; apply grid_keyword_total).
  destruct (T s) as [[] Hok].
  destruct (@for_each_plan gmaps _ _ first_page
              (fun keyword => [NearbyCall (snd zone) search_radius keyword None])
              Comprehensive.KEYWORDS
              (Comprehensive.grid_keyword min_reviews search_radius (fst zone) (snd zone))
              (fun kw _ => grid_keyword_total min_reviews search_radius (fst zone)
                             (snd zone) kw)
              (fun kw s _ =>
                 match grid_keyword_plan search_radius (fst zone) (snd zone) kw s with
                 | ex_intro _ evs (conj E F) =>
                     ex_intro _ (NearbyCall (snd zone) search_radius kw None :: evs)
                       (conj E (f_equal (cons _) F))
                 end) s) as (evs & E & F).
  destruct (for_each _ _ s) as [s1 o]; cbn [fst snd] in *; subst o.
  exists (evs ++ [Sleep 0.5]). cbn [sleep emit modify fst snd trace].
  rewrite E, <- app_assoc, filter_app, F, flat_map_single. cbn [filter first_page].
  now rewrite app_nil_r.
Qed.

Lemma grid_loop_plan search_radius (s : state) :
  exists evs,
    trace (fst (fst (grid_loop min_reviews search_radius s))) = trace (fst s) ++ evs /\
    filter first_page evs = grid_plan search_radius.
Proof.
  unfold grid_loop, grid_plan.
  rewrite <- (flat_map_enumerate
                (fun location =>
                   map (fun keyword => NearbyCall location search_radius keyword None)
                       Comprehensive.KEYWORDS) Comprehensive.GRID_POINTS 1).
  apply for_each_plan.
  - intros zone _. apply grid_zone_total.
  - intros zone s1 _. apply grid_zone_plan.
Qed.

Lemma text_loop_plan (s : state) :
  exists evs,
    trace (fst (fst (text_loop min_reviews s))) = trace (fst s) ++ evs /\
    filter first_page evs = text_plan.
Proof.
  unfold text_loop, text_plan, try_except.
  assert (T : total (for_each Comprehensive.KEYWORDS
               (Comprehensive.text_keyword (gmaps:=gmaps) min_reviews)))
    by (apply total_for_each; intros kw _; apply text_keyword_total).
  destruct (T s) as [[] Hok].
  destruct (@for_each_plan gmaps _ _ first_page
              (fun keyword => [TextCall (keyword ++ " Bangalore") None])
              Comprehensive.KEYWORDS (Comprehensive.text_keyword min_reviews)
              (fun kw _ => text_keyword_total min_reviews kw)
              (fun kw s _ =>
                 match text_keyword_plan kw s with
                 | ex_intro _ evs (conj E F) =>
                     ex_intro _ (TextCall (kw ++ " Bangalore") None :: evs)
                       (conj E (f_equal (cons _) F))
                 end) s) as (evs & E & F).
  destruct (for_each _ _ s) as [s1 o]; cbn [fst snd] in *; subst o.
  exists evs. now rewrite <- flat_map_single.
Qed.

Lemma grid_search_plan search_radius (e : Env gmaps) :
  exists evs,
    trace (fst (Comprehensive.fetch_hospitals_grid_search pandas min_reviews
                  search_radius e)) = trace e ++ evs /\
    filter first_page evs = grid_plan search_radius.
Proof. rewrite grid_search_trace. apply grid_loop_plan. Qed.

Lemma text_search_plan (e : Env gmaps) :
  exists evs,
    trace (fst (Comprehensive.fetch_hospitals_text_search pandas min_reviews e))
      = trace e ++ evs /\
    filter first_page evs = text_plan.
Proof. rewrite text_search_trace. apply text_loop_plan. Qed.
End Plan.

(** X7: the queries of a run are fixed in advance and none is skipped,
    whatever fails on the way.  The requests for a first page that the grid
    search makes are exactly its 104 queries, zone by zone in the order of
    [GRID_POINTS] and within a zone in the order of [KEYWORDS], each asked
    once; those of the text search are exactly its eight queries, in the
    order of [KEYWORDS]. *)
Theorem X7_query_plan (pandas : Sorter) (gmaps : Api.Client)
    (min_reviews search_radius : Z) (e : Env gmaps) :
  (exists evs,
     trace (fst (Comprehensive.fetch_hospitals_grid_search pandas min_reviews
                   search_radius e)) = trace e ++ evs /\
     filter first_page evs = grid_plan search_radius) /\
  (exists evs,
     trace (fst (Comprehensive.fetch_hospitals_text_search pandas min_reviews e))
       = trace e ++ evs /\
     filter first_page evs = text_plan) /\
  List.length (grid_plan search_radius) = 104%nat /\
  List.length text_plan = 8%nat.
Proof.
  split; [apply grid_search_plan|]. split; [apply text_search_plan|].
  split; reflexivity.
Qed.

(** * The number of search requests *)

Lemma for_each_bound {S A} (size : S -> nat) (n : nat) (xs : list A)
    (body : A -> M S unit) :
  (forall x s, In x xs -> (size (fst (body x s)) <= size s + n)%nat) ->
  forall s, (size (fst (for_each xs body s)) <= size s + n * List.length xs)%nat.
Proof.
  induction xs as [|x xs IH]; intros Hb s; [simpl; lia|].
  cbn [for_each List.length]. unfold bind.
  pose proof (Hb x s (or_introl eq_refl)) as Hx.
  destruct (body x s) as [s1 [[]|err|]]; cbn [fst] in *; try lia.
  specialize (IH (fun y s Hy => Hb y s (or_intror Hy)) s1). lia.
Qed.

Lemma filter_length_le {A} (p q : A -> bool) l :
  (forall x, p x = true -> q x = true) ->
  (List.length (filter p l) <= List.length (filter q l))%nat.
Proof.
  intros H. induction l as [|x l IH]; simpl; [lia|].
  destruct (p x) eqn:Px.
  - rewrite (H x Px). simpl. lia.
  - destruct (q x); simpl; lia.
Qed.

Lemma first_page_is_search ev : first_page ev = true -> is_search ev = true.
Proof. now destruct ev. Qed.

Section Budget.
Variable pandas : Sorter.
Variable gmaps : Api.Client.
Variable min_reviews : Z.

Local Abbreviation state := (@frame gmaps Comprehensive.Locals).

Definition search_count (s : state) : nat := List.length (searches s).

Lemma grid_keyword_bound search_radius zone_idx location keyword (s : state) :
  (search_count (fst (Comprehensive.grid_keyword min_reviews search_radius zone_idx
                        location keyword s)) <= search_count s + 3)%nat.
Proof.
  unfold Comprehensive.grid_keyword. rewrite try_continue_state.
  apply (@grid_pages_bound gmaps min_reviews 3 search_radius zone_idx location keyword 0
           None s).
  lia.
Qed.

Lemma text_keyword_bound keyword (s : state) :
  (search_count (fst (Comprehensive.text_keyword min_reviews keyword s))
   <= search_count s + 2)%nat.
Proof.
  unfold Comprehensive.text_keyword. rewrite try_continue_state.
  apply (@text_pages_bound gmaps min_reviews 2 keyword 0 None s). lia.
Qed.

Lemma grid_zone_bound search_radius zone (s : state) :
  (search_count (fst (Comprehensive.grid_zone min_reviews search_radius zone s))
   <= search_count s + 24)%nat.
Proof.
  unfold Comprehensive.grid_zone. unfold bind at 1.
  pose proof (@for_each_bound state string search_count 3 Comprehensive.KEYWORDS
                (Comprehensive.grid_keyword min_reviews search_radius (fst zone)
                   (snd zone))
                (fun kw s _ => grid_keyword_bound search_radius (fst zone) (snd zone) kw s)
                s) as H.
  change (3 * List.length Comprehensive.KEYWORDS)%nat with 24%nat in H.
  destruct (for_each _ _ s) as [[e1 l1] [[]|err|]]; cbn [fst] in *; try exact H.
  unfold search_count in *. cbn [sleep emit modify fst snd].
  rewrite (searches_snoc e1 l1 l1). cbn [is_search]. now rewrite app_nil_r.
Qed.

Lemma grid_loop_bound search_radius (s : state) :
  (search_count (fst (grid_loop min_reviews search_radius s)) <= search_count s + 312)%nat.
Proof.
  pose proof (@for_each_bound state (Z * (R * R)) search_count 24
                (enumerate Comprehensive.GRID_POINTS 1)
                (Comprehensive.grid_zone min_reviews search_radius)
                (fun zone s _ => grid_zone_bound search_radius zone s) s) as H.
  exact H.
Qed.

Lemma text_loop_bound (s : state) :
  (search_count (fst (text_loop min_reviews s)) <= search_count s + 16)%nat.
Proof.
  pose proof (@for_each_bound state string search_count 2 Comprehensive.KEYWORDS
                (Comprehensive.text_keyword min_reviews)
                (fun kw s _ => text_keyword_bound kw s) s) as H.
  unfold text_loop, try_except.
  destruct (for_each _ _ s) as [s1 [[]|err|]]; exact H.
Qed.

(** The searches among the events a run added, counted. *)
Lemma search_budget (e e' : Env gmaps) plan (lo hi : nat) :
  (exists evs, trace e' = trace e ++ evs /\ filter first_page evs = plan) ->
  List.length plan = lo ->
  (List.length (filter is_search (trace e'))
   <= List.length (filter is_search (trace e)) + hi)%nat ->
  exists evs, trace e' = trace e ++ evs /\
              (lo <= List.length (filter is_search evs) <= hi)%nat.
Proof.
  intros (evs & E & F) Hlo Hhi. exists evs. split; [exact E|].
  rewrite E, filter_app, length_app in Hhi. split; [|lia].
  rewrite <- Hlo, <- F. apply filter_length_le, first_page_is_search.
Qed.
End Budget.

(** X8: the cost of a run in search requests is bounded on both sides,
    whatever the API answers: the grid search makes at least 104 of them
    (one per zone and keyword) and at most 312 (three pages each), the text
    search at least 8 and at most 16 (two pages each). *)
Theorem X8_search_budget (pandas : Sorter) (gmaps : Api.Client)
    (min_reviews search_radius : Z) (e : Env gmaps) :
  (exists evs,
     trace (fst (Comprehensive.fetch_hospitals_grid_search pandas min_reviews
                   search_radius e)) = trace e ++ evs /\
     (104 <= List.length (filter is_search evs) <= 312)%nat) /\
  (exists evs,
     trace (fst (Comprehensive.fetch_hospitals_text_search pandas min_reviews e))
       = trace e ++ evs /\
     (8 <= List.length (filter is_search evs) <= 16)%nat).
Proof.
  split.
  - eapply search_budget; [apply grid_search_plan | reflexivity|].
    rewrite grid_search_trace.
    apply (grid_loop_bound (gmaps:=gmaps) min_reviews search_radius (e, Comprehensive.fresh)).
  - eapply search_budget; [apply text_search_plan | reflexivity|].
    rewrite text_search_trace.
    apply (text_loop_bound (gmaps:=gmaps) min_reviews (e, Comprehensive.fresh)).
Qed.

(** * Details are asked for once *)

Section Refetch.
Variable gmaps : Api.Client.
Variable min_reviews : Z.

Local Abbreviation state := (@frame gmaps Comprehensive.Locals).

(** The store grows, and no details request is made for an identifier that
    was stored before. *)
Definition unasked (s s' : state) : Prop :=
  grows min_reviews (store s) (store s') /\
  adds (fun evs => forall id, In (PlaceCall id) evs -> Dict.mem id (store s) = false) s s'.

Lemma mem_app_false {V} k (d new : Dict.t V) :
  Dict.mem k (d ++ new) = false -> Dict.mem k d = false.
Proof. unfold Dict.mem. rewrite existsb_app, orb_false_iff. tauto. Qed.

Lemma unasked_refl s : unasked s s.
Proof.
  split; [apply grows_refl|]. exists []. rewrite app_nil_r. split; [reflexivity|].
  intros id [].
Qed.

Lemma unasked_trans s1 s2 s3 : unasked s1 s2 -> unasked s2 s3 -> unasked s1 s3.
Proof.
  intros (G1 & a & Ea & Ha) (G2 & b & Eb & Hb). split; [eapply grows_trans; eauto|].
  exists (a ++ b). rewrite Eb, Ea, app_assoc. split; [reflexivity|].
  intros id H. apply in_app_or in H as [H|H]; [now apply Ha|].
  destruct G1 as (new & E & _). apply Hb in H. rewrite E in H.
  now apply mem_app_false in H.
Qed.

(** Steps that leave the store alone and ask for no details. *)
Lemma unasked_intro (s s' : state) :
  store s' = store s ->
  adds (Forall (fun ev => forall id, ev <> PlaceCall id)) s s' ->
  unasked s s'.
Proof.
  intros Hs (evs & E & F). split; [rewrite Hs; apply grows_refl|].
  exists evs. split; [exact E|]. intros id H.
  rewrite Forall_forall in F. now destruct (F _ H id).
Qed.

Lemma call_store {A} ev (request : Api.world gmaps -> Api.world gmaps * Api.reply A)
    (s : state) :
  store (fst (call ev request s)) = store s.
Proof. unfold call. now destruct (snd (request (world (fst s)))). Qed.

Lemma unasked_call {A} ev (request : Api.world gmaps -> Api.world gmaps * Api.reply A) :
  (forall id, ev <> PlaceCall id) ->
  respects unasked (call (L:=Comprehensive.Locals) ev request).
Proof.
  intros H s. apply unasked_intro; [apply call_store|].
  apply call_adds. now repeat constructor.
Qed.

Lemma unasked_sleep seconds : respects unasked (sleep seconds).
Proof.
  intros s. apply unasked_intro; [reflexivity|].
  apply sleep_adds. repeat constructor. discriminate.
Qed.

Lemma unasked_sleep_call {A} seconds ev
    (request : Api.world gmaps -> Api.world gmaps * Api.reply A) :
  (forall id, ev <> PlaceCall id) ->
  respects unasked (sleep seconds ;; call (L:=Comprehensive.Locals) ev request).
Proof.
  intros H s. apply unasked_intro.
  - unfold bind, sleep, emit, modify. cbn [fst snd]. now rewrite call_store.
  - apply sleep_call_adds. repeat constructor; [discriminate | exact H].
Qed.

Lemma unasked_count : respects unasked (Comprehensive.count_request (gmaps:=gmaps)).
Proof.
  intros s. apply unasked_intro; [reflexivity|].
  apply set_locals_adds, sequential_Forall.
Qed.

Lemma item_events_unasked place (s s' : state) :
  grows min_reviews (store s) (store s') ->
  adds (item_events (fun id => Dict.mem id (store s)) place) s s' ->
  unasked s s'.
Proof.
  intros G (evs & E & H). split; [exact G|]. exists evs. split; [exact E|].
  intros id Hin. destruct H as [->|(pid & _ & Hmem & [->| ->])].
  - destruct Hin.
  - destruct Hin as [Hin|[]]. now injection Hin as <-.
  - destruct Hin as [Hin|[Hin|[]]]; [now injection Hin as <- | discriminate].
Qed.

Lemma unasked_grid_place zone_idx keyword place :
  respects unasked (Comprehensive.grid_place min_reviews zone_idx keyword place).
Proof.
  intros s. apply item_events_unasked with (place := place).
  - apply grid_place_quiet.
  - apply grid_place_events.
Qed.

Lemma unasked_text_place place :
  respects unasked (Comprehensive.text_place min_reviews place).
Proof.
  intros s. apply item_events_unasked with (place := place).
  - apply text_place_quiet.
  - apply text_place_events.
Qed.

Lemma grid_loop_unasked search_radius :
  respects unasked (grid_loop min_reviews search_radius).
Proof.
  apply grid_loop_respects.
  - apply unasked_refl.
  - apply unasked_trans.
  - apply unasked_count.
  - apply unasked_sleep.
  - apply unasked_sleep.
  - intros. apply unasked_grid_place.
  - intros. now apply unasked_call.
  - intros. now apply unasked_sleep_call.
Qed.

Lemma text_loop_unasked : respects unasked (text_loop min_reviews).
Proof.
  apply text_loop_respects.
  - apply unasked_refl.
  - apply unasked_trans.
  - apply unasked_count.
  - apply unasked_text_place.
  - apply unasked_sleep.
  - intros. now apply unasked_call.
  - intros. now apply unasked_sleep_call.
Qed.

Lemma unasked_stored (s s' : state) id :
  unasked s s' -> Dict.mem id (store s) = true ->
  exists evs, trace (fst s') = trace (fst s) ++ evs /\ ~ In (PlaceCall id) evs.
Proof.
  intros (_ & evs & E & H) Hmem. exists evs. split; [exact E|].
  intros Hin. apply H in Hin. congruence.
Qed.
End Refetch.

(** X9: a hospital that is in the store is never fetched again.  From any
    state of a run, whatever the remaining zones and keywords of the grid
    search or keywords of the text search return, no further details
    request is made for an identifier the store already holds. *)
Theorem X9_stored_places_are_not_asked_again (gmaps : Api.Client)
    (min_reviews search_radius : Z) (s : @frame gmaps Comprehensive.Locals)
    (id : string) :
  Dict.mem id (store s) = true ->
  (exists evs,
     trace (fst (fst (grid_loop min_reviews search_radius s))) = trace (fst s) ++ evs /\
     ~ In (PlaceCall id) evs) /\
  (exists evs,
     trace (fst (fst (text_loop min_reviews s))) = trace (fst s) ++ evs /\
     ~ In (PlaceCall id) evs).
Proof.
  intros Hmem. split.
  - eapply unasked_stored; [apply grid_loop_unasked | exact Hmem].
  - eapply unasked_stored; [apply text_loop_unasked | exact Hmem].
Qed.

Lemma X9_stored_places_are_not_asked_again_witness :
  Dict.mem "A" (store holding_A) = true /\
  (exists evs,
     trace (fst (fst (grid_loop 100 15000 holding_A))) = trace (fst holding_A) ++ evs /\
     ~ In (PlaceCall "A") evs).
Proof.
  split; [reflexivity|].
  exact (proj1 (@X9_stored_places_are_not_asked_again (scripted (listing 999)) 100 15000
                  holding_A "A" eq_refl)).
Defined.

(** * The range of the haversine distance *)

Section HaversineRange.
Import Comprehensive.
Local Open Scope R_scope.






End HaversineRange.


(** * The rows of the combined frame *)

Lemma drop_duplicates_from_length seen df :
  (List.length (drop_duplicates_from seen df) <= List.length df)%nat.
Proof.
  revert seen. induction df as [|r df IH]; intros seen; simpl; [lia|].
  destruct (existsb _ seen); simpl.
  - specialize (IH seen). lia.
  - specialize (IH (place_id r :: seen)). lia.
Qed.

(** Among rows with distinct identifiers, none of them seen before, nothing
    is a duplicate. *)
Lemma drop_duplicates_from_distinct seen df :
  NoDup (ids df) -> (forall id, In id (ids df) -> ~ In id seen) ->
  drop_duplicates_from seen df = df.
Proof.
  revert seen. induction df as [|r df IH]; intros seen N D; simpl; [reflexivity|].
  simpl in N. inversion N as [|? ? Hr N']; subst.
  destruct (existsb _ seen) eqn:E.
  - apply existsb_eqb_in in E. exfalso. apply (D (place_id r)); simpl; auto.
  - f_equal. apply IH; [exact N'|].
    intros id Hid [<-|Hs]; [contradiction|]. apply (D id); simpl; auto.
Qed.

Lemma combine_results_rows pandas grid_df text_df r :
  In r (Comprehensive.combine_results pandas grid_df text_df) ->
  In r grid_df \/ In r text_df.
Proof.
  destruct grid_df as [|g grid_df]; destruct text_df as [|t text_df]; simpl; auto.
  change (In r (sort_values pandas (drop_duplicates ((g :: grid_df) ++ t :: text_df))) ->
          In r (g :: grid_df) \/ In r (t :: text_df)).
  intros H. apply (Permutation_in _ (Permutation_sym (sort_values_perm pandas _))) in H.
  apply drop_duplicates_from_incl in H. now apply in_app_or in H.
Qed.

(** X11: [combine_results] makes up no row and multiplies none: every row
    of its output is a row of the grid frame or of the text frame, and the
    output is no longer than the two together; when no identifier occurs
    twice in the two frames, nothing is dropped either, and the output holds
    exactly the rows of both. *)
Theorem X11_combine_results_rows (pandas : Sorter) (grid_df text_df : DataFrame) :
  (forall r, In r (Comprehensive.combine_results pandas grid_df text_df) ->
             In r grid_df \/ In r text_df) /\
  (List.length (Comprehensive.combine_results pandas grid_df text_df)
   <= List.length grid_df + List.length text_df)%nat /\
  (NoDup (ids (grid_df ++ text_df)) ->
   Permutation (grid_df ++ text_df)
               (Comprehensive.combine_results pandas grid_df text_df)).
Proof.
  split; [intros r; apply combine_results_rows|].
  destruct grid_df as [|g grid_df]; destruct text_df as [|t text_df].
  - split; [simpl; lia | intros _; constructor].
  - split; [simpl; lia | intros _; apply Permutation_refl].
  - split; [simpl; lia | intros _; rewrite app_nil_r; apply Permutation_refl].
  - rewrite combine_results_nonempty.
    set (both := (g :: grid_df) ++ t :: text_df).
    pose proof (sort_values_perm pandas (drop_duplicates both)) as P. split.
    + rewrite <- (Permutation_length P), <- length_app. apply drop_duplicates_from_length.
    + intros N. unfold drop_duplicates.
      rewrite drop_duplicates_from_distinct;
        [apply sort_values_perm | exact N | intros id _ []].
Qed.

Lemma X11_combine_results_rows_witness :
  NoDup (ids ([hospital "A" 500] ++ [hospital "B" 50])) /\
  Permutation ([hospital "A" 500] ++ [hospital "B" 50])
    (Comprehensive.combine_results stable_sorter [hospital "A" 500] [hospital "B" 50]).
Proof.
  assert (N : NoDup (ids ([hospital "A" 500] ++ [hospital "B" 50]))).
  { simpl. repeat constructor; simpl; intuition discriminate. }
  split; [exact N|].
  exact (proj2 (proj2 (@X11_combine_results_rows stable_sorter [hospital "A" 500]
                         [hospital "B" 50])) N).
Defined.

(** * Where a row comes from *)

(** A row as the grid search writes it: the number of the zone and the
    keyword of the query that found it, the types, and neither of the
    columns the other fetchers write. *)
Definition grid_row (r : Row) : Prop :=
  (exists zone_idx, zone r = Some zone_idx /\ 1 <= zone_idx <= 13) /\
  (exists keyword, keyword_found r = Some keyword /\
                   In keyword Comprehensive.KEYWORDS) /\
  types r <> None /\ search_method r = None /\ open_now r = None.

(** A row as the text search writes it. *)
Definition text_row (r : Row) : Prop :=
  search_method r = Some "text_search" /\
  zone r = None /\ keyword_found r = None /\ types r = None /\ open_now r = None.

Lemma enumerate_range {A} (i : Z) (x : A) xs start :
  In (i, x) (enumerate xs start) -> start <= i < start + Z.of_nat (List.length xs).
Proof.
  revert start. induction xs as [|y xs IH]; intros start; [intros []|].
  cbn [enumerate List.length]. intros [E|H].
  - injection E as <- _. lia.
  - apply IH in H. lia.
Qed.

Section Provenance.
Variable pandas : Sorter.
Variable gmaps : Api.Client.
Variable min_reviews : Z.

Local Abbreviation state := (@frame gmaps Comprehensive.Locals).

(** The store gets new entries at its end, with rows that satisfy [T]. *)
Definition stores (T : Row -> Prop) (s s' : state) : Prop :=
  exists new, store s' = store s ++ new /\ Forall (fun kv => T (snd kv)) new.

Lemma stores_same T (s s' : state) : store s' = store s -> stores T s s'.
Proof. intros H. exists []. rewrite app_nil_r. split; [exact H | constructor]. Qed.

Lemma stores_refl T s : stores T s s.
Proof. now apply stores_same. Qed.

Lemma stores_trans T s1 s2 s3 : stores T s1 s2 -> stores T s2 s3 -> stores T s1 s3.
Proof.
  intros (a & Ea & Fa) (b & Eb & Fb). exists (a ++ b).
  rewrite Eb, Ea, app_assoc. split; [reflexivity | apply Forall_app; now split].
Qed.

Lemma stores_weaken (T1 T2 : Row -> Prop) s s' :
  (forall r, T1 r -> T2 r) -> stores T1 s s' -> stores T2 s s'.
Proof.
  intros H (new & E & F). exists new. split; [exact E|].
  eapply Forall_impl; [|exact F]. intros kv. apply H.
Qed.

Lemma stores_call T {A} ev (request : Api.world gmaps -> Api.world gmaps * Api.reply A) :
  respects (stores T) (call (L:=Comprehensive.Locals) ev request).
Proof. intros s. apply stores_same, call_store. Qed.

Lemma stores_sleep T seconds : respects (stores T) (sleep seconds).
Proof. intros s. now apply stores_same. Qed.

Lemma stores_sleep_call T {A} seconds ev
    (request : Api.world gmaps -> Api.world gmaps * Api.reply A) :
  respects (stores T) (sleep seconds ;; call (L:=Comprehensive.Locals) ev request).
Proof.
  intros s. apply stores_same. unfold bind, sleep, emit, modify. cbn [fst snd].
  now rewrite call_store.
Qed.

Lemma stores_count T : respects (stores T) (Comprehensive.count_request (gmaps:=gmaps)).
Proof. intros s. now apply stores_same. Qed.

Local Ltac same_store := apply stores_same; reflexivity.

Lemma grid_place_stores zone_idx keyword place :
  respects
    (stores (fun r => zone r = Some zone_idx /\ keyword_found r = Some keyword /\
                      types r <> None /\ search_method r = None /\ open_now r = None))
    (Comprehensive.grid_place min_reviews zone_idx keyword place).
Proof.
  intros [e l].
  unfold Comprehensive.grid_place, Comprehensive.rate_limit, Comprehensive.store,
    Comprehensive.count_request, gmaps_place, call, sleep, emit, locals, set_locals,
    gets, modify, bind.
  destruct (Api.place_id place) as [pid|]; simpl; [|same_store].
  destruct (Dict.mem pid (Comprehensive.all_hospitals l)) eqn:Hmem; simpl;
    [same_store|].
  destruct (Api.place gmaps (world e) pid) as [w' [details|]]; simpl; [|same_store].
  destruct (Api.result details) as [place_data|]; simpl; [|same_store].
  destruct (_ >=? _); simpl.
  - destruct (geometry_location _ Api.lat) as [lat0|]; simpl; [|same_store].
    destruct (geometry_location _ Api.lng) as [lng0|]; simpl; [|same_store].
    destruct (_ =? 0); simpl; unfold stores, store; simpl;
      rewrite (set_fresh _ _ _ Hmem); (eexists; split; [reflexivity|]);
      repeat constructor; simpl; discriminate.
  - destruct (_ =? 0); simpl; same_store.
Qed.

Lemma text_place_stores place :
  respects (stores text_row) (Comprehensive.text_place min_reviews place).
Proof.
  intros [e l].
  unfold Comprehensive.text_place, Comprehensive.text_enrich,
    Comprehensive.distance_from_center, Comprehensive.rate_limit, Comprehensive.store,
    Comprehensive.count_request, gmaps_place, call, sleep, emit, locals, set_locals,
    gets, modify, bind.
  destruct (geometry_location _ Api.lat) as [lat|]; simpl; [|same_store].
  destruct (geometry_location _ Api.lng) as [lon|]; simpl; [|same_store].
  destruct (Comprehensive.exceeds _ 50); simpl; [same_store|].
  destruct (Api.place_id place) as [pid|]; simpl; [|same_store].
  destruct (Dict.mem pid (Comprehensive.all_hospitals l)) eqn:Hmem; simpl;
    [same_store|].
  destruct (Api.place gmaps (world e) pid) as [w' [details|]]; simpl; [|same_store].
  destruct (Api.result details) as [place_data|]; simpl; [|same_store].
  destruct (_ >=? _); simpl.
  - destruct (geometry_location _ Api.lat) as [lat0|]; simpl; [|same_store].
    destruct (geometry_location _ Api.lng) as [lng0|]; simpl; [|same_store].
    destruct (_ =? 0); simpl; unfold stores, store; simpl;
      rewrite (set_fresh _ _ _ Hmem); (eexists; split; [reflexivity|]);
      repeat constructor.
  - destruct (_ =? 0); simpl; same_store.
Qed.

Lemma grid_loop_stores search_radius :
  respects (stores grid_row) (grid_loop min_reviews search_radius).
Proof.
  apply grid_loop_respects.
  - apply stores_refl.
  - apply stores_trans.
  - apply stores_count.
  - apply stores_sleep.
  - apply stores_sleep.
  - intros zone_idx location keyword place Hz Hk s.
    eapply stores_weaken; [|apply grid_place_stores].
    intros r (Z1 & K1 & T1 & M1 & O1). apply enumerate_range in Hz.
    change (Z.of_nat (List.length Comprehensive.GRID_POINTS)) with 13 in Hz.
    repeat split; auto.
    + exists zone_idx. split; [exact Z1 | lia].
    + now exists keyword.
  - intros. apply stores_call.
  - intros. apply stores_sleep_call.
Qed.

Lemma text_loop_stores : respects (stores text_row) (text_loop min_reviews).
Proof.
  apply text_loop_respects.
  - apply stores_refl.
  - apply stores_trans.
  - apply stores_count.
  - apply text_place_stores.
  - apply stores_sleep.
  - intros. apply stores_call.
  - intros. apply stores_sleep_call.
Qed.

(** What a strategy hands over is what its loop stored. *)
Lemma strategy_rows T (loop : M state unit) (e : Env gmaps) :
  total loop -> respects (stores T) loop ->
  returns
    (with_locals Comprehensive.fresh
       (bind loop (fun _ => Comprehensive.to_frame (gmaps:=gmaps) pandas)))
    e (Forall T).
Proof.
  intros Ht Hs. unfold returns, with_locals, bind.
  destruct (Ht (e, Comprehensive.fresh)) as [[] Hok].
  destruct (Hs (e, Comprehensive.fresh)) as (new & E & F).
  destruct (loop (e, Comprehensive.fresh)) as [s' o]; cbn [fst snd] in *; subst o.
  destruct (to_frame_spec pandas s') as (df & -> & P & _).
  exists df. split; [reflexivity|].
  eapply Permutation_Forall; [exact P|].
  rewrite E. unfold Dict.values. simpl. now rewrite Forall_map.
Qed.

Lemma grid_search_rows search_radius (e : Env gmaps) :
  returns (Comprehensive.fetch_hospitals_grid_search pandas min_reviews search_radius) e
    (Forall grid_row).
Proof.
  apply (strategy_rows (loop := grid_loop (gmaps:=gmaps) min_reviews search_radius));
    [apply grid_loop_total | apply grid_loop_stores].
Qed.

Lemma text_search_rows (e : Env gmaps) :
  returns (Comprehensive.fetch_hospitals_text_search pandas min_reviews) e
    (Forall text_row).
Proof.
  apply (strategy_rows (loop := text_loop (gmaps:=gmaps) min_reviews));
    [apply text_loop_total | apply text_loop_stores].
Qed.
End Provenance.

(** The frame the script ends with, by its flags. *)
Lemma main_frames pandas gmaps (G T Q : DataFrame -> Prop)
    use_grid_only use_text_only (e : Env gmaps) :
  (forall e' : Env gmaps,
     returns (Comprehensive.fetch_hospitals_grid_search pandas 100 15000) e' G) ->
  (forall e' : Env gmaps,
     returns (Comprehensive.fetch_hospitals_text_search pandas 100) e' T) ->
  (use_grid_only = true -> use_text_only = true -> Q []) ->
  (use_text_only = false -> use_grid_only = true -> forall df, G df -> Q df) ->
  (use_text_only = true -> use_grid_only = false -> forall df, T df -> Q df) ->
  (use_text_only = false -> use_grid_only = false ->
   forall g t, G g -> T t -> Q (Comprehensive.combine_results pandas g t)) ->
  returns (Comprehensive.main pandas use_grid_only use_text_only) e
    (fun report => Q (Comprehensive.final_df report)).
Proof.
  intros Hg Ht Q0 Qg Qt Qb. unfold Comprehensive.main.
  destruct use_text_only, use_grid_only; cbn [negb].
  - eapply returns_bind; [apply (returns_ret _ _ (fun l => l = [])); reflexivity|].
    intros ? s1 ->.
    eapply returns_bind; [apply (returns_ret _ _ (fun l => l = [])); reflexivity|].
    intros ? s2 ->. apply returns_ret. now apply Q0.
  - eapply returns_bind; [apply (returns_ret _ _ (fun l => l = [])); reflexivity|].
    intros ? s1 ->.
    eapply returns_bind.
    + eapply returns_bind; [apply Ht|].
      intros t s2 At.
      apply (returns_ret _ _ (fun l => exists t, l = [t] /\ T t)).
      now exists t.
    + intros ? s2 (t & -> & At). apply returns_ret. now apply Qt.
  - eapply returns_bind.
    + eapply returns_bind; [apply Hg|].
      intros g s1 Ag.
      apply (returns_ret _ _ (fun l => exists g, l = [g] /\ G g)).
      now exists g.
    + intros ? s1 (g & -> & Ag).
      eapply returns_bind;
        [apply (returns_ret _ _ (fun l => l = [g])); reflexivity|].
      intros ? s2 ->. apply returns_ret. now apply Qg.
  - eapply returns_bind.
    + eapply returns_bind; [apply Hg|].
      intros g s1 Ag.
      apply (returns_ret _ _ (fun l => exists g, l = [g] /\ G g)).
      now exists g.
    + intros ? s1 (g & -> & Ag).
      eapply returns_bind.
      * eapply returns_bind; [apply Ht|].
        intros t s2 At.
        apply (returns_ret _ _ (fun l => exists t, l = [g; t] /\ T t)).
        now exists t.
      * intros ? s2 (t & -> & At). apply returns_ret. now apply Qb.
Qed.

(** X12: the columns of a row tell which strategy found the hospital.
    Every row the grid search hands over carries the number of a zone, from
    1 to 13, and one of the eight keywords (those of the query that stored
    it), a list of types, and no search method; every row the text search
    hands over carries the search method "text_search" and no zone, keyword
    or types.  Every row of the frame the script ends with is of one of
    these two kinds, and of the kind its flags allow. *)
Theorem X12_row_provenance (pandas : Sorter) (gmaps : Api.Client)
    (min_reviews search_radius : Z) (e : Env gmaps) :
  returns (Comprehensive.fetch_hospitals_grid_search pandas min_reviews search_radius) e
    (Forall grid_row) /\
  returns (Comprehensive.fetch_hospitals_text_search pandas min_reviews) e
    (Forall text_row) /\
  (forall use_grid_only use_text_only,
     returns (Comprehensive.main pandas use_grid_only use_text_only) e
       (fun report =>
          Forall (fun r => use_text_only = false /\ grid_row r \/
                           use_grid_only = false /\ text_row r)
                 (Comprehensive.final_df report))).
Proof.
  split; [apply grid_search_rows|]. split; [apply text_search_rows|].
  intros use_grid_only use_text_only.
  apply (@main_frames pandas gmaps (Forall grid_row) (Forall text_row)).
  - intros e'. apply grid_search_rows.
  - intros e'. apply text_search_rows.
  - constructor.
  - intros Ht _ df F. eapply Forall_impl; [|exact F]. intros r H. left. now split.
  - intros _ Hg df F. eapply Forall_impl; [|exact F]. intros r H. right. now split.
  - intros Ht Hg g t Fg Ft. apply Forall_forall. intros r H.
    rewrite Forall_forall in Fg, Ft.
    apply combine_results_rows in H as [H|H]; [left | right]; auto.
Qed.

(** * The loop without a page cap *)

(** An API that answers the query of the single-query fetcher with a page
    token every time. *)
Definition keeps_paging (gmaps : Api.Client) : Prop :=
  forall w token,
    exists response,
      snd (Api.places_nearby gmaps w Simple.BANGALORE_CENTER Simple.SEARCH_RADIUS
             "eye hospital" token) = Api.Returned response /\
      truthy_token (Api.next_page_token response) = true.

Lemma api_pages_endless gmaps min_reviews fuel token (s : @frame gmaps Simple.Locals) :
  keeps_paging gmaps ->
  snd (Simple.api_pages fuel min_reviews token s) = OutOfFuel.
Proof.
  intros H. revert token s. induction fuel as [|fuel IH]; intros token [e l];
    [reflexivity|].
  cbn [Simple.api_pages]. unfold bind at 1. unfold gmaps_places_nearby, call.
  cbn [fst snd]. destruct (H (world e) token) as (response & -> & T).
  unfold bind at 1. cbn [Simple.count_request set_locals modify fst snd].
  unfold bind at 1.
  match goal with |- context [for_each ?ps ?body ?s1] =>
    destruct (api_results_total min_reviews ps s1) as [[] E];
    destruct (for_each ps body s1) as [s2 o]
  end.
  cbn [snd] in E. subst o. rewrite T. cbn [negb].
  unfold bind at 1. cbn [sleep emit modify fst snd]. apply IH.
Qed.

Lemma get_eye_hospitals_endless pandas gmaps fuel min_reviews (e : Env gmaps) :
  keeps_paging gmaps ->
  snd (Simple.fetch_eye_hospitals_from_api pandas fuel min_reviews e) = OutOfFuel /\
  snd (Simple.get_eye_hospitals pandas fuel min_reviews false e) = OutOfFuel.
Proof.
  intros H.
  assert (F : snd (Simple.fetch_eye_hospitals_from_api pandas fuel min_reviews e)
              = OutOfFuel).
  { unfold Simple.fetch_eye_hospitals_from_api, with_locals, Simple.api_body,
      try_except, bind. cbn [snd].
    pose proof (@api_pages_endless gmaps min_reviews fuel None (e, Simple.fresh) H) as P.
    destruct (Simple.api_pages fuel min_reviews None (e, Simple.fresh)) as [s1 o].
    cbn [snd] in P. now subst o. }
  split; [exact F|]. unfold Simple.get_eye_hospitals, bind.
  destruct (Simple.fetch_eye_hospitals_from_api pandas fuel min_reviews e) as [e1 o].
  cbn [snd] in F. now subst o.
Qed.

(** A client whose every page carries a token. *)
Definition endless : Api.Client := steady (page [] (Some "more")) (listing 500).

(** X13: the page loop of the single-query fetcher has no cap, and nothing
    else ends it: against an API that hands out a page token with every
    page, no amount of fuel lets the fetch, [get_eye_hospitals] or the
    script come to a result.  (The comprehensive script, with its caps of
    three and two pages, always ends.) *)
Theorem X13_single_query_needs_a_last_page (pandas : Sorter) (gmaps : Api.Client)
    (fuel : nat) (min_reviews : Z) (e : Env gmaps) :
  keeps_paging gmaps ->
  snd (Simple.fetch_eye_hospitals_from_api pandas fuel min_reviews e) = OutOfFuel /\
  snd (Simple.get_eye_hospitals pandas fuel min_reviews false e) = OutOfFuel /\
  snd (Simple.main pandas fuel false e) = OutOfFuel.
Proof.
  intros H.
  destruct (get_eye_hospitals_endless pandas fuel min_reviews e H) as [F G].
  split; [exact F|]. split; [exact G|].
  destruct (get_eye_hospitals_endless pandas fuel 100 e H) as [_ G100].
  unfold Simple.main, bind.
  destruct (Simple.get_eye_hospitals pandas fuel 100 false e) as [e1 o].
  cbn [snd] in G100. now subst o.
Qed.

Lemma X13_single_query_needs_a_last_page_witness :
  keeps_paging endless /\
  snd (Simple.main stable_sorter 1000 false (@Build_Env endless tt [])) = OutOfFuel.
Proof.
  assert (H : keeps_paging endless).
  { intros w token. exists (page [] (Some "more")). split; reflexivity. }
  split; [exact H|].
  exact (proj2 (proj2 (@X13_single_query_needs_a_last_page stable_sorter endless 1000 100
                         (@Build_Env endless tt []) H))).
Defined.

(** * The coordinates the text search stores *)

(** X14: the distance check of the text search looks at the coordinates of
    the search result, while the row it stores takes its coordinates from
    the details response.  A result listed within 50 km of the centre, whose
    details pass the review filter, is stored with the latitude and
    longitude the details give, whatever these are: if the two responses
    disagree, a row can lie outside the 50 km the check allows. *)
Theorem X14_text_search_stores_details_coordinates (min_reviews : Z) (id : string)
    (reviews : option Z) (lat lon lat' lon' : R) :
  ~ (Comprehensive.haversine_distance (fst Comprehensive.BANGALORE_CENTER)
       (snd Comprehensive.BANGALORE_CENTER) lat lon > 50)%R ->
  min_reviews <= get_default reviews 0 ->
  store (fst (Comprehensive.text_place min_reviews (place_at id lat lon)
                (@Build_Env
                   (scripted (fun _ => Api.Returned
                      {| Api.result := Some (coordinates_only reviews lat' lon') |}))
                   [] [],
                 Comprehensive.fresh)))
  = [(id, {| name := "N/A"; address := "N/A";
             latitude := Some lat'; longitude := Some lon';
             rating := None; review_count := get_default reviews 0;
             phone := "N/A"; website := "N/A"; place_id := id;
             types := None; zone := None;
             keyword_found := None; search_method := Some "text_search";
             open_now := None |})].
Proof.
  intros Hnear H. rewrite text_place_near by exact Hnear.
  unfold Comprehensive.text_enrich, Comprehensive.rate_limit, Comprehensive.store,
    Comprehensive.count_request, gmaps_place, call, sleep, emit, locals, set_locals,
    gets, modify, bind, store.
  cbn [place_at Api.place_id getitem ret fst snd Comprehensive.fresh
       Comprehensive.all_hospitals Dict.mem Dict.empty existsb scripted Api.place
       Api.result coordinates_only Api.user_ratings_total].
  destruct (Z.geb_spec (get_default reviews 0) min_reviews); [|lia].
  cbn. reflexivity.
Qed.

(** A listing at the centre of Bangalore whose details put it 51 km to the
    north. *)
Definition moved : Api.Client :=
  scripted (fun _ => Api.Returned
    {| Api.result :=
         Some (coordinates_only (Some 500)
                 (north (fst Comprehensive.BANGALORE_CENTER) 51)
                 (snd Comprehensive.BANGALORE_CENTER)) |}).

Lemma X14_text_search_stores_details_coordinates_witness :
  Comprehensive.haversine_distance
    (fst Comprehensive.BANGALORE_CENTER) (snd Comprehensive.BANGALORE_CENTER)
    (north (fst Comprehensive.BANGALORE_CENTER) 51) (snd Comprehensive.BANGALORE_CENTER)
  = 51%R /\
  map latitude
    (Dict.values
       (store (fst (Comprehensive.text_place 100
                      (place_at "far" (fst Comprehensive.BANGALORE_CENTER)
                                (snd Comprehensive.BANGALORE_CENTER))
                      (@Build_Env moved [] [], Comprehensive.fresh)))))
  = [Some (north (fst Comprehensive.BANGALORE_CENTER) 51)].
Proof.
  split; [apply haversine_distance_north; lra|].
  unfold moved.
  rewrite (@X14_text_search_stores_details_coordinates 100 "far" (Some 500)
             (fst Comprehensive.BANGALORE_CENTER) (snd Comprehensive.BANGALORE_CENTER)
             (north (fst Comprehensive.BANGALORE_CENTER) 51)
             (snd Comprehensive.BANGALORE_CENTER)).
  - reflexivity.
  - rewrite haversine_distance_self. lra.
  - simpl. lia.
Defined.

(** * A failure on a later page *)

Section LatePage.
Variable pandas : Sorter.
Variable details : string -> Api.reply Api.Details.
Variable min_reviews : Z.

Local Abbreviation client := (scripted details).

(** The API serves one page with a token and fails on the next request. *)
Lemma api_pages_fails_late fuel places t (e : Env client) (l : Simple.Locals) :
  t <> "" -> world e = [page places (Some t)] ->
  exists s', Simple.api_pages (S (S fuel)) min_reviews None (e, l) = (s', Raised ApiError).
Proof.
  intros T Hw.
  destruct (@api_pages_served details min_reviews (S fuel) None places (Some t) [] e l Hw)
    as (e1 & l1 & W1 & _ & ->).
  rewrite (truthy_token_some T). cbn [negb].
  unfold bind at 1. cbn [sleep emit modify fst snd].
  cbn [Simple.api_pages]. unfold bind at 1, gmaps_places_nearby, call.
  cbn [fst snd world]. rewrite W1. cbn. eexists. reflexivity.
Qed.
End LatePage.

(** X15: in the single-query fetcher a search request that fails on a
    later page costs everything found before it.  When the API serves a
    first page with a page token and then fails, the fetch returns [None]
    whatever hospitals the first page had brought, and [get_eye_hospitals]
    hands over the sample data instead of them. *)
Theorem X15_late_failure_discards_results (pandas : Sorter)
    (details : string -> Api.reply Api.Details) (min_reviews : Z) (fuel : nat)
    (places : list Api.Place) (t : string) (tr : list Event) :
  t <> "" ->
  snd (Simple.fetch_eye_hospitals_from_api pandas (S (S fuel)) min_reviews
         (@Build_Env (scripted details) [page places (Some t)] tr)) = Ok None /\
  snd (Simple.get_eye_hospitals pandas (S (S fuel)) min_reviews false
         (@Build_Env (scripted details) [page places (Some t)] tr))
    = Ok (Simple.sample_data pandas min_reviews).
Proof.
  intros T.
  set (e := @Build_Env (scripted details) [page places (Some t)] tr).
  destruct (@api_pages_fails_late details min_reviews fuel places t e Simple.fresh T eq_refl)
    as (s' & P).
  assert (F : snd (Simple.fetch_eye_hospitals_from_api pandas (S (S fuel)) min_reviews e)
              = Ok None).
  { unfold Simple.fetch_eye_hospitals_from_api, with_locals, Simple.api_body.
    erewrite try_except_raised; [reflexivity|].
    apply bind_raised, P. }
  split; [exact F|].
  unfold Simple.get_eye_hospitals, bind.
  destruct (Simple.fetch_eye_hospitals_from_api pandas (S (S fuel)) min_reviews e) as [e' o].
  cbn [snd] in F. subst o. reflexivity.
Qed.

Lemma X15_late_failure_discards_results_witness :
  "t1" <> "" /\
  ids (Simple.hospitals
         (snd (fst (Simple.api_pages 2 100 None
                      (@Build_Env (scripted (listing 500))
                         [page [place_at "P1" 12.9716 77.5946] (Some "t1")] [],
                       Simple.fresh))))) = ["P1"] /\
  snd (Simple.get_eye_hospitals stable_sorter 2 100 false
         (@Build_Env (scripted (listing 500))
            [page [place_at "P1" 12.9716 77.5946] (Some "t1")] []))
    = Ok (Simple.sample_data stable_sorter 100).
Proof.
  assert (T : "t1" <> "") by discriminate.
  split; [exact T|]. split; [vm_compute; reflexivity|].
  exact (proj2 (@X15_late_failure_discards_results stable_sorter (listing 500) 100 0
                  [place_at "P1" 12.9716 77.5946] "t1" [] T)).
Defined.
